(** * kylbox: the fridge frame codec and the Domoticz synchronisation loop

    A shallow embedding of [domoticz_fridge_control.py] (and of the frame
    parser of [test_fridge.py]) together with the properties of the framed
    protocol, of the notification handler and of the polling loop.

    Conventions of the embedding:
    - [bytes] / [bytearray] values are [list byte]; the integer a byte
      denotes is [byte_val];
    - a Python exception is a constructor of [exn]; code that may raise
      returns a [result];
    - the module-level globals [current_known_setpoint],
      [last_reported_fridge_temp] and [last_reported_fridge_target] are the
      record [SyncState], threaded by the monad [Task], which also collects
      the trace of observable events (console lines, BLE writes, sleeps,
      created asyncio tasks);
    - a coroutine is run cooperatively: at every [await] the environment
      says which notification frames were delivered while the coroutine was
      suspended and how the awaited operation ended ([awaited]);
    - a Python [float] is the rational number it denotes (the values
      pulled from the server are finite).

    [get_domoticz_setpoint] and the HTTP exchange of
    [update_domoticz_device] belong to the environment: the first is known
    by the value it returns, the second by the server's reply.  [main] is
    not part of the embedding. *)

From Stdlib Require Import ZArith List Lia Bool String Ascii QArith Qround
  DecimalString.
From Stdlib.Strings Require Import Byte.
Import ListNotations.
Open Scope Z_scope.

(* ================================================================== *)
(** * Exceptions and fallible values *)

Inductive exn : Type :=
| IndexError            (* sequence index out of range *)
| StructError           (* struct.error: value does not fit the format *)
| BleakError            (* bleak.BleakError *)
| CancelledError        (* asyncio.CancelledError, a BaseException *)
| OtherException.       (* any other subclass of Exception *)

Inductive result (A : Type) : Type :=
| Ok (a : A)
| Raise (e : exn).
Arguments Ok {A} a.
Arguments Raise {A} e.

Definition rbind {A B} (r : result A) (k : A -> result B) : result B :=
  match r with
  | Ok a => k a
  | Raise e => Raise e
  end.

Declare Scope result_scope.
Delimit Scope result_scope with result.
Notation "'let?' x := r 'in' k" := (rbind r (fun x => k))
  (at level 10, x pattern, r at level 100, k at level 200) : result_scope.

(** [except Exception] catches every exception but the BaseExceptions. *)
Definition is_Exception (e : exn) : bool :=
  match e with
  | CancelledError => false
  | _ => true
  end.

(* ================================================================== *)
(** * Bytes, [struct] and the built-ins used by the program *)

Definition byte_val (b : byte) : Z := Z.of_N (Byte.to_N b).

(** [data[i]] for a literal, non-negative index. *)
Definition index (data : list byte) (i : nat) : result byte :=
  match nth_error data i with
  | Some b => Ok b
  | None => Raise IndexError
  end.

(** A slice bound is first normalised as Python does: a negative bound
    counts from the end, and the result is clamped to [0, len]. *)
Definition clamp_bound (len i : Z) : Z :=
  if i <? 0 then Z.max 0 (i + len) else Z.min i len.

(** [data[start:stop]]; slicing never raises. *)
Definition slice (data : list byte) (start stop : Z) : list byte :=
  let len := Z.of_nat (List.length data) in
  let lo := clamp_bound len start in
  let hi := clamp_bound len stop in
  firstn (Z.to_nat (hi - lo)) (skipn (Z.to_nat lo) data).

(** [sum(data)] *)
Definition sum (data : list byte) : Z :=
  fold_left (fun acc b => acc + byte_val b) data 0.

(** [struct.pack('B', v)]: one unsigned byte, [struct.error] out of range. *)
Definition pack_B (v : Z) : result byte :=
  if v <? 0 then Raise StructError
  else match Byte.of_N (Z.to_N v) with
       | Some b => Ok b
       | None => Raise StructError
       end.

(** [struct.pack('>H', v)]: two bytes, most significant first. *)
Definition pack_H_be (v : Z) : result (list byte) :=
  if (v <? 0) || (65535 <? v) then Raise StructError
  else (let? hi := pack_B (Z.shiftr v 8) in
        let? lo := pack_B (Z.land v 255) in
        Ok [hi; lo])%result.

(** [struct.pack('b', v)[0]]: the byte of a signed 8-bit value. *)
Definition pack_b (v : Z) : result byte :=
  if (v <? -128) || (127 <? v) then Raise StructError
  else pack_B (v mod 256).

(** [struct.unpack('b', bytes([x]))[0]]: two's complement reading. *)
Definition unpack_b (b : byte) : Z :=
  let v := byte_val b in
  if v <? 128 then v else v - 256.

(** [str(n)] for an [int]. *)
Definition str (n : Z) : string := NilZero.string_of_int (Z.to_int n).

(** [round(x)] for a float: to the nearest integer, ties to even. *)
Definition py_round (x : Q) : Z :=
  let f := Qfloor x in
  match Qcompare (x - inject_Z f) (1 # 2) with
  | Lt => f
  | Gt => f + 1
  | Eq => if Z.even f then f else f + 1
  end.

(** [a != b] where [a] is [None] or an [int] and [b] is an [int]. *)
Definition differs (a : option Z) (b : Z) : bool :=
  match a with
  | None => true
  | Some x => negb (x =? b)
  end.

(* ================================================================== *)
(** * Configuration constants *)

Definition WRITE_CHAR : string := "00001235-0000-1000-8000-00805f9b34fb".
Definition NOTIFY_CHAR : string := "00001236-0000-1000-8000-00805f9b34fb".
Definition DOMOTICZ_URL : string := "http://192.168.1.123:8080".
Definition DOMOTICZ_FRIDGE_TEMP_IDX : string := "62".
Definition DOMOTICZ_FRIDGE_SETPOINT_IDX : string := "61".
Definition DOMOTICZ_POLLING_INTERVAL : Z := 10.

(* ================================================================== *)
(** * Frame codec *)

(** [calculate_checksum] (defined in both files, used by neither). *)
Definition calculate_checksum (data : list byte) : Z :=
  Z.land (sum data) 0xFF.

(** [create_packet]: header, length byte, command and payload, 2-byte
    checksum. *)
Definition create_packet (data : list byte) : result (list byte) :=
  let pkt_payload_len := Z.of_nat (List.length data) in
  let length_byte_value := pkt_payload_len + 2 in
  (let? length_byte := pack_B length_byte_value in
   let pkt := [xfe; xfe] ++ [length_byte] ++ data in
   let csum := Z.land (sum pkt) 0xFFFF in
   let? csum_bytes := pack_H_be csum in
   Ok (pkt ++ csum_bytes))%result.

(** [parse_frame] of [domoticz_fridge_control.py]. *)
Definition parse_frame (data : list byte) : result (byte * list byte) :=
  (let? length_byte := index data 2 in
   let cmd_plus_payload_len := byte_val length_byte - 2 in
   let? cmd := index data 3 in
   let payload_len := cmd_plus_payload_len - 1 in
   if 0 <? payload_len
   then Ok (cmd, slice data 4 (4 + payload_len))
   else Ok (cmd, []))%result.

Module TestFridge.

(** [parse_frame] of [test_fridge.py]. *)
Definition parse_frame (data : list byte) : result (byte * list byte) :=
  (let? length_byte := index data 2 in
   let length := byte_val length_byte in
   let? cmd := index data 3 in
   Ok (cmd, slice data 4 (4 + length - 3)))%result.

End TestFridge.

(* ================================================================== *)
(** * Decoded JSON documents *)

(** A decoded JSON document ([response.json()]); Python's [None] is
    [JNull], an object is given by its members in document order, and a
    number is finite. *)
#[local] Set Warnings "-register-all".
Inductive json : Type :=
| JNull
| JBool (b : bool)
| JNumber (q : Q)
| JString (s : string)
| JArray (items : list json)
| JObject (members : list (string * json)).

(** The value of a key of a decoded object: the last member with that key,
    as [json] keeps it. *)
Definition member (key : string) (members : list (string * json))
  : option json :=
  fold_left (fun found kv => if (fst kv =? key)%string then Some (snd kv)
                             else found) members None.

(** [v.get(key)]: the value, [None] when the key is missing; only a dict
    has the method (AttributeError otherwise). *)
Definition dict_get (v : json) (key : string) : result json :=
  match v with
  | JObject members =>
      match member key members with
      | Some x => Ok x
      | None => Ok JNull
      end
  | _ => Raise OtherException
  end.

(** [v[key]] for a string key: KeyError when missing, TypeError or
    IndexError kinds of failure on a value that is not a dict. *)
Definition subscript_key (v : json) (key : string) : result json :=
  match v with
  | JObject members =>
      match member key members with
      | Some x => Ok x
      | None => Raise OtherException
      end
  | _ => Raise OtherException
  end.

(** [v[0]]: the first item of a list, the first character of a string;
    IndexError when these are empty, KeyError on a dict (its keys are
    strings), TypeError on the other values. *)
Definition subscript_0 (v : json) : result json :=
  match v with
  | JArray (x :: _) => Ok x
  | JArray [] => Raise IndexError
  | JString (String c _) => Ok (JString (String c EmptyString))
  | JString EmptyString => Raise IndexError
  | _ => Raise OtherException
  end.

(** Truth value of a decoded value in an [if]. *)
Definition truthy (v : json) : bool :=
  match v with
  | JNull => false
  | JBool b => b
  | JNumber q => negb (Qeq_bool q 0)
  | JString s => negb (s =? "")%string
  | JArray items => match items with [] => false | _ => true end
  | JObject members => match members with [] => false | _ => true end
  end.

(** [v == s] for a string literal [s]. *)
Definition equals_str (v : json) (s : string) : bool :=
  match v with
  | JString t => (t =? s)%string
  | _ => false
  end.

Definition is_None (v : json) : bool :=
  match v with
  | JNull => true
  | _ => false
  end.


(* ================================================================== *)
(** * Synchronisation state, observable events and the task monad *)

(** The three module-level globals written by the handler and by
    [set_temperature]; all start as [None]. *)
Record SyncState : Type := {
  current_known_setpoint : option Z;
  last_reported_fridge_temp : option Z;
  last_reported_fridge_target : option Z
}.

Definition initial_state : SyncState :=
  {| current_known_setpoint := None;
     last_reported_fridge_temp := None;
     last_reported_fridge_target := None |}.

Definition set_current_known_setpoint (v : Z) (s : SyncState) : SyncState :=
  {| current_known_setpoint := Some v;
     last_reported_fridge_temp := last_reported_fridge_temp s;
     last_reported_fridge_target := last_reported_fridge_target s |}.

Definition set_last_reported_fridge_temp (v : Z) (s : SyncState) : SyncState :=
  {| current_known_setpoint := current_known_setpoint s;
     last_reported_fridge_temp := Some v;
     last_reported_fridge_target := last_reported_fridge_target s |}.

Definition set_last_reported_fridge_target (v : Z) (s : SyncState)
  : SyncState :=
  {| current_known_setpoint := current_known_setpoint s;
     last_reported_fridge_temp := last_reported_fridge_temp s;
     last_reported_fridge_target := Some v |}.

(** The four values read from a query response (lines 143-146). *)
Record Reading : Type := {
  actual_temp : Z;
  target_temp : Z;
  bat_percent : Z;
  bat_vol : string
}.

(** The answer of the Domoticz server to the GET of
    [update_domoticz_device]: the HTTP status and the decoded body ([None]
    when the body is not JSON, which makes [response.json()] raise
    JSONDecodeError), or a client error. *)
Inductive http_reply : Type :=
| Response (status : Z) (body : option json)
| ClientError.

(** Console lines; each stands for the [print] at the source line given. *)
Inductive console : Type :=
| LineBadIdx (idx : string)                       (* 63 *)
| LineNoSession                                   (* 66 *)
| LineUpdated (idx svalue : string)               (* 75 *)
| LineUpdateRefused (idx : string)                (* 77 *)
| LineHttpError (status : Z) (idx : string)       (* 79 *)
| LineClientError (idx : string)                  (* 81 *)
| LineBadJSON (idx : string)                      (* 84 *)
| LineReading (r : Reading)                       (* 148 *)
| LineShortPayload (payload : list byte)          (* 161 *)
| LineUnexpected (e : exn)                        (* 163 *)
| LineSetAck                                      (* 167 *)
| LineConnecting (attempt max_attempts : Z)       (* 175 *)
| LineConnected                                   (* 178 *)
| LineConnectError                                (* 181 *)
| LineWaiting                                     (* 183 *)
| LineGaveUp                                      (* 186 *)
| LineNotConnected                                (* 192 *)
| LineSending (temp : Z) (pkt : list byte)        (* 201 *)
| LineSent (temp : Z)                             (* 204 *)
| LineVerifying                                   (* 213 *)
| LineSendError                                   (* 222 *)
| LinePollStart                                   (* 227 *)
| LineNewSetpoint (new : Z) (known : option Z).   (* 245 *)

Inductive event : Type :=
| Print (line : console)
| CreateTask (idx svalue : string)
    (* asyncio.create_task(update_domoticz_device(idx, svalue)) *)
| WriteGatt (char : string) (pkt : list byte)
    (* await client.write_gatt_char(char, pkt) *)
| Sleep (seconds : Z)              (* await asyncio.sleep(seconds) *)
| Connect (address : string)       (* await BleakClient(address).connect() *)
| GetSetpoint (idx : string)       (* await get_domoticz_setpoint(idx) *)
| HttpGet (url : string)           (* aiohttp_session.get(url) *)
| CallbackRaised (e : exn).        (* an exception left the callback *)

(** A computation over the globals: its outcome, the globals afterwards and
    the events it produced.  An exception keeps the state and the events
    reached when it was raised. *)
Definition Task (A : Type) : Type :=
  SyncState -> result A * SyncState * list event.

Definition ret {A} (a : A) : Task A := fun s => (Ok a, s, []).

Definition bind {A B} (m : Task A) (k : A -> Task B) : Task B :=
  fun s =>
    match m s with
    | (Ok a, s1, t1) => let '(r, s2, t2) := k a s1 in (r, s2, t1 ++ t2)
    | (Raise e, s1, t1) => (Raise e, s1, t1)
    end.

Definition lift {A} (r : result A) : Task A := fun s => (r, s, []).
Definition emit (e : event) : Task unit := fun s => (Ok tt, s, [e]).
Definition read_globals : Task SyncState := fun s => (Ok s, s, []).
Definition assign (f : SyncState -> SyncState) : Task unit :=
  fun s => (Ok tt, f s, []).

(** [try: body  except ...: handler]; [handler e] is [None] when no
    [except] clause matches [e], which is then raised further. *)
Definition try_except {A} (body : Task A) (handler : exn -> option (Task A))
  : Task A :=
  fun s =>
    match body s with
    | (Ok a, s1, t1) => (Ok a, s1, t1)
    | (Raise e, s1, t1) =>
        match handler e with
        | Some h => let '(r, s2, t2) := h s1 in (r, s2, t1 ++ t2)
        | None => (Raise e, s1, t1)
        end
    end.

(** [if c: body] without [else]. *)
Definition when (c : bool) (body : Task unit) : Task unit :=
  if c then body else ret tt.

Declare Scope task_scope.
Delimit Scope task_scope with task.
Notation "x <- m ;; k" := (bind m (fun x => k))
  (at level 61, m at next level, right associativity) : task_scope.
Notation "' pat <- m ;; k" :=
  (bind m (fun x => match x with pat => k end))
  (at level 61, pat pattern, m at next level, right associativity)
  : task_scope.
Notation "m ;; k" := (bind m (fun _ => k))
  (at level 61, right associativity) : task_scope.
Open Scope task_scope.

Definition state_of {A} (r : result A * SyncState * list event) : SyncState :=
  snd (fst r).
Definition trace_of {A} (r : result A * SyncState * list event)
  : list event := snd r.
Definition outcome_of {A} (r : result A * SyncState * list event)
  : result A := fst (fst r).

(** The tasks a trace created, the frames it wrote to the device and the
    operations it awaited, in order. *)
Definition created_tasks (t : list event) : list (string * string) :=
  flat_map (fun e => match e with
                     | CreateTask idx svalue => [(idx, svalue)]
                     | _ => []
                     end) t.

Definition written_frames (t : list event) : list (list byte) :=
  flat_map (fun e => match e with
                     | WriteGatt _ pkt => [pkt]
                     | _ => []
                     end) t.

Definition awaited_ops (t : list event) : list event :=
  filter (fun e => match e with
                   | Connect _ | Sleep _ | WriteGatt _ _ | GetSetpoint _
                   | HttpGet _ => true
                   | _ => false
                   end) t.

(* ================================================================== *)
(** * The notification handler *)

(** Lines 143-146: the four reads of the query-response payload, in the
    order of the source. *)
Definition read_query (payload : list byte) : result Reading :=
  (let? b14 := index payload 14 in
   let actual := unpack_b b14 in
   let? b4 := index payload 4 in
   let target := unpack_b b4 in
   let? b15 := index payload 15 in
   let? b16 := index payload 16 in
   let? b17 := index payload 17 in
   Ok {| actual_temp := actual;
         target_temp := target;
         bat_percent := byte_val b15;
         bat_vol := str (byte_val b16) ++ "." ++ str (byte_val b17) |})%result.

Definition notification_handler (data : list byte) : Task unit :=
  '(cmd, payload) <- lift (parse_frame data) ;;
  if byte_val cmd =? 0x01 then
    try_except
      (r <- lift (read_query payload) ;;
       emit (Print (LineReading r)) ;;
       st <- read_globals ;;
       when (negb (DOMOTICZ_FRIDGE_TEMP_IDX =? "IDX_TEMP")%string
             && differs (last_reported_fridge_temp st) (actual_temp r))
         (emit (CreateTask DOMOTICZ_FRIDGE_TEMP_IDX (str (actual_temp r))) ;;
          assign (set_last_reported_fridge_temp (actual_temp r))) ;;
       st <- read_globals ;;
       when (negb (DOMOTICZ_FRIDGE_SETPOINT_IDX =? "IDX_SETPOINT")%string
             && differs (last_reported_fridge_target st) (target_temp r))
         (emit (CreateTask DOMOTICZ_FRIDGE_SETPOINT_IDX
                  (str (target_temp r))) ;;
          assign (set_last_reported_fridge_target (target_temp r))) ;;
       assign (set_current_known_setpoint (target_temp r)))
      (fun e =>
         match e with
         | IndexError => Some (emit (Print (LineShortPayload payload)))
         | _ => if is_Exception e
                then Some (emit (Print (LineUnexpected e)))
                else None
         end)
  else if byte_val cmd =? 0x05 then
    emit (Print LineSetAck)
  else ret tt.

(* ================================================================== *)
(** * Cooperative scheduling *)

(** What happens while a coroutine is suspended at an [await]: the frames
    the transport delivered to the notification callback meanwhile, then
    the way the awaited operation ended. *)
Record awaited (R : Type) : Type := {
  arrived : list (list byte);
  outcome : result R
}.
Arguments arrived {R} a.
Arguments outcome {R} a.

Definition completes {R} (r : R) : awaited R :=
  {| arrived := []; outcome := Ok r |}.
Definition fails {R} (e : exn) : awaited R :=
  {| arrived := []; outcome := Raise e |}.

(** One invocation of the callback by the transport: an exception of the
    handler ends the callback, not the suspended coroutine. *)
Definition callback (data : list byte) : Task unit :=
  fun s =>
    match notification_handler data s with
    | (Ok _, s1, t1) => (Ok tt, s1, t1)
    | (Raise e, s1, t1) => (Ok tt, s1, t1 ++ [CallbackRaised e])
    end.

Fixpoint deliver (frames : list (list byte)) : Task unit :=
  match frames with
  | [] => ret tt
  | data :: rest => callback data ;; deliver rest
  end.

(** [await op]. *)
Definition await {R} (op : event) (a : awaited R) : Task R :=
  emit op ;; deliver (arrived a) ;; lift (outcome a).

(* ================================================================== *)
(** * The upstream push *)

(** [update_domoticz_device(idx, svalue, nvalue)]; [session] says whether
    the global [aiohttp_session] is set and [reply] is the server's answer.
    The coroutine prints and never reads or writes the globals of
    [SyncState].  It returns [None], except that on a 200 answer whose
    decoded body is not a dict [response_json.get] fails with an
    AttributeError, which neither [except] clause catches. *)
Definition update_domoticz_device (session : bool) (idx svalue : string)
    (nvalue : Z) (reply : http_reply) : Task unit :=
  if ((idx =? "") || (idx =? "IDX_TEMP") || (idx =? "IDX_SETPOINT"))%string
  then emit (Print (LineBadIdx idx))
  else if negb session then emit (Print LineNoSession)
  else
    let url :=
      (DOMOTICZ_URL ++ "/json.htm?type=command&param=udevice&idx=" ++ idx
       ++ "&nvalue=" ++ str nvalue ++ "&svalue=" ++ svalue)%string in
    emit (HttpGet url) ;;
    match reply with
    | Response status body =>
        if status =? 200 then
          match body with
          | Some response_json =>
              reported <- lift (dict_get response_json "status") ;;
              if equals_str reported "OK"
              then emit (Print (LineUpdated idx svalue))
              else emit (Print (LineUpdateRefused idx))
          | None => emit (Print (LineBadJSON idx))
          end
        else emit (Print (LineHttpError status idx))
    | ClientError => emit (Print (LineClientError idx))
    end.

(** The push reached the server and was accepted (the path of line 75). *)
Definition push_succeeded (session : bool) (idx : string)
    (reply : http_reply) : bool :=
  negb ((idx =? "") || (idx =? "IDX_TEMP") || (idx =? "IDX_SETPOINT"))%string
  && session
  && match reply with
     | Response status (Some response_json) =>
         (status =? 200)
         && match dict_get response_json "status" with
            | Ok reported => equals_str reported "OK"
            | Raise _ => false
            end
     | _ => false
     end.

(** The event loop running, one after the other, the tasks created by
    [asyncio.create_task]; [reply] gives the server's answer to each.  An
    exception ends the task that raised it and no other. *)
Fixpoint run_created_tasks (session : bool)
    (reply : string -> string -> http_reply)
    (tasks : list (string * string)) : Task unit :=
  match tasks with
  | [] => ret tt
  | (idx, svalue) :: rest =>
      try_except
        (update_domoticz_device session idx svalue 0 (reply idx svalue))
        (fun _ => Some (ret tt)) ;;
      run_created_tasks session reply rest
  end.

(* ================================================================== *)
(** * Device session *)

(** The [BleakClient] object made by attempt number [client_attempt]. *)
Record BleakClient : Type := {
  client_address : string;
  client_attempt : Z
}.

(** How the transport behaves during [connect_with_retry]: the end of the
    [connect()] of each attempt and of the sleep that follows it.  No
    notification callback is registered yet, so no frame is delivered. *)
Record ConnectEnv : Type := {
  connect_outcome : Z -> result unit;
  backoff_outcome : Z -> result unit
}.

(** [range(n)] *)
Definition range (n : Z) : list Z := map Z.of_nat (seq 0 (Z.to_nat n)).

(** The [for attempt in range(max_attempts)] loop of [connect_with_retry];
    an iteration yields [Some v] when it executes [return v]. *)
Fixpoint connect_loop (env : ConnectEnv) (address : string)
    (max_attempts : Z) (attempts : list Z) : Task (option BleakClient) :=
  match attempts with
  | [] => ret None
  | attempt :: rest =>
      returned <-
        try_except
          (emit (Print (LineConnecting (attempt + 1) max_attempts)) ;;
           let client := {| client_address := address;
                            client_attempt := attempt |} in
           await (Connect address)
             {| arrived := []; outcome := connect_outcome env attempt |} ;;
           emit (Print LineConnected) ;;
           ret (Some (Some client)))
          (fun e =>
             match e with
             | BleakError =>
                 Some (emit (Print LineConnectError) ;;
                       if attempt <? max_attempts - 1 then
                         emit (Print LineWaiting) ;;
                         await (Sleep 5)
                           {| arrived := [];
                              outcome := backoff_outcome env attempt |} ;;
                         ret None
                       else
                         emit (Print LineGaveUp) ;;
                         ret (Some None))
             | _ => None
             end) ;;
      match returned with
      | Some v => ret v
      | None => connect_loop env address max_attempts rest
      end
  end.

Definition connect_with_retry (env : ConnectEnv) (address : string)
    (max_attempts : Z) : Task (option BleakClient) :=
  connect_loop env address max_attempts (range max_attempts).

(** What the environment does during one call of [set_temperature]. *)
Record SetTempEnv : Type := {
  is_connected : bool;          (* client and client.is_connected, 191 *)
  set_write : awaited unit;     (* write of the set command, 203 *)
  settle_sleep : awaited unit;  (* asyncio.sleep(1), 211 *)
  query_write : awaited unit;   (* write of the query, 217 *)
  reply_sleep : awaited unit    (* asyncio.sleep(2), 219 *)
}.

Definition set_temperature (env : SetTempEnv) (temp : Z) : Task unit :=
  if negb (is_connected env) then
    emit (Print LineNotConnected)
  else
    temp_byte <- lift (pack_b temp) ;;
    let command_payload := [x05; temp_byte] in
    command_to_send <- lift (create_packet command_payload) ;;
    emit (Print (LineSending temp command_to_send)) ;;
    try_except
      (await (WriteGatt WRITE_CHAR command_to_send) (set_write env) ;;
       emit (Print (LineSent temp)) ;;
       assign (set_current_known_setpoint temp) ;;
       st <- read_globals ;;
       when (negb (DOMOTICZ_FRIDGE_SETPOINT_IDX =? "IDX_SETPOINT")%string
             && differs (last_reported_fridge_target st) temp)
         (emit (CreateTask DOMOTICZ_FRIDGE_SETPOINT_IDX (str temp)) ;;
          assign (set_last_reported_fridge_target temp)) ;;
       await (Sleep 1) (settle_sleep env) ;;
       emit (Print LineVerifying) ;;
       let query_command_payload := [x01] in
       query_to_send <- lift (create_packet query_command_payload) ;;
       await (WriteGatt WRITE_CHAR query_to_send) (query_write env) ;;
       await (Sleep 2) (reply_sleep env))
      (fun e =>
         match e with
         | BleakError => Some (emit (Print LineSendError))
         | _ => None
         end).

(* ================================================================== *)
(** * The polling loop *)

(** What the environment does during one iteration of the loop of
    [poll_domoticz_for_setpoint_changes]; [pull] is the value returned by
    [get_domoticz_setpoint] ([None] when the server could not be read). *)
Record TickEnv : Type := {
  interval_sleep : awaited unit;   (* asyncio.sleep(10), 229 *)
  tick_connected : bool;           (* client and client.is_connected, 230 *)
  pull : awaited (option Q);       (* get_domoticz_setpoint, 239 *)
  set_env : SetTempEnv             (* for the call at 246 *)
}.

(** The body of the [while True] loop (lines 229-246). *)
Definition poll_iteration (env : TickEnv) : Task unit :=
  await (Sleep DOMOTICZ_POLLING_INTERVAL) (interval_sleep env) ;;
  if negb (tick_connected env) then ret tt
  else if (DOMOTICZ_FRIDGE_SETPOINT_IDX =? "IDX_SETPOINT")%string then ret tt
  else
    domoticz_sp_float <-
      await (GetSetpoint DOMOTICZ_FRIDGE_SETPOINT_IDX) (pull env) ;;
    match domoticz_sp_float with
    | Some x =>
        let new_target_temp_from_domoticz := py_round x in
        st <- read_globals ;;
        if differs (current_known_setpoint st) new_target_temp_from_domoticz
        then
          emit (Print (LineNewSetpoint new_target_temp_from_domoticz
                         (current_known_setpoint st))) ;;
          set_temperature (set_env env) new_target_temp_from_domoticz
        else ret tt
    | None => ret tt
    end.

(** The first iterations of the loop, one per element of [envs]. *)
Fixpoint poll_loop (envs : list TickEnv) : Task unit :=
  match envs with
  | [] => ret tt
  | env :: rest => poll_iteration env ;; poll_loop rest
  end.

Definition poll_domoticz_for_setpoint_changes (envs : list TickEnv)
  : Task unit :=
  emit (Print LinePollStart) ;; poll_loop envs.

(* ================================================================== *)
(** * Values used in the statements *)

(** The doubles written [4.4] and [5.6]. *)
Definition float_4_4 : Q := 2476979795053773 # 562949953421312.
Definition float_5_6 : Q := 3152519739159347 # 562949953421312.

(** The frame the device is sent to set the target to 6 degrees. *)
Definition set_target_6 : list byte := [xfe; xfe; x04; x05; x06; x02; x0b].
(** The query frame. *)
Definition query_frame : list byte := [xfe; xfe; x03; x01; x02; x00].

(** A tick on which the client is connected and the pull returns [x];
    [senv] is what happens if the tick calls [set_temperature]. *)
Definition tick (x : Q) (senv : SetTempEnv) : TickEnv :=
  {| interval_sleep := completes tt;
     tick_connected := true;
     pull := completes (Some x);
     set_env := senv |}.

(** A set-temperature sequence during which no frame arrives and nothing
    fails, and one whose first write raises BleakError. *)
Definition quiet_set_env : SetTempEnv :=
  {| is_connected := true;
     set_write := completes tt;
     settle_sleep := completes tt;
     query_write := completes tt;
     reply_sleep := completes tt |}.

Definition failing_set_env : SetTempEnv :=
  {| is_connected := true;
     set_write := fails BleakError;
     settle_sleep := completes tt;
     query_write := completes tt;
     reply_sleep := completes tt |}.

Definition quiet_tick (x : Q) : TickEnv := tick x quiet_set_env.

(** The globals when the device is known to be set to 4 degrees. *)
Definition known_4 : SyncState :=
  {| current_known_setpoint := Some 4;
     last_reported_fridge_temp := Some 2;
     last_reported_fridge_target := Some 4 |}.

(** The state and the created tasks after a query response carrying the
    reading [r]. *)
Definition after_reading (r : Reading) (st : SyncState) : SyncState :=
  {| current_known_setpoint := Some (target_temp r);
     last_reported_fridge_temp :=
       if differs (last_reported_fridge_temp st) (actual_temp r)
       then Some (actual_temp r) else last_reported_fridge_temp st;
     last_reported_fridge_target :=
       if differs (last_reported_fridge_target st) (target_temp r)
       then Some (target_temp r) else last_reported_fridge_target st |}.

Definition pushes_of_reading (r : Reading) (st : SyncState) : list event :=
  (if differs (last_reported_fridge_temp st) (actual_temp r)
   then [CreateTask DOMOTICZ_FRIDGE_TEMP_IDX (str (actual_temp r))]
   else [])
  ++ (if differs (last_reported_fridge_target st) (target_temp r)
      then [CreateTask DOMOTICZ_FRIDGE_SETPOINT_IDX (str (target_temp r))]
      else []).

(** A transport whose connect always fails (and sleeps that complete). *)
Definition always_failing : ConnectEnv :=
  {| connect_outcome := fun _ => Raise BleakError;
     backoff_outcome := fun _ => Ok tt |}.

(** The events of an attempt that fails and is followed by another one. *)
Definition failed_attempt (address : string) (max_attempts attempt : Z)
  : list event :=
  [Print (LineConnecting (attempt + 1) max_attempts); Connect address;
   Print LineConnectError; Print LineWaiting; Sleep 5].

(** The readings a trace printed, that is, the query responses that were
    processed. *)
Definition printed_readings (t : list event) : list Reading :=
  flat_map (fun e => match e with
                     | Print (LineReading r) => [r]
                     | _ => []
                     end) t.

(** The push tasks a trace created for the Domoticz device [idx]. *)
Definition pushes_for (idx : string) (t : list event)
  : list (string * string) :=
  filter (fun p => (fst p =? idx)%string) (created_tasks t).

(** An 18-byte query-response payload with target -4, actual 2, battery
    85 percent and 3.7 volts, and a frame carrying it. *)
Definition sample_payload : list byte :=
  [x00; x00; x00; x00; xfc; x00; x00; x00; x00; x00; x00; x00; x00; x00;
   x02; x55; x03; x07].
Definition sample_response : list byte :=
  [xfe; xfe; x15; x01] ++ sample_payload ++ [x03; x6f].

(** How a step may change one of the two [last_reported_*] globals: it
    keeps the value, or it sets it to a value [v] for which the same step
    created the push task [update_domoticz_device(idx, str(v))]. *)
Definition reported_as_scheduled (idx : string) (before after : option Z)
    (t : list event) : Prop :=
  after = before
  \/ exists v, after = Some v /\ In (idx, str v) (created_tasks t).

Definition step_scheduled (s s' : SyncState) (t : list event) : Prop :=
  reported_as_scheduled DOMOTICZ_FRIDGE_TEMP_IDX
    (last_reported_fridge_temp s) (last_reported_fridge_temp s') t
  /\ reported_as_scheduled DOMOTICZ_FRIDGE_SETPOINT_IDX
       (last_reported_fridge_target s) (last_reported_fridge_target s') t.

Definition schedules_reports {A} (m : Task A) : Prop :=
  forall s, step_scheduled s (state_of (m s)) (trace_of (m s)).

(* ================================================================== *)
(** * Pulling the setpoint from Domoticz *)

(** A Python [float]: a finite double, an infinity or a NaN. *)
Inductive pyfloat : Type :=
| Finite (q : Q)
| Infinity (negative : bool)
| NaN.

(** [s.split(" ")[0]]: the text before the first space. *)
Fixpoint before_space (s : string) : string :=
  match s with
  | EmptyString => EmptyString
  | String c rest =>
      if (c =? " ")%char then EmptyString else String c (before_space rest)
  end.

(** The server's answer to the GET of [get_domoticz_setpoint]: the HTTP
    status and the decoded body ([None] when the body is not JSON, which
    makes [response.json()] raise JSONDecodeError), or a client error. *)
Inductive setpoint_reply : Type :=
| SetpointResponse (status : Z) (body : option json)
| SetpointClientError.

(** The console lines of [get_domoticz_setpoint], by source line, and the
    HTTP request it sends. *)
Inductive setpoint_event : Type :=
| SetpointBadIdx (idx : string)                 (* 91 *)
| SetpointNoSession                             (* 94 *)
| SetpointGet (url : string)                    (* 99 *)
| SetpointUnparsable (text idx : string)        (* 117 *)
| SetpointNoField (idx : string)                (* 120 *)
| SetpointRefused (idx : string)                (* 123 *)
| SetpointHttpError (status : Z) (idx : string) (* 126 *)
| SetpointClientFailure (idx : string)          (* 129 *)
| SetpointBadJSON (idx : string).               (* 133 *)

Section GetSetpoint.

(** The built-in [float] applied to a [str]: [None] when it raises
    ValueError. *)
Variable float : string -> option pyfloat.

(** Lines 102-124: what is made of the decoded body; the events are the
    lines printed on the way. *)
Definition read_setpoint (idx : string) (data : json)
  : result (option pyfloat * list setpoint_event) :=
  (let? status := dict_get data "status" in
   let? found :=
     (if equals_str status "OK"
      then (let? result := dict_get data "result" in Ok (truthy result))
      else Ok false) in
   if found then
     let? result := subscript_key data "result" in
     let? device_info := subscript_0 result in
     let? data_field := dict_get device_info "Data" in
     let? with_svalue1 :=
       (if is_None data_field then dict_get device_info "svalue1"
        else Ok data_field) in
     let? setpoint_str :=
       (if is_None with_svalue1 then dict_get device_info "SetPoint"
        else Ok with_svalue1) in
     if truthy setpoint_str then
       match setpoint_str with
       | JString text =>
           match float (before_space text) with
           | Some x => Ok (Some x, [])
           | None => Ok (None, [SetpointUnparsable text idx])
           end
       | _ => Raise OtherException
       end
     else Ok (None, [SetpointNoField idx])
   else Ok (None, [SetpointRefused idx]))%result.

(** [get_domoticz_setpoint(idx)]; [session] says whether the global
    [aiohttp_session] is set.  The coroutine does not read or write the
    globals of [SyncState]: it is given by the events it produces and by
    what it returns or raises. *)
Definition get_domoticz_setpoint (session : bool) (idx : string)
    (reply : setpoint_reply)
  : list setpoint_event * result (option pyfloat) :=
  if ((idx =? "") || (idx =? "IDX_SETPOINT"))%string
  then ([SetpointBadIdx idx], Ok None)
  else if negb session then ([SetpointNoSession], Ok None)
  else
    let url := (DOMOTICZ_URL ++ "/json.htm?type=devices&rid=" ++ idx)%string
    in
    match reply with
    | SetpointClientError =>
        ([SetpointGet url; SetpointClientFailure idx], Ok None)
    | SetpointResponse status body =>
        if status =? 200 then
          match body with
          | None => ([SetpointGet url; SetpointBadJSON idx], Ok None)
          | Some data =>
              match read_setpoint idx data with
              | Ok (value, lines) => (SetpointGet url :: lines, Ok value)
              | Raise IndexError =>
                  ([SetpointGet url; SetpointBadJSON idx], Ok None)
              | Raise e => ([SetpointGet url], Raise e)
              end
          end
        else ([SetpointGet url; SetpointHttpError status idx], Ok None)
    end.

End GetSetpoint.

(** The body Domoticz sends for a device: status OK and one device with the
    given members. *)
Definition device_body (device : list (string * json)) : json :=
  JObject [("status", JString "OK"); ("result", JArray [JObject device])]%string.

(* ================================================================== *)
(** * The session of [test_fridge.py] *)

Module TestFridgeSession.

(** Console lines of [test_fridge.py], by source line. *)
Inductive console : Type :=
| LineTemp (temp : Z)                                (* 37 *)
| LineTarget (target : Z)                            (* 38 *)
| LineBattery (bat_percent : Z) (bat_vol : string)   (* 39 *)
| LineQueryPayload (payload : list byte)             (* 40 *)
| LineSetAck                                         (* 42 *)
| LineAckPayload (payload : list byte)               (* 43 *)
| LineCommand (command : list byte)                  (* 74 *)
| LineSetting (temp : Z)                             (* 75 *)
| LineVerifying.                                     (* 81 *)

Inductive event : Type :=
| Print (line : console)
| WriteGatt (char : string) (pkt : list byte)
| Sleep (seconds : Z)
| CallbackRaised (e : exn).

(** The script has no global: a computation is its outcome and the events
    produced until then. *)
Definition Script (A : Type) : Type := result A * list event.

Definition ret {A} (a : A) : Script A := (Ok a, []).
Definition bind {A B} (m : Script A) (k : A -> Script B) : Script B :=
  match m with
  | (Ok a, t1) => let '(r, t2) := k a in (r, t1 ++ t2)
  | (Raise e, t1) => (Raise e, t1)
  end.
Definition lift {A} (r : result A) : Script A := (r, []).
Definition emit (e : event) : Script unit := (Ok tt, [e]).

Declare Scope script_scope.
Delimit Scope script_scope with script.
Notation "x <- m ;; k" := (bind m (fun x => k))
  (at level 61, m at next level, right associativity) : script_scope.
Notation "' pat <- m ;; k" :=
  (bind m (fun x => match x with pat => k end))
  (at level 61, pat pattern, m at next level, right associativity)
  : script_scope.
Notation "m ;; k" := (bind m (fun _ => k))
  (at level 61, right associativity) : script_scope.

(** [notification_handler] of [test_fridge.py]: no [try], so a short
    payload raises out of the callback. *)
Definition notification_handler (data : list byte) : Script unit :=
  ('(cmd, payload) <- lift (TestFridge.parse_frame data) ;;
   if byte_val cmd =? 0x01 then
     b14 <- lift (index payload 14) ;;
     let temp := unpack_b b14 in
     b4 <- lift (index payload 4) ;;
     let target := unpack_b b4 in
     b15 <- lift (index payload 15) ;;
     let bat_percent := byte_val b15 in
     b16 <- lift (index payload 16) ;;
     b17 <- lift (index payload 17) ;;
     let bat_vol := (str (byte_val b16) ++ "." ++ str (byte_val b17))%string in
     emit (Print (LineTemp temp)) ;;
     emit (Print (LineTarget target)) ;;
     emit (Print (LineBattery bat_percent bat_vol)) ;;
     emit (Print (LineQueryPayload payload))
   else if byte_val cmd =? 0x05 then
     emit (Print LineSetAck) ;;
     emit (Print (LineAckPayload payload))
   else ret tt)%script.

Definition callback (data : list byte) : Script unit :=
  match notification_handler data with
  | (Ok _, t) => (Ok tt, t)
  | (Raise e, t) => (Ok tt, t ++ [CallbackRaised e])
  end.

Fixpoint deliver (frames : list (list byte)) : Script unit :=
  match frames with
  | [] => ret tt
  | data :: rest => (callback data ;; deliver rest)%script
  end.

Definition await {R} (op : event) (a : awaited R) : Script R :=
  (emit op ;; deliver (arrived a) ;; lift (outcome a))%script.

(** What the environment does during [set_temperature]. *)
Record SetTempEnv : Type := {
  set_write : awaited unit;      (* 76 *)
  ack_sleep : awaited unit;      (* 78 *)
  query_write : awaited unit;    (* 82 *)
  reply_sleep : awaited unit     (* 83 *)
}.

(** [set_temperature] of [test_fridge.py]: no connection check and no
    [try]; the query is a literal. *)
Definition set_temperature (env : SetTempEnv) (temp : Z) : Script unit :=
  (temp_byte <- lift (pack_b temp) ;;
   let data := [x05; temp_byte] in
   command <- lift (create_packet data) ;;
   emit (Print (LineCommand command)) ;;
   emit (Print (LineSetting temp)) ;;
   await (WriteGatt WRITE_CHAR command) (set_write env) ;;
   await (Sleep 2) (ack_sleep env) ;;
   emit (Print LineVerifying) ;;
   await (WriteGatt WRITE_CHAR [xfe; xfe; x03; x01; x02; x00])
     (query_write env) ;;
   await (Sleep 2) (reply_sleep env))%script.

Definition written_frames (t : list event) : list (list byte) :=
  flat_map (fun e => match e with
                     | WriteGatt _ pkt => [pkt]
                     | _ => []
                     end) t.

End TestFridgeSession.

(* ================================================================== *)
(** * Notions used in the further properties *)

(** The known setpoint is the target last reported upstream. *)
Definition synced (s : SyncState) : Prop :=
  current_known_setpoint s = last_reported_fridge_target s.

Definition keeps_synced {A} (m : Task A) : Prop :=
  forall s, synced s -> synced (state_of (m s)).

(** The connection attempts and the sleeps of a trace. *)
Definition connects_of (t : list event) : list event :=
  filter (fun e => match e with Connect _ => true | _ => false end) t.

Definition sleeps_of (t : list event) : list event :=
  filter (fun e => match e with Sleep _ => true | _ => false end) t.


(** The HTTP requests among the events of [get_domoticz_setpoint]. *)
Definition setpoint_requests (t : list setpoint_event) : list string :=
  flat_map (fun e => match e with SetpointGet url => [url] | _ => [] end) t.

(** The characters of a string. *)
Fixpoint chars (s : string) : list ascii :=
  match s with
  | EmptyString => []
  | String c rest => c :: chars rest
  end.

(* ================================================================== *)
(** * Bytes and slices *)

Lemma byte_val_range (b : byte) : 0 <= byte_val b <= 255.
Proof.
  unfold byte_val. pose proof (Byte.to_N_bounded b). lia.
Qed.

Lemma pack_B_spec (v : Z) :
  0 <= v <= 255 -> exists b, pack_B v = Ok b /\ byte_val b = v.
Proof.
  intros Hv. unfold pack_B.
  destruct (v <? 0) eqn:Hneg; [lia|].
  destruct (Byte.of_N (Z.to_N v)) as [b|] eqn:Hb.
  - exists b. split; [reflexivity|].
    apply Byte.to_of_N in Hb. unfold byte_val. rewrite Hb. lia.
  - apply Byte.of_N_None_iff in Hb. lia.
Qed.

Lemma pack_B_byte_val (b : byte) : pack_B (byte_val b) = Ok b.
Proof.
  destruct (pack_B_spec (byte_val b) (byte_val_range b)) as [b' [Hp Hv]].
  rewrite Hp. f_equal.
  unfold byte_val in Hv. apply N2Z.inj in Hv.
  pose proof (Byte.of_to_N b) as H1. pose proof (Byte.of_to_N b') as H2.
  rewrite Hv in H2. congruence.
Qed.

Lemma pack_H_be_spec (v : Z) :
  0 <= v <= 65535 ->
  exists hi lo, pack_H_be v = Ok [hi; lo]
                /\ 256 * byte_val hi + byte_val lo = v.
Proof.
  intros Hv. unfold pack_H_be.
  destruct ((v <? 0) || (65535 <? v)) eqn:Hout; [lia|].
  assert (Hhi : 0 <= Z.shiftr v 8 <= 255).
  { rewrite Z.shiftr_div_pow2 by lia. change (2 ^ 8) with 256.
    split; [apply Z.div_pos; lia|].
    assert (v / 256 < 256) by (apply Z.div_lt_upper_bound; lia). lia. }
  assert (Hlo : 0 <= Z.land v 255 <= 255).
  { change (Z.land v 255) with (Z.land v (Z.ones 8)).
    rewrite Z.land_ones by lia.
    change (2 ^ 8) with 256. pose proof (Z.mod_pos_bound v 256). lia. }
  destruct (pack_B_spec _ Hhi) as [hi [Ehi Vhi]].
  destruct (pack_B_spec _ Hlo) as [lo [Elo Vlo]].
  exists hi, lo. rewrite Ehi, Elo. cbn [rbind]. split; [reflexivity|].
  rewrite Vhi, Vlo.
  rewrite Z.shiftr_div_pow2 by lia.
  change (Z.land v 255) with (Z.land v (Z.ones 8)).
  rewrite Z.land_ones by lia.
  change (2 ^ 8) with 256. pose proof (Z.div_mod v 256). lia.
Qed.

Lemma sum_from (data : list byte) (acc : Z) :
  fold_left (fun a b => a + byte_val b) data acc = acc + sum data.
Proof.
  unfold sum. revert acc.
  induction data as [|b data IH]; intros acc; cbn.
  - lia.
  - rewrite IH. rewrite (IH (byte_val b)). lia.
Qed.

Lemma sum_cons (b : byte) (data : list byte) :
  sum (b :: data) = byte_val b + sum data.
Proof.
  unfold sum at 1. cbn. apply sum_from.
Qed.

Lemma sum_nonneg (data : list byte) : 0 <= sum data.
Proof.
  induction data as [|b data IH].
  - unfold sum. cbn. lia.
  - rewrite sum_cons. pose proof (byte_val_range b). lia.
Qed.

(** With bounds that are not negative a slice is [skipn] then [firstn];
    too large a bound is cut at the end of the data. *)
Lemma slice_nonneg (data : list byte) (start stop : Z) :
  0 <= start -> 0 <= stop ->
  slice data start stop
  = firstn (Z.to_nat (stop - start)) (skipn (Z.to_nat start) data).
Proof.
  intros Hs He. unfold slice, clamp_bound.
  destruct (start <? 0) eqn:E1; [lia|].
  destruct (stop <? 0) eqn:E2; [lia|].
  destruct (Z_lt_le_dec start (Z.of_nat (List.length data))) as [Hin|Hout].
  - rewrite (Z.min_l start) by lia.
    destruct (Z_le_gt_dec stop (Z.of_nat (List.length data))) as [Hin2|Hout2].
    + rewrite (Z.min_l stop) by lia. reflexivity.
    + rewrite (Z.min_r stop) by lia.
      rewrite !firstn_all2; [reflexivity| |]; rewrite length_skipn; lia.
  - rewrite (Z.min_r start) by lia.
    rewrite !(skipn_all2 data) by lia.
    rewrite !firstn_nil. reflexivity.
Qed.

(* ================================================================== *)
(** * Frame codec: what the two functions compute *)

(** The frame [create_packet] builds when the length byte fits. *)
Lemma create_packet_layout (data : list byte) :
  Z.of_nat (List.length data) <= 253 ->
  exists len hi lo,
    create_packet data = Ok ([xfe; xfe; len] ++ data ++ [hi; lo])
    /\ byte_val len = Z.of_nat (List.length data) + 2
    /\ 256 * byte_val hi + byte_val lo
       = sum ([xfe; xfe; len] ++ data) mod 65536.
Proof.
  intros Hlen. unfold create_packet.
  destruct (pack_B_spec (Z.of_nat (List.length data) + 2)) as [len [El Vl]];
    [lia|].
  rewrite El. cbn [rbind].
  set (pkt := [xfe; xfe] ++ [len] ++ data).
  assert (Hc : Z.land (sum pkt) 0xFFFF = sum pkt mod 65536).
  { change 0xFFFF with (Z.ones 16). rewrite Z.land_ones by lia. reflexivity. }
  rewrite Hc.
  destruct (pack_H_be_spec (sum pkt mod 65536)) as [hi [lo [Eh Vh]]].
  { pose proof (Z.mod_pos_bound (sum pkt) 65536). lia. }
  rewrite Eh. cbn [rbind].
  exists len, hi, lo. split; [|split].
  - subst pkt. reflexivity.
  - exact Vl.
  - exact Vh.
Qed.

(** [create_packet] raises exactly when the length byte does not fit. *)
Lemma create_packet_too_large (data : list byte) :
  253 < Z.of_nat (List.length data) ->
  create_packet data = Raise StructError.
Proof.
  intros Hlen. unfold create_packet, pack_B.
  destruct (Z.of_nat (List.length data) + 2 <? 0) eqn:E; [reflexivity|].
  destruct (Byte.of_N _) as [b|] eqn:Hb; [|reflexivity].
  apply Byte.to_of_N in Hb. pose proof (Byte.to_N_bounded b). lia.
Qed.

(** [parse_frame] in closed form: it reads the bytes at offsets 2 and 3
    and keeps at most [length byte - 3] bytes from offset 4 on. *)
Lemma parse_frame_eq (data : list byte) :
  parse_frame data
  = match nth_error data 2, nth_error data 3 with
    | Some len, Some cmd =>
        Ok (cmd, firstn (Z.to_nat (byte_val len - 3)) (skipn 4 data))
    | _, _ => Raise IndexError
    end.
Proof.
  unfold parse_frame, index.
  destruct (nth_error data 2) as [len|]; [|reflexivity].
  destruct (nth_error data 3) as [cmd|]; [|reflexivity].
  cbn [rbind].
  destruct (0 <? byte_val len - 2 - 1) eqn:E.
  - rewrite slice_nonneg by lia.
    do 3 f_equal. lia.
  - replace (Z.to_nat (byte_val len - 3)) with 0%nat by lia.
    reflexivity.
Qed.

Lemma test_parse_frame_eq (data : list byte) :
  TestFridge.parse_frame data
  = match nth_error data 2, nth_error data 3 with
    | Some len, Some cmd =>
        Ok (cmd, firstn (Z.to_nat (byte_val len - 3)) (skipn 4 data))
    | _, _ => Raise IndexError
    end.
Proof.
  unfold TestFridge.parse_frame, index.
  destruct (nth_error data 2) as [len|]; [|reflexivity].
  destruct (nth_error data 3) as [cmd|]; [|reflexivity].
  cbn [rbind]. pose proof (byte_val_range len).
  rewrite slice_nonneg by lia.
  do 3 f_equal. lia.
Qed.

(** The two parsers of the repository agree on every input. *)
Lemma parse_frame_versions_agree (data : list byte) :
  TestFridge.parse_frame data = parse_frame data.
Proof.
  rewrite test_parse_frame_eq, parse_frame_eq. reflexivity.
Qed.

(** A frame whose payload has the declared length is decoded to its
    command and payload, whatever the two leading and the trailing bytes. *)
Lemma parse_frame_framed (m1 m2 len cmd : byte) (payload trailer : list byte) :
  Z.of_nat (List.length payload) = Z.max 0 (byte_val len - 3) ->
  parse_frame ([m1; m2; len; cmd] ++ payload ++ trailer) = Ok (cmd, payload).
Proof.
  intros Hlen. rewrite parse_frame_eq. cbn [app nth_error skipn].
  replace (Z.to_nat (byte_val len - 3)) with (List.length payload + 0)%nat
    by lia.
  rewrite firstn_app_2. cbn. rewrite app_nil_r. reflexivity.
Qed.

(** The frames named in the statements are the ones the program builds;
    [query_frame] is also the literal query of [test_fridge.py]. *)
Lemma query_frame_built : create_packet [x01] = Ok query_frame.
Proof. reflexivity. Qed.

Lemma set_target_6_built :
  rbind (pack_b 6) (fun temp_byte => create_packet [x05; temp_byte])
  = Ok set_target_6.
Proof. reflexivity. Qed.

(** [4.4] rounds to 4 and [5.6] to 6, as doubles and as decimal fractions;
    a tie goes to the even neighbour. *)
Lemma py_round_examples :
  py_round float_4_4 = 4 /\ py_round float_5_6 = 6
  /\ py_round (44 # 10) = 4 /\ py_round (56 # 10) = 6
  /\ py_round (5 # 2) = 2 /\ py_round (7 # 2) = 4 /\ py_round (-5 # 2) = -2.
Proof. repeat split. Qed.

(* ================================================================== *)
(** * Frame codec: round trip, layout, failures *)

(** C1: for every command byte and every payload of at most 252 bytes,
    parsing the frame built by [create_packet] from the command followed by
    the payload gives back exactly that command and that payload. *)
Theorem C1_frame_round_trip (command : byte) (payload : list byte) :
  Z.of_nat (List.length payload) <= 252 ->
  rbind (create_packet ([command] ++ payload)) parse_frame
  = Ok (command, payload).
Proof.
  intros Hlen.
  destruct (create_packet_layout ([command] ++ payload))
    as [len [hi [lo [Epkt [Vlen _]]]]].
  { cbn [List.length app]. lia. }
  rewrite Epkt. cbn [rbind].
  change ([xfe; xfe; len] ++ ([command] ++ payload) ++ [hi; lo])
    with ([xfe; xfe; len; command] ++ payload ++ [hi; lo]).
  apply parse_frame_framed.
  cbn [List.length app] in Vlen. lia.
Qed.

Lemma C1_frame_round_trip_witness :
  rbind (create_packet ([x05] ++ [x06])) parse_frame = Ok (x05, [x06]).
Proof.
  apply (C1_frame_round_trip x05 [x06]). cbn. lia.
Defined.

(** C2: for every command byte and every payload of at most 252 bytes the
    frame starts with FE FE, its third byte is 1 + len(payload) + 2, then
    come the command and the payload, and its last two bytes are the sum of
    all the bytes before them modulo 65536, high byte first. *)
Theorem C2_frame_layout (command : byte) (payload : list byte) :
  Z.of_nat (List.length payload) <= 252 ->
  exists len hi lo,
    create_packet ([command] ++ payload)
    = Ok ([xfe; xfe; len; command] ++ payload ++ [hi; lo])
    /\ byte_val len = 1 + Z.of_nat (List.length payload) + 2
    /\ 256 * byte_val hi + byte_val lo
       = sum ([xfe; xfe; len; command] ++ payload) mod 65536.
Proof.
  intros Hlen.
  destruct (create_packet_layout ([command] ++ payload))
    as [len [hi [lo [Epkt [Vlen Vsum]]]]].
  { cbn [List.length app]. lia. }
  exists len, hi, lo. split; [exact Epkt|]. split.
  - cbn [List.length app] in Vlen. lia.
  - exact Vsum.
Qed.

Lemma C2_frame_layout_witness :
  exists len hi lo,
    create_packet ([x05] ++ [x06])
    = Ok ([xfe; xfe; len; x05] ++ [x06] ++ [hi; lo])
    /\ byte_val len = 1 + Z.of_nat (List.length [x06]) + 2
    /\ 256 * byte_val hi + byte_val lo
       = sum ([xfe; xfe; len; x05] ++ [x06]) mod 65536.
Proof.
  apply (C2_frame_layout x05 [x06]). cbn. lia.
Defined.

(** C3, the claim as stated fails: the four bytes FE FE 0A 01 declare a
    frame of thirteen bytes, nine more than are present, and [parse_frame]
    still succeeds, with an empty payload. *)
Lemma C3_counterexample :
  (List.length [xfe; xfe; x0a; x01] < 3 + Z.to_nat (byte_val x0a))%nat
  /\ parse_frame [xfe; xfe; x0a; x01] = Ok (x01, []).
Proof.
  split; [cbn; lia | reflexivity].
Qed.

(** C3, amended: [parse_frame] fails, with an IndexError, exactly when the
    input has fewer than 4 bytes.  On every other input it succeeds: the
    payload is what is present from offset 4 on, cut to the declared length
    (so it is silently shortened when the length byte announces more than
    is present), and the bytes after the payload, the checksum among them,
    have no influence on the result. *)
Theorem C3_parse_frame_failure (data : list byte) :
  (parse_frame data = Raise IndexError <-> (List.length data < 4)%nat)
  /\ ((4 <= List.length data)%nat ->
      exists len cmd,
        nth_error data 2 = Some len /\ nth_error data 3 = Some cmd
        /\ parse_frame data
           = Ok (cmd, firstn (Z.to_nat (byte_val len - 3)) (skipn 4 data)))
  /\ (forall m1 m2 len cmd payload trailer trailer',
        data = [m1; m2; len; cmd] ++ payload ++ trailer ->
        Z.of_nat (List.length payload) = Z.max 0 (byte_val len - 3) ->
        parse_frame ([m1; m2; len; cmd] ++ payload ++ trailer')
        = parse_frame data).
Proof.
  split; [|split].
  - rewrite parse_frame_eq.
    destruct data as [|m1 [|m2 [|len [|cmd rest]]]]; cbn;
      split; intros H; try reflexivity; try lia; discriminate H.
  - intros Hlen. rewrite parse_frame_eq.
    destruct data as [|m1 [|m2 [|len [|cmd rest]]]]; cbn in Hlen; try lia.
    exists len, cmd. cbn. repeat split.
  - intros m1 m2 len cmd payload trailer trailer' -> Hlen.
    rewrite !parse_frame_framed by exact Hlen. reflexivity.
Qed.

Lemma C3_parse_frame_failure_witness :
  exists len cmd,
    nth_error [xfe; xfe; x0a; x01] 2 = Some len
    /\ nth_error [xfe; xfe; x0a; x01] 3 = Some cmd
    /\ parse_frame [xfe; xfe; x0a; x01]
       = Ok (cmd, firstn (Z.to_nat (byte_val len - 3))
                    (skipn 4 [xfe; xfe; x0a; x01])).
Proof.
  apply (proj1 (proj2 (C3_parse_frame_failure [xfe; xfe; x0a; x01]))).
  cbn. lia.
Defined.

(** C10: the two leading bytes are never looked at.  Two inputs of at
    least 4 bytes that differ only in their first two bytes are parsed to
    the same command and payload, which is also what the input with the
    proper header FE FE gives; this holds for the parser of each file. *)
Theorem C10_magic_header_not_validated (m1 m2 m1' m2' : byte)
    (rest : list byte) :
  (2 <= List.length rest)%nat ->
  exists cmd payload,
    parse_frame (m1 :: m2 :: rest) = Ok (cmd, payload)
    /\ parse_frame (m1' :: m2' :: rest) = Ok (cmd, payload)
    /\ parse_frame (xfe :: xfe :: rest) = Ok (cmd, payload)
    /\ TestFridge.parse_frame (m1 :: m2 :: rest) = Ok (cmd, payload)
    /\ TestFridge.parse_frame (m1' :: m2' :: rest) = Ok (cmd, payload)
    /\ TestFridge.parse_frame (xfe :: xfe :: rest) = Ok (cmd, payload).
Proof.
  intros Hlen.
  destruct rest as [|len [|cmd rest]]; cbn in Hlen; try lia.
  exists cmd, (firstn (Z.to_nat (byte_val len - 3)) rest).
  rewrite !parse_frame_versions_agree, !parse_frame_eq. cbn.
  repeat split.
Qed.

Lemma C10_magic_header_not_validated_witness :
  exists cmd payload,
    parse_frame (x00 :: x01 :: [x04; x05; x06; x02; x0b]) = Ok (cmd, payload)
    /\ parse_frame (xaa :: x55 :: [x04; x05; x06; x02; x0b])
       = Ok (cmd, payload)
    /\ parse_frame (xfe :: xfe :: [x04; x05; x06; x02; x0b])
       = Ok (cmd, payload)
    /\ TestFridge.parse_frame (x00 :: x01 :: [x04; x05; x06; x02; x0b])
       = Ok (cmd, payload)
    /\ TestFridge.parse_frame (xaa :: x55 :: [x04; x05; x06; x02; x0b])
       = Ok (cmd, payload)
    /\ TestFridge.parse_frame (xfe :: xfe :: [x04; x05; x06; x02; x0b])
       = Ok (cmd, payload).
Proof.
  apply (C10_magic_header_not_validated x00 x01 xaa x55
           [x04; x05; x06; x02; x0b]).
  cbn. lia.
Defined.

(* ================================================================== *)
(** * The notification handler in closed form *)

(** Unfolds the monad and the assignments to the globals. *)
Ltac unfold_task :=
  cbv [bind lift try_except when emit assign read_globals ret
       set_last_reported_fridge_temp set_last_reported_fridge_target
       set_current_known_setpoint last_reported_fridge_temp
       last_reported_fridge_target current_known_setpoint
       state_of trace_of outcome_of fst snd andb].

Ltac configured :=
  change (negb (DOMOTICZ_FRIDGE_TEMP_IDX =? "IDX_TEMP")%string) with true;
  change (negb (DOMOTICZ_FRIDGE_SETPOINT_IDX =? "IDX_SETPOINT")%string)
    with true.

Lemma unpack_b_twos_complement (b : byte) :
  -128 <= unpack_b b <= 127 /\ unpack_b b mod 256 = byte_val b.
Proof.
  unfold unpack_b. pose proof (byte_val_range b) as Hb.
  destruct (byte_val b <? 128) eqn:E.
  - split; [lia|]. apply Z.mod_small. lia.
  - split; [lia|].
    replace (byte_val b - 256) with (byte_val b + (-1) * 256) by lia.
    rewrite Z.mod_add by lia. apply Z.mod_small. lia.
Qed.

Lemma differs_same (a : option Z) (v : Z) :
  differs (if differs a v then Some v else a) v = false.
Proof.
  destruct (differs a v) eqn:E; [|exact E].
  cbn. rewrite Z.eqb_refl. reflexivity.
Qed.

Lemma notification_handler_reading (data : list byte) (cmd : byte)
    (payload : list byte) (r : Reading) (st : SyncState) :
  parse_frame data = Ok (cmd, payload) ->
  byte_val cmd = 1 ->
  read_query payload = Ok r ->
  notification_handler data st
  = (Ok tt, after_reading r st,
     Print (LineReading r) :: pushes_of_reading r st).
Proof.
  intros Hparse Hcmd Hread.
  destruct st as [known ltemp ltarget].
  unfold notification_handler. unfold_task.
  rewrite Hparse, Hcmd. cbn [Z.eqb Pos.eqb]. rewrite Hread.
  configured. unfold after_reading, pushes_of_reading. unfold_task.
  destruct (differs ltemp (actual_temp r));
    destruct (differs ltarget (target_temp r)); reflexivity.
Qed.

Lemma notification_handler_short (data : list byte) (cmd : byte)
    (payload : list byte) (st : SyncState) :
  parse_frame data = Ok (cmd, payload) ->
  byte_val cmd = 1 ->
  read_query payload = Raise IndexError ->
  notification_handler data st
  = (Ok tt, st, [Print (LineShortPayload payload)]).
Proof.
  intros Hparse Hcmd Hread.
  unfold notification_handler. unfold_task.
  rewrite Hparse, Hcmd. cbn [Z.eqb Pos.eqb]. rewrite Hread. reflexivity.
Qed.

(** Whatever the frame, the handler either leaves the globals alone and
    creates no task, or it has decoded a reading. *)
Lemma notification_handler_cases (data : list byte) (st : SyncState) :
  (state_of (notification_handler data st) = st
   /\ created_tasks (trace_of (notification_handler data st)) = []
   /\ written_frames (trace_of (notification_handler data st)) = [])
  \/ (exists r,
        notification_handler data st
        = (Ok tt, after_reading r st,
           Print (LineReading r) :: pushes_of_reading r st)).
Proof.
  destruct (parse_frame data) as [[cmd payload]|e] eqn:Hparse.
  - destruct (byte_val cmd =? 1) eqn:Hcmd.
    + apply Z.eqb_eq in Hcmd.
      destruct (read_query payload) as [r|e] eqn:Hread.
      * right. exists r.
        apply (notification_handler_reading _ _ _ _ _ Hparse Hcmd Hread).
      * left.
        unfold notification_handler. unfold_task.
        rewrite Hparse, Hcmd. cbn [Z.eqb Pos.eqb]. rewrite Hread.
        destruct e; cbn; repeat split.
    + left.
      unfold notification_handler. unfold_task.
      rewrite Hparse, Hcmd.
      destruct (byte_val cmd =? 5); cbn; repeat split.
  - left. unfold notification_handler. unfold_task.
    rewrite Hparse. cbn. repeat split.
Qed.

Lemma read_query_present (payload : list byte) :
  (18 <= List.length payload)%nat ->
  exists b4 b14 b15 b16 b17,
    nth_error payload 4 = Some b4 /\ nth_error payload 14 = Some b14
    /\ nth_error payload 15 = Some b15 /\ nth_error payload 16 = Some b16
    /\ nth_error payload 17 = Some b17
    /\ read_query payload
       = Ok {| actual_temp := unpack_b b14;
               target_temp := unpack_b b4;
               bat_percent := byte_val b15;
               bat_vol := str (byte_val b16) ++ "." ++ str (byte_val b17) |}.
Proof.
  intros Hlen.
  assert (Hsome : forall i, (i < 18)%nat ->
                            exists b, nth_error payload i = Some b).
  { intros i Hi. destruct (nth_error payload i) as [b|] eqn:E.
    - exists b. reflexivity.
    - apply nth_error_None in E. lia. }
  destruct (Hsome 4%nat) as [b4 E4]; [lia|].
  destruct (Hsome 14%nat) as [b14 E14]; [lia|].
  destruct (Hsome 15%nat) as [b15 E15]; [lia|].
  destruct (Hsome 16%nat) as [b16 E16]; [lia|].
  destruct (Hsome 17%nat) as [b17 E17]; [lia|].
  exists b4, b14, b15, b16, b17.
  repeat (split; [assumption|]).
  unfold read_query, index. rewrite E4, E14, E15, E16, E17. reflexivity.
Qed.

Lemma read_query_short (payload : list byte) :
  (List.length payload < 18)%nat -> read_query payload = Raise IndexError.
Proof.
  intros Hlen. unfold read_query, index.
  destruct (nth_error payload 14) as [b14|]; [|reflexivity].
  destruct (nth_error payload 4) as [b4|]; [|reflexivity].
  destruct (nth_error payload 15) as [b15|]; [|reflexivity].
  destruct (nth_error payload 16) as [b16|]; [|reflexivity].
  destruct (nth_error payload 17) as [b17|] eqn:E17; [|reflexivity].
  exfalso.
  assert (H : nth_error payload 17 <> None) by congruence.
  apply nth_error_Some in H. lia.
Qed.

(** C4: a query-response payload of at least 18 bytes is read as: byte 4,
    signed 8-bit two's complement, the target temperature; byte 14, the
    same way, the actual temperature; byte 15, unsigned, the battery
    percent; bytes 16 and 17 as two integers joined by a point, the
    voltage.  The handler prints that reading and takes its target as the
    known setpoint.  With FC, 02, 55, 03, 07 at offsets 4, 14, 15, 16, 17
    the reading is -4, 2, 85 and "3.7".  A payload shorter than 18 bytes
    raises IndexError instead: the handler produces no reading, creates no
    task and leaves the globals as they were. *)
Theorem C4_query_response_decoding (payload : list byte) :
  ((18 <= List.length payload)%nat ->
   exists b4 b14 b15 b16 b17 r,
     nth_error payload 4 = Some b4 /\ nth_error payload 14 = Some b14
     /\ nth_error payload 15 = Some b15 /\ nth_error payload 16 = Some b16
     /\ nth_error payload 17 = Some b17
     /\ read_query payload = Ok r
     /\ (-128 <= target_temp r <= 127
         /\ target_temp r mod 256 = byte_val b4)
     /\ (-128 <= actual_temp r <= 127
         /\ actual_temp r mod 256 = byte_val b14)
     /\ bat_percent r = byte_val b15
     /\ bat_vol r = (str (byte_val b16) ++ "." ++ str (byte_val b17))%string
     /\ (forall data cmd st,
           parse_frame data = Ok (cmd, payload) -> byte_val cmd = 1 ->
           In (Print (LineReading r)) (trace_of (notification_handler data st))
           /\ current_known_setpoint (state_of (notification_handler data st))
              = Some (target_temp r)))
  /\ (nth_error payload 4 = Some xfc -> nth_error payload 14 = Some x02 ->
      nth_error payload 15 = Some x55 -> nth_error payload 16 = Some x03 ->
      nth_error payload 17 = Some x07 ->
      read_query payload
      = Ok {| actual_temp := 2; target_temp := -4; bat_percent := 85;
              bat_vol := "3.7" |})
  /\ ((List.length payload < 18)%nat ->
      read_query payload = Raise IndexError
      /\ (forall data cmd st,
            parse_frame data = Ok (cmd, payload) -> byte_val cmd = 1 ->
            notification_handler data st
            = (Ok tt, st, [Print (LineShortPayload payload)]))).
Proof.
  split; [|split].
  - intros Hlen.
    destruct (read_query_present payload Hlen)
      as [b4 [b14 [b15 [b16 [b17 [E4 [E14 [E15 [E16 [E17 Hread]]]]]]]]]].
    eexists b4, b14, b15, b16, b17, _.
    repeat (split; [eassumption|]). cbn [target_temp actual_temp bat_percent
                                           bat_vol].
    split; [apply unpack_b_twos_complement|].
    split; [apply unpack_b_twos_complement|].
    split; [reflexivity|]. split; [reflexivity|].
    intros data cmd st Hparse Hcmd.
    rewrite (notification_handler_reading _ _ _ _ st Hparse Hcmd Hread).
    split; [left; reflexivity | reflexivity].
  - intros E4 E14 E15 E16 E17.
    unfold read_query, index. rewrite E4, E14, E15, E16, E17. reflexivity.
  - intros Hlen. pose proof (read_query_short payload Hlen) as Hshort.
    split; [exact Hshort|].
    intros data cmd st Hparse Hcmd.
    apply (notification_handler_short _ _ _ _ Hparse Hcmd Hshort).
Qed.

Lemma C4_query_response_decoding_witness :
  read_query sample_payload
  = Ok {| actual_temp := 2; target_temp := -4; bat_percent := 85;
          bat_vol := "3.7" |}.
Proof.
  apply (proj1 (proj2 (C4_query_response_decoding sample_payload)));
    reflexivity.
Defined.

(* ================================================================== *)
(** * The same frame twice *)

Lemma differs_false (a : option Z) (v : Z) :
  differs a v = false -> a = Some v.
Proof.
  destruct a as [x|]; cbn; [|discriminate].
  intros H. apply negb_false_iff, Z.eqb_eq in H. congruence.
Qed.

Lemma after_reading_twice (r : Reading) (st : SyncState) :
  after_reading r (after_reading r st) = after_reading r st.
Proof.
  unfold after_reading at 1.
  cbn [after_reading last_reported_fridge_temp last_reported_fridge_target].
  rewrite !differs_same.
  unfold after_reading. reflexivity.
Qed.

Lemma pushes_of_reading_twice (r : Reading) (st : SyncState) :
  pushes_of_reading r (after_reading r st) = [].
Proof.
  unfold pushes_of_reading.
  cbn [after_reading last_reported_fridge_temp last_reported_fridge_target].
  rewrite !differs_same. reflexivity.
Qed.

Lemma after_reading_reported (r : Reading) (st : SyncState) :
  last_reported_fridge_temp (after_reading r st) = Some (actual_temp r)
  /\ last_reported_fridge_target (after_reading r st) = Some (target_temp r).
Proof.
  cbn [after_reading last_reported_fridge_temp last_reported_fridge_target].
  split.
  - destruct (differs (last_reported_fridge_temp st) (actual_temp r)) eqn:E;
      [reflexivity | apply differs_false, E].
  - destruct (differs (last_reported_fridge_target st) (target_temp r)) eqn:E;
      [reflexivity | apply differs_false, E].
Qed.

Lemma pushes_of_reading_once (r : Reading) (st : SyncState) (idx : string) :
  (List.length (pushes_for idx (Print (LineReading r)
                                  :: pushes_of_reading r st)) <= 1)%nat.
Proof.
  unfold pushes_for, pushes_of_reading.
  destruct (differs (last_reported_fridge_temp st) (actual_temp r));
    destruct (differs (last_reported_fridge_target st) (target_temp r));
    cbn [created_tasks flat_map app filter fst List.length];
    try lia.
  - destruct (DOMOTICZ_FRIDGE_TEMP_IDX =? idx)%string eqn:E1;
      destruct (DOMOTICZ_FRIDGE_SETPOINT_IDX =? idx)%string eqn:E2;
      cbn [List.length]; try lia.
    apply String.eqb_eq in E1. apply String.eqb_eq in E2.
    rewrite <- E2 in E1. discriminate E1.
  - destruct (DOMOTICZ_FRIDGE_TEMP_IDX =? idx)%string; cbn; lia.
  - destruct (DOMOTICZ_FRIDGE_SETPOINT_IDX =? idx)%string; cbn; lia.
Qed.

(** C6: processing the same frame twice in a row.  The first receipt
    creates at most one push task per Domoticz index; when the frame is a
    readable query response it leaves [last_reported_fridge_temp] and
    [last_reported_fridge_target] at the values of the reading; the second
    receipt of the same frame then creates no push task at all and leaves
    the globals exactly as the first receipt left them. *)
Theorem C6_same_response_twice (data : list byte) (st : SyncState) :
  let first := notification_handler data st in
  let second := notification_handler data (state_of first) in
  (forall idx, (List.length (pushes_for idx (trace_of first)) <= 1)%nat)
  /\ (forall cmd payload r,
        parse_frame data = Ok (cmd, payload) -> byte_val cmd = 1 ->
        read_query payload = Ok r ->
        last_reported_fridge_temp (state_of first) = Some (actual_temp r)
        /\ last_reported_fridge_target (state_of first)
           = Some (target_temp r))
  /\ created_tasks (trace_of second) = []
  /\ state_of second = state_of first.
Proof.
  cbv zeta.
  destruct (parse_frame data) as [[cmd payload]|e] eqn:Hparse.
  2:{ destruct (notification_handler_cases data st)
        as [[Hs [Hc _]]|[r Hr]].
      - rewrite Hs. split; [|split; [|split]].
        + intros idx. unfold pushes_for. rewrite Hc. cbn. lia.
        + intros cmd payload r H. discriminate H.
        + exact Hc.
        + exact Hs.
      - exfalso. unfold notification_handler in Hr. revert Hr.
        unfold_task. rewrite Hparse. discriminate. }
  destruct (byte_val cmd =? 1) eqn:Hcmd;
    [apply Z.eqb_eq in Hcmd;
     destruct (read_query payload) as [r|e] eqn:Hread|].
  - rewrite !(notification_handler_reading _ _ _ _ st Hparse Hcmd Hread).
    cbn [state_of trace_of fst snd].
    rewrite (notification_handler_reading _ _ _ _ _ Hparse Hcmd Hread).
    cbn [state_of trace_of fst snd].
    split; [intros idx; apply pushes_of_reading_once|].
    split.
    { intros cmd' payload' r' H _ Hr'. injection H as <- <-.
      rewrite Hread in Hr'. injection Hr' as <-.
      apply after_reading_reported. }
    rewrite pushes_of_reading_twice, after_reading_twice.
    split; reflexivity.
  - assert (Hfirst : state_of (notification_handler data st) = st
                     /\ created_tasks (trace_of (notification_handler data st))
                        = []).
    { unfold notification_handler. unfold_task.
      rewrite Hparse, Hcmd. cbn [Z.eqb Pos.eqb]. rewrite Hread.
      destruct e; cbn; split; reflexivity. }
    destruct Hfirst as [Hs Hc]. rewrite Hs.
    split; [|split; [|split]].
    + intros idx. unfold pushes_for. rewrite Hc. cbn. lia.
    + intros cmd' payload' r' H _ Hr'. injection H as <- <-.
      rewrite Hread in Hr'. discriminate Hr'.
    + exact Hc.
    + exact Hs.
  - assert (Hfirst : state_of (notification_handler data st) = st
                     /\ created_tasks (trace_of (notification_handler data st))
                        = []).
    { unfold notification_handler. unfold_task.
      rewrite Hparse, Hcmd.
      destruct (byte_val cmd =? 5); cbn; split; reflexivity. }
    destruct Hfirst as [Hs Hc]. rewrite Hs.
    split; [|split; [|split]].
    + intros idx. unfold pushes_for. rewrite Hc. cbn. lia.
    + intros cmd' payload' r' H Hc'. injection H as <- <-.
      rewrite Hc' in Hcmd. discriminate Hcmd.
    + exact Hc.
    + exact Hs.
Qed.

Lemma C6_same_response_twice_witness :
  last_reported_fridge_temp
    (state_of (notification_handler sample_response initial_state)) = Some 2
  /\ last_reported_fridge_target
       (state_of (notification_handler sample_response initial_state))
     = Some (-4).
Proof.
  apply (proj1 (proj2 (C6_same_response_twice sample_response initial_state))
           x01 sample_payload
           {| actual_temp := 2; target_temp := -4; bat_percent := 85;
              bat_vol := "3.7" |}); reflexivity.
Defined.

(* ================================================================== *)
(** * Traces of composed tasks *)

Lemma created_tasks_app (t1 t2 : list event) :
  created_tasks (t1 ++ t2) = created_tasks t1 ++ created_tasks t2.
Proof. unfold created_tasks. apply flat_map_app. Qed.

Lemma written_frames_app (t1 t2 : list event) :
  written_frames (t1 ++ t2) = written_frames t1 ++ written_frames t2.
Proof. unfold written_frames. apply flat_map_app. Qed.

Lemma bind_run {A B} (m : Task A) (k : A -> Task B) (s : SyncState) :
  bind m k s
  = match outcome_of (m s) with
    | Ok a =>
        (outcome_of (k a (state_of (m s))),
         state_of (k a (state_of (m s))),
         trace_of (m s) ++ trace_of (k a (state_of (m s))))
    | Raise e => (Raise e, state_of (m s), trace_of (m s))
    end.
Proof.
  unfold bind, outcome_of, state_of, trace_of.
  destruct (m s) as [[[a|e] s1] t1]; cbn [fst snd]; [|reflexivity].
  destruct (k a s1) as [[r s2] t2]. reflexivity.
Qed.

(** The callback never raises into the suspended coroutine and never
    writes to the device. *)
Lemma callback_run (data : list byte) (s : SyncState) :
  outcome_of (callback data s) = Ok tt
  /\ state_of (callback data s) = state_of (notification_handler data s)
  /\ created_tasks (trace_of (callback data s))
     = created_tasks (trace_of (notification_handler data s))
  /\ written_frames (trace_of (callback data s)) = [].
Proof.
  unfold callback.
  destruct (notification_handler_cases data s) as [[Hs [Hc Hw]]|[r Hr]].
  - destruct (notification_handler data s) as [[[a|e] s1] t1];
      cbn [outcome_of state_of trace_of fst snd] in *.
    + repeat split; assumption.
    + rewrite created_tasks_app, written_frames_app, Hw.
      cbn. rewrite app_nil_r. repeat split.
  - rewrite Hr. cbn [outcome_of state_of trace_of fst snd].
    repeat split.
    unfold pushes_of_reading.
    destruct (differs _ _); destruct (differs _ _); reflexivity.
Qed.

Lemma deliver_run (frames : list (list byte)) (s : SyncState) :
  outcome_of (deliver frames s) = Ok tt
  /\ written_frames (trace_of (deliver frames s)) = [].
Proof.
  revert s. induction frames as [|data rest IH]; intros s.
  - split; reflexivity.
  - cbn [deliver]. rewrite bind_run.
    destruct (callback_run data s) as [Ho [_ [_ Hw]]]. rewrite Ho.
    cbn [outcome_of state_of trace_of fst snd].
    destruct (IH (state_of (callback data s))) as [Ho' Hw'].
    split; [exact Ho'|].
    rewrite written_frames_app, Hw, Hw'. reflexivity.
Qed.

(** An [await]: the operation, the frames handled meanwhile, the end of
    the operation. *)
Lemma await_run {R} (op : event) (a : awaited R) (s : SyncState) :
  await op a s
  = (outcome a, state_of (deliver (arrived a) s),
     op :: trace_of (deliver (arrived a) s)).
Proof.
  unfold await. rewrite bind_run. cbn [emit outcome_of state_of trace_of
                                        fst snd].
  rewrite bind_run. destruct (deliver_run (arrived a) s) as [Ho _].
  rewrite Ho. cbn [lift outcome_of state_of trace_of fst snd app].
  rewrite app_nil_r. reflexivity.
Qed.

Lemma await_quiet {R} (op : event) (r : result R) (s : SyncState) :
  await op {| arrived := []; outcome := r |} s = (r, s, [op]).
Proof. rewrite await_run. reflexivity. Qed.

(* ================================================================== *)
(** * Reports and scheduled pushes *)

Lemma step_scheduled_refl (s : SyncState) (t : list event) :
  step_scheduled s s t.
Proof. split; left; reflexivity. Qed.

Lemma reported_as_scheduled_trans (idx : string) (a b c : option Z)
    (t1 t2 : list event) :
  reported_as_scheduled idx a b t1 -> reported_as_scheduled idx b c t2 ->
  reported_as_scheduled idx a c (t1 ++ t2).
Proof.
  intros [H1|[v1 [E1 I1]]] [H2|[v2 [E2 I2]]].
  - left. congruence.
  - right. exists v2. split; [exact E2|].
    rewrite created_tasks_app. apply in_or_app. right. exact I2.
  - right. exists v1. split; [congruence|].
    rewrite created_tasks_app. apply in_or_app. left. exact I1.
  - right. exists v2. split; [exact E2|].
    rewrite created_tasks_app. apply in_or_app. right. exact I2.
Qed.

Lemma step_scheduled_trans (s1 s2 s3 : SyncState) (t1 t2 : list event) :
  step_scheduled s1 s2 t1 -> step_scheduled s2 s3 t2 ->
  step_scheduled s1 s3 (t1 ++ t2).
Proof.
  intros [A1 B1] [A2 B2].
  split; eapply reported_as_scheduled_trans; eassumption.
Qed.

Lemma step_scheduled_weaken (s1 s2 : SyncState) (t1 t2 : list event) :
  step_scheduled s1 s2 t1 -> step_scheduled s1 s2 (t1 ++ t2).
Proof.
  intros H. apply (step_scheduled_trans s1 s2 s2 t1 t2 H).
  apply step_scheduled_refl.
Qed.

Lemma schedules_ret {A} (a : A) : schedules_reports (ret a).
Proof. intros s. apply step_scheduled_refl. Qed.

Lemma schedules_lift {A} (r : result A) : schedules_reports (lift r).
Proof. intros s. apply step_scheduled_refl. Qed.

Lemma schedules_emit (e : event) : schedules_reports (emit e).
Proof. intros s. apply step_scheduled_refl. Qed.

Lemma schedules_read_globals : schedules_reports read_globals.
Proof. intros s. apply step_scheduled_refl. Qed.

Lemma schedules_known (v : Z) :
  schedules_reports (assign (set_current_known_setpoint v)).
Proof. intros s. split; left; reflexivity. Qed.

Lemma schedules_bind {A B} (m : Task A) (k : A -> Task B) :
  schedules_reports m -> (forall a, schedules_reports (k a)) ->
  schedules_reports (bind m k).
Proof.
  intros Hm Hk s. rewrite bind_run.
  destruct (outcome_of (m s)) as [a|e];
    cbn [state_of trace_of fst snd].
  - eapply step_scheduled_trans; [apply Hm | apply Hk].
  - apply Hm.
Qed.

Lemma schedules_try_except {A} (body : Task A)
    (handler : exn -> option (Task A)) :
  schedules_reports body ->
  (forall e h, handler e = Some h -> schedules_reports h) ->
  schedules_reports (try_except body handler).
Proof.
  intros Hb Hh s. unfold try_except.
  pose proof (Hb s) as Hs. unfold state_of, trace_of in Hs |- *.
  destruct (body s) as [[[a|e] s1] t1]; cbn [fst snd] in *; [exact Hs|].
  destruct (handler e) as [h|] eqn:Eh; cbn [fst snd]; [|exact Hs].
  pose proof (Hh e h Eh s1) as Hs1. unfold state_of, trace_of in Hs1.
  destruct (h s1) as [[r s2] t2]; cbn [fst snd] in *.
  eapply step_scheduled_trans; eassumption.
Qed.

Lemma schedules_report_temp (c : bool) (v : Z) :
  schedules_reports
    (when c (emit (CreateTask DOMOTICZ_FRIDGE_TEMP_IDX (str v)) ;;
             assign (set_last_reported_fridge_temp v))).
Proof.
  intros s. destruct c; [|apply step_scheduled_refl].
  split; [right | left; reflexivity].
  exists v. split; [reflexivity | left; reflexivity].
Qed.

Lemma schedules_report_target (c : bool) (v : Z) :
  schedules_reports
    (when c (emit (CreateTask DOMOTICZ_FRIDGE_SETPOINT_IDX (str v)) ;;
             assign (set_last_reported_fridge_target v))).
Proof.
  intros s. destruct c; [|apply step_scheduled_refl].
  split; [left; reflexivity | right].
  exists v. split; [reflexivity | left; reflexivity].
Qed.

Lemma schedules_notification_handler (data : list byte) :
  schedules_reports (notification_handler data).
Proof.
  unfold notification_handler.
  apply schedules_bind; [apply schedules_lift|]. intros [cmd payload].
  destruct (byte_val cmd =? 1).
  - apply schedules_try_except.
    + apply schedules_bind; [apply schedules_lift|]. intros r.
      apply schedules_bind; [apply schedules_emit|]. intros _.
      apply schedules_bind; [apply schedules_read_globals|]. intros st.
      apply schedules_bind; [apply schedules_report_temp|]. intros _.
      apply schedules_bind; [apply schedules_read_globals|]. intros st'.
      apply schedules_bind; [apply schedules_report_target|]. intros _.
      apply schedules_known.
    + intros e h Hh.
      destruct e; cbn in Hh; try discriminate Hh;
        injection Hh as <-; apply schedules_emit.
  - destruct (byte_val cmd =? 5); [apply schedules_emit | apply schedules_ret].
Qed.

Lemma schedules_callback (data : list byte) :
  schedules_reports (callback data).
Proof.
  intros s. pose proof (schedules_notification_handler data s) as H.
  unfold callback, state_of, trace_of in *.
  destruct (notification_handler data s) as [[[a|e] s1] t1];
    cbn [fst snd] in *; [exact H|].
  apply step_scheduled_weaken. exact H.
Qed.

Lemma schedules_deliver (frames : list (list byte)) :
  schedules_reports (deliver frames).
Proof.
  induction frames as [|data rest IH]; cbn [deliver].
  - apply schedules_ret.
  - apply schedules_bind; [apply schedules_callback | intros _; exact IH].
Qed.

Lemma schedules_await {R} (op : event) (a : awaited R) :
  schedules_reports (await op a).
Proof.
  unfold await.
  apply schedules_bind; [apply schedules_emit|]. intros _.
  apply schedules_bind; [apply schedules_deliver|]. intros _.
  apply schedules_lift.
Qed.

Lemma schedules_set_temperature (env : SetTempEnv) (temp : Z) :
  schedules_reports (set_temperature env temp).
Proof.
  unfold set_temperature.
  destruct (negb (is_connected env)); [apply schedules_emit|].
  apply schedules_bind; [apply schedules_lift|]. intros temp_byte.
  apply schedules_bind; [apply schedules_lift|]. intros command_to_send.
  apply schedules_bind; [apply schedules_emit|]. intros _.
  apply schedules_try_except.
  - apply schedules_bind; [apply schedules_await|]. intros _.
    apply schedules_bind; [apply schedules_emit|]. intros _.
    apply schedules_bind; [apply schedules_known|]. intros _.
    apply schedules_bind; [apply schedules_read_globals|]. intros st.
    apply schedules_bind; [apply schedules_report_target|]. intros _.
    apply schedules_bind; [apply schedules_await|]. intros _.
    apply schedules_bind; [apply schedules_emit|]. intros _.
    apply schedules_bind; [apply schedules_lift|]. intros query_to_send.
    apply schedules_bind; [apply schedules_await|]. intros _.
    apply schedules_await.
  - intros e h Hh. destruct e; try discriminate Hh.
    injection Hh as <-. apply schedules_emit.
Qed.

(** A push task leaves the globals as they were, whatever the server
    answered and whether it returns or raises. *)
Lemma update_domoticz_device_state (session : bool) (idx svalue : string)
    (nvalue : Z) (reply : http_reply) (s : SyncState) :
  state_of (update_domoticz_device session idx svalue nvalue reply s) = s.
Proof.
  unfold update_domoticz_device.
  destruct ((idx =? "") || (idx =? "IDX_TEMP")
            || (idx =? "IDX_SETPOINT"))%string; [reflexivity|].
  destruct (negb session); [reflexivity|].
  destruct reply as [status [response_json|]|]; [| |reflexivity].
  - destruct (status =? 200); [|reflexivity].
    unfold_task.
    destruct (dict_get response_json "status") as [reported|e];
      [|reflexivity].
    destruct (equals_str reported "OK"); reflexivity.
  - destruct (status =? 200); reflexivity.
Qed.

Lemma run_created_tasks_state (session : bool)
    (reply : string -> string -> http_reply)
    (tasks : list (string * string)) (s : SyncState) :
  state_of (run_created_tasks session reply tasks s) = s.
Proof.
  induction tasks as [|[idx svalue] rest IH]; [reflexivity|].
  cbn [run_created_tasks]. rewrite bind_run.
  pose proof (update_domoticz_device_state session idx svalue 0
                (reply idx svalue) s) as Hs.
  unfold try_except, outcome_of, state_of in *.
  destruct (update_domoticz_device session idx svalue 0 (reply idx svalue) s)
    as [[[a|e] s1] t1]; cbn [fst snd ret] in *; subst s1; exact IH.
Qed.

(** C7, the claim as stated fails.  From the initial state the handler
    receives a query response reporting 2 and -4 degrees.  When it returns
    the two pushes are only created, none has run, and
    [last_reported_fridge_temp] and [last_reported_fridge_target] already
    hold 2 and -4; the pushes then fail (the server cannot be reached) and
    both globals keep the new values instead of going back to [None]. *)
Lemma C7_counterexample :
  let handled := notification_handler sample_response initial_state in
  let pushed :=
    run_created_tasks true (fun _ _ => ClientError)
      (created_tasks (trace_of handled)) (state_of handled) in
  created_tasks (trace_of handled) = [("62", "2"); ("61", "-4")]%string
  /\ last_reported_fridge_temp initial_state = None
  /\ last_reported_fridge_target initial_state = None
  /\ last_reported_fridge_temp (state_of handled) = Some 2
  /\ last_reported_fridge_target (state_of handled) = Some (-4)
  /\ push_succeeded true "62" ClientError = false
  /\ push_succeeded true "61" ClientError = false
  /\ last_reported_fridge_temp (state_of pushed) = Some 2
  /\ last_reported_fridge_target (state_of pushed) = Some (-4).
Proof.
  cbv zeta. repeat split.
Qed.

(** C7, amended: the [last_reported_*] globals are written in the step
    that creates the push task, before the push has run and whatever
    becomes of it.  A notification step or a [set_temperature] sequence
    (with the notifications handled during its awaits) changes
    [last_reported_fridge_temp] or [last_reported_fridge_target] only to a
    value for which that same step created the push task of the matching
    Domoticz index; and running the created pushes, accepted or failed,
    changes none of the globals. *)
Theorem C7_reported_when_scheduled :
  (forall data st,
     step_scheduled st (state_of (notification_handler data st))
       (trace_of (notification_handler data st)))
  /\ (forall env temp st,
        step_scheduled st (state_of (set_temperature env temp st))
          (trace_of (set_temperature env temp st)))
  /\ (forall session reply tasks st,
        state_of (run_created_tasks session reply tasks st) = st).
Proof.
  split; [|split].
  - intros data st. apply schedules_notification_handler.
  - intros env temp st. apply schedules_set_temperature.
  - intros session reply tasks st. apply run_created_tasks_state.
Qed.

(* ================================================================== *)
(** * The set-temperature sequence *)

Lemma pack_b_spec (v : Z) :
  -128 <= v <= 127 -> exists b, pack_b v = Ok b /\ unpack_b b = v.
Proof.
  intros Hv. unfold pack_b.
  destruct ((v <? -128) || (127 <? v)) eqn:E; [lia|].
  destruct (pack_B_spec (v mod 256)) as [b [Hb Vb]].
  { pose proof (Z.mod_pos_bound v 256). lia. }
  exists b. split; [exact Hb|].
  unfold unpack_b. rewrite Vb.
  destruct (Z_lt_le_dec v 0) as [Hneg|Hpos].
  - replace (v mod 256) with (v + 256).
    + destruct (v + 256 <? 128) eqn:E2; lia.
    + symmetry. replace v with (v + 256 + (-1) * 256) at 1 by lia.
      rewrite Z.mod_add by lia. apply Z.mod_small. lia.
  - rewrite Z.mod_small by lia. destruct (v <? 128) eqn:E2; lia.
Qed.

Lemma create_packet_set (b : byte) :
  exists pkt, create_packet [x05; b] = Ok pkt.
Proof.
  destruct (create_packet_layout [x05; b]) as [len [hi [lo [E _]]]].
  - cbn. lia.
  - eexists. exact E.
Qed.

Lemma written_frames_cons (e : event) (t : list event) :
  written_frames (e :: t)
  = match e with
    | WriteGatt _ pkt => [pkt]
    | _ => []
    end ++ written_frames t.
Proof. reflexivity. Qed.

Lemma created_tasks_cons (e : event) (t : list event) :
  created_tasks (e :: t)
  = match e with
    | CreateTask idx svalue => [(idx, svalue)]
    | _ => []
    end ++ created_tasks t.
Proof. reflexivity. Qed.

(** Brings [written_frames] and [created_tasks] of a trace built from
    conses and appends to the frames and tasks of its parts. *)
Ltac split_trace :=
  repeat (rewrite written_frames_app || rewrite written_frames_cons
          || rewrite created_tasks_app || rewrite created_tasks_cons);
  cbn [app].

(** C8, the claim as stated fails.  The known setpoint is 4 and the
    sequence for 6 degrees starts; the set command is written, the globals
    are updated, and then the write of the verifying query raises
    BleakError.  The sequence is aborted (its last sleep never runs) and
    the known setpoint is 6, not the 4 it was before the sequence. *)
Lemma C8_counterexample :
  let env := {| is_connected := true;
                set_write := completes tt;
                settle_sleep := completes tt;
                query_write := fails BleakError;
                reply_sleep := completes tt |} in
  let run := set_temperature env 6 known_4 in
  outcome (query_write env) = Raise BleakError
  /\ awaited_ops (trace_of run)
     = [WriteGatt WRITE_CHAR set_target_6; Sleep 1;
        WriteGatt WRITE_CHAR query_frame]
  /\ outcome_of run = Ok tt
  /\ current_known_setpoint known_4 = Some 4
  /\ current_known_setpoint (state_of run) = Some 6.
Proof.
  cbv zeta. repeat split.
Qed.

(** C8, amended: in a sequence that reaches the device (the client is
    connected and the temperature fits a signed byte), when the write of
    the set command raises, the sequence is aborted there: that one frame
    is the only one written, the sequence itself assigns no global and
    creates no task (the globals are those left by the notifications
    handled while the write was pending, so they are untouched when none
    arrived).  When the set command was written and it is the later write
    of the verifying query that raises, the sequence is aborted as well,
    but [current_known_setpoint] already holds the requested temperature
    and keeps it. *)
Theorem C8_failed_send (env : SetTempEnv) (temp : Z) (st : SyncState)
    (e : exn) :
  is_connected env = true ->
  -128 <= temp <= 127 ->
  (outcome (set_write env) = Raise e ->
   let run := set_temperature env temp st in
   let meanwhile := deliver (arrived (set_write env)) st in
   state_of run = state_of meanwhile
   /\ created_tasks (trace_of run) = created_tasks (trace_of meanwhile)
   /\ List.length (written_frames (trace_of run)) = 1%nat
   /\ (arrived (set_write env) = [] ->
       state_of run = st /\ created_tasks (trace_of run) = []))
  /\ (outcome (set_write env) = Ok tt ->
      outcome (settle_sleep env) = Ok tt ->
      arrived (settle_sleep env) = [] ->
      outcome (query_write env) = Raise e ->
      arrived (query_write env) = [] ->
      let run := set_temperature env temp st in
      current_known_setpoint (state_of run) = Some temp
      /\ List.length (written_frames (trace_of run)) = 2%nat).
Proof.
  intros Hconn Htemp.
  destruct (pack_b_spec temp Htemp) as [tb [Hpack _]].
  destruct (create_packet_set tb) as [pkt Hpkt].
  destruct (deliver_run (arrived (set_write env)) st) as [_ Hw].
  split.
  - intros Hout. cbv zeta.
    assert (Hrun : state_of (set_temperature env temp st)
                   = state_of (deliver (arrived (set_write env)) st)
                   /\ created_tasks (trace_of (set_temperature env temp st))
                      = created_tasks
                          (trace_of (deliver (arrived (set_write env)) st))
                   /\ List.length
                        (written_frames
                           (trace_of (set_temperature env temp st)))
                      = 1%nat).
    { unfold set_temperature. rewrite Hconn. cbn [negb].
      unfold_task. rewrite Hpack, Hpkt. rewrite await_run, Hout.
      destruct e; cbn [fst snd app];
        (split; [reflexivity|]); split_trace;
        rewrite ?Hw, ?app_nil_r; split; reflexivity. }
    destruct Hrun as [Hs [Hc Hl]].
    split; [exact Hs|]. split; [exact Hc|]. split; [exact Hl|].
    intros Harr. rewrite Hs, Hc, Harr. split; reflexivity.
  - intros Hset Hsettle Hquiet1 Hquery Hquiet2. cbv zeta.
    unfold set_temperature. rewrite Hconn. cbn [negb].
    unfold_task. rewrite Hpack, Hpkt. rewrite await_run, Hset.
    configured. cbn [fst snd andb].
    destruct (deliver (arrived (set_write env)) st) as [[r0 s0] t0] eqn:Ed.
    unfold state_of, trace_of in *. cbn [fst snd] in *.
    destruct s0 as [known ltemp ltarget].
    destruct (differs ltarget temp);
      rewrite await_run, Hsettle, Hquiet1;
      cbn [deliver ret fst snd state_of trace_of];
      change (create_packet [x01]) with (Ok query_frame);
      cbn iota beta;
      rewrite await_run, Hquery, Hquiet2;
      cbn [deliver ret fst snd state_of trace_of];
      destruct e; cbn [fst snd app];
      (split; [reflexivity|]); split_trace;
      rewrite ?Hw; reflexivity.
Qed.

Lemma C8_failed_send_witness :
  let run := set_temperature failing_set_env 6 known_4 in
  let meanwhile := deliver (arrived (set_write failing_set_env)) known_4 in
  state_of run = state_of meanwhile
  /\ created_tasks (trace_of run) = created_tasks (trace_of meanwhile)
  /\ List.length (written_frames (trace_of run)) = 1%nat
  /\ (arrived (set_write failing_set_env) = [] ->
      state_of run = known_4 /\ created_tasks (trace_of run) = []).
Proof.
  cbv zeta.
  apply (proj1 (C8_failed_send failing_set_env 6 known_4 BleakError
                  eq_refl ltac:(lia))).
  reflexivity.
Defined.

Lemma await_completes {R} (op : event) (r : R) (s : SyncState) :
  await op (completes r) s = (Ok r, s, [op]).
Proof. apply await_quiet. Qed.

Lemma deliver_writes_nothing (frames : list (list byte)) (s : SyncState) :
  written_frames (trace_of (deliver frames s)) = [].
Proof. apply deliver_run. Qed.

Ltac count_writes :=
  cbn [fst snd app]; split_trace;
  rewrite ?deliver_writes_nothing; cbn [app].

(** A sequence that reaches the device writes the set command once, and
    after it at most the verifying query. *)
Lemma set_temperature_writes (env : SetTempEnv) (temp : Z) (tb : byte)
    (pkt : list byte) (st : SyncState) :
  is_connected env = true ->
  pack_b temp = Ok tb ->
  create_packet [x05; tb] = Ok pkt ->
  written_frames (trace_of (set_temperature env temp st)) = [pkt]
  \/ written_frames (trace_of (set_temperature env temp st))
     = [pkt; query_frame].
Proof.
  intros Hconn Hpack Hpkt.
  unfold set_temperature. rewrite Hconn. cbn [negb].
  unfold_task. rewrite Hpack, Hpkt. rewrite await_run.
  destruct (outcome (set_write env)) as [[]|e].
  2:{ left. destruct e; count_writes; reflexivity. }
  configured. cbn [fst snd andb].
  change (create_packet [x01]) with (Ok query_frame).
  destruct (differs _ temp).
  - rewrite await_run.
    destruct (outcome (settle_sleep env)) as [[]|e].
    2:{ left. destruct e; count_writes; reflexivity. }
    cbn [fst snd]. rewrite await_run.
    destruct (outcome (query_write env)) as [[]|e].
    2:{ right. destruct e; count_writes; reflexivity. }
    cbn [fst snd]. rewrite await_run.
    right. destruct (outcome (reply_sleep env)) as [[]|e];
      [|destruct e]; count_writes; reflexivity.
  - rewrite await_run.
    destruct (outcome (settle_sleep env)) as [[]|e].
    2:{ left. destruct e; count_writes; reflexivity. }
    cbn [fst snd]. rewrite await_run.
    destruct (outcome (query_write env)) as [[]|e].
    2:{ right. destruct e; count_writes; reflexivity. }
    cbn [fst snd]. rewrite await_run.
    right. destruct (outcome (reply_sleep env)) as [[]|e];
      [|destruct e]; count_writes; reflexivity.
Qed.

Lemma set_temperature_known (env : SetTempEnv) (temp : Z) (st : SyncState) :
  is_connected env = true ->
  -128 <= temp <= 127 ->
  outcome (set_write env) = Ok tt ->
  arrived (settle_sleep env) = [] ->
  arrived (query_write env) = [] ->
  arrived (reply_sleep env) = [] ->
  current_known_setpoint (state_of (set_temperature env temp st)) = Some temp.
Proof.
  intros Hconn Htemp Hset Hq1 Hq2 Hq3.
  destruct (pack_b_spec temp Htemp) as [tb [Hpack _]].
  destruct (create_packet_set tb) as [pkt Hpkt].
  unfold set_temperature. rewrite Hconn. cbn [negb].
  unfold_task. rewrite Hpack, Hpkt. rewrite await_run, Hset.
  configured. cbn [fst snd andb].
  change (create_packet [x01]) with (Ok query_frame).
  destruct (differs _ temp);
    rewrite await_run, Hq1; cbn [deliver ret fst snd state_of trace_of];
    (destruct (outcome (settle_sleep env)) as [[]|e];
     [|destruct e; reflexivity]);
    rewrite await_run, Hq2; cbn [deliver ret fst snd state_of trace_of];
    (destruct (outcome (query_write env)) as [[]|e];
     [|destruct e; reflexivity]);
    rewrite await_run, Hq3; cbn [deliver ret fst snd state_of trace_of];
    (destruct (outcome (reply_sleep env)) as [[]|e];
     [|destruct e]); reflexivity.
Qed.

Lemma set_temperature_not_sent (env : SetTempEnv) (temp : Z)
    (st : SyncState) (e : exn) :
  is_connected env = true ->
  -128 <= temp <= 127 ->
  outcome (set_write env) = Raise e ->
  state_of (set_temperature env temp st)
  = state_of (deliver (arrived (set_write env)) st)
  /\ created_tasks (trace_of (set_temperature env temp st))
     = created_tasks (trace_of (deliver (arrived (set_write env)) st))
  /\ List.length (written_frames (trace_of (set_temperature env temp st)))
     = 1%nat
  /\ outcome_of (set_temperature env temp st)
     = match e with
       | BleakError => Ok tt
       | _ => Raise e
       end.
Proof.
  intros Hconn Htemp Hout.
  destruct (pack_b_spec temp Htemp) as [tb [Hpack _]].
  destruct (create_packet_set tb) as [pkt Hpkt].
  unfold set_temperature. rewrite Hconn. cbn [negb].
  unfold_task. rewrite Hpack, Hpkt. rewrite await_run, Hout.
  destruct e; cbn [fst snd app];
    (split; [reflexivity|]); split_trace;
    rewrite ?deliver_writes_nothing, ?app_nil_r; repeat split.
Qed.

(* ================================================================== *)
(** * One iteration of the polling loop *)

Lemma poll_iteration_unchanged (x : Q) (senv : SetTempEnv) (st : SyncState) :
  current_known_setpoint st = Some (py_round x) ->
  poll_iteration (tick x senv) st
  = (Ok tt, st, [Sleep 10; GetSetpoint DOMOTICZ_FRIDGE_SETPOINT_IDX]).
Proof.
  intros Hknown. unfold poll_iteration, tick.
  cbn [interval_sleep tick_connected pull set_env negb].
  change (DOMOTICZ_FRIDGE_SETPOINT_IDX =? "IDX_SETPOINT")%string with false.
  cbv iota. rewrite bind_run, await_completes.
  cbn [outcome_of state_of trace_of fst snd].
  rewrite bind_run, await_completes.
  cbn [outcome_of state_of trace_of fst snd].
  rewrite bind_run. cbn [read_globals outcome_of state_of trace_of fst snd].
  rewrite Hknown. cbn [differs]. rewrite Z.eqb_refl. reflexivity.
Qed.

Lemma poll_iteration_changed (x : Q) (senv : SetTempEnv) (st : SyncState)
    (k : Z) :
  current_known_setpoint st = Some k ->
  py_round x <> k ->
  poll_iteration (tick x senv) st
  = (outcome_of (set_temperature senv (py_round x) st),
     state_of (set_temperature senv (py_round x) st),
     [Sleep 10; GetSetpoint DOMOTICZ_FRIDGE_SETPOINT_IDX;
      Print (LineNewSetpoint (py_round x) (Some k))]
     ++ trace_of (set_temperature senv (py_round x) st)).
Proof.
  intros Hknown Hne. unfold poll_iteration, tick.
  cbn [interval_sleep tick_connected pull set_env negb].
  change (DOMOTICZ_FRIDGE_SETPOINT_IDX =? "IDX_SETPOINT")%string with false.
  cbv iota. rewrite bind_run, await_completes.
  cbn [outcome_of state_of trace_of fst snd].
  rewrite bind_run, await_completes.
  cbn [outcome_of state_of trace_of fst snd].
  rewrite bind_run. cbn [read_globals outcome_of state_of trace_of fst snd].
  rewrite Hknown. cbn [differs].
  assert (Hk : (k =? py_round x) = false) by (apply Z.eqb_neq; congruence).
  rewrite Hk. cbn [negb]. rewrite bind_run.
  cbn [emit outcome_of state_of trace_of fst snd app]. reflexivity.
Qed.

(** A readable query response handed to the callback leaves the state of
    the reading. *)
Lemma deliver_response (data : list byte) (cmd : byte) (payload : list byte)
    (r : Reading) (s : SyncState) :
  parse_frame data = Ok (cmd, payload) ->
  byte_val cmd = 1 ->
  read_query payload = Ok r ->
  state_of (deliver [data] s) = after_reading r s.
Proof.
  intros Hparse Hcmd Hread. cbn [deliver]. rewrite bind_run.
  destruct (callback_run data s) as [Ho [Hs _]]. rewrite Ho, Hs.
  rewrite (notification_handler_reading _ _ _ _ s Hparse Hcmd Hread).
  reflexivity.
Qed.

(** A tick on which the client is connected and the pull returns [x]: the
    known setpoint is compared after the notifications that arrived during
    the interval sleep and during the pull, and the device is written to
    only by the set-temperature sequence, when the two differ. *)
Lemma poll_iteration_compared (env : TickEnv) (x : Q) (st : SyncState) :
  tick_connected env = true ->
  outcome (interval_sleep env) = Ok tt ->
  outcome (pull env) = Ok (Some x) ->
  written_frames (trace_of (poll_iteration env st))
  = if differs
         (current_known_setpoint
            (state_of (deliver (arrived (pull env))
                         (state_of (deliver (arrived (interval_sleep env))
                                      st)))))
         (py_round x)
    then written_frames
           (trace_of
              (set_temperature (set_env env) (py_round x)
                 (state_of (deliver (arrived (pull env))
                              (state_of (deliver
                                           (arrived (interval_sleep env))
                                           st))))))
    else [].
Proof.
  intros Hconn Hsleep Hpull. unfold poll_iteration. rewrite Hconn.
  cbn [negb].
  change (DOMOTICZ_FRIDGE_SETPOINT_IDX =? "IDX_SETPOINT")%string with false.
  cbv iota. rewrite bind_run, await_run, Hsleep.
  cbn [outcome_of state_of trace_of fst snd].
  rewrite bind_run, await_run, Hpull.
  cbn [outcome_of state_of trace_of fst snd].
  rewrite bind_run. cbn [read_globals outcome_of state_of trace_of fst snd].
  destruct (differs _ (py_round x)).
  - rewrite bind_run. cbn [emit outcome_of state_of trace_of fst snd].
    split_trace. rewrite !deliver_writes_nothing. reflexivity.
  - cbn [ret trace_of snd]. split_trace.
    rewrite !deliver_writes_nothing. reflexivity.
Qed.

(** The set command was written and a query response arrives during the
    last sleep of the sequence: the known setpoint is the target that
    response reports. *)
Lemma set_temperature_then_response (env : SetTempEnv) (temp : Z)
    (st : SyncState) (data : list byte) (cmd : byte) (payload : list byte)
    (r : Reading) :
  parse_frame data = Ok (cmd, payload) ->
  byte_val cmd = 1 ->
  read_query payload = Ok r ->
  is_connected env = true ->
  -128 <= temp <= 127 ->
  outcome (set_write env) = Ok tt ->
  outcome (settle_sleep env) = Ok tt ->
  arrived (settle_sleep env) = [] ->
  outcome (query_write env) = Ok tt ->
  arrived (query_write env) = [] ->
  arrived (reply_sleep env) = [data] ->
  current_known_setpoint (state_of (set_temperature env temp st))
  = Some (target_temp r).
Proof.
  intros Hparse Hcmd Hread Hconn Htemp Hset Hsettle Hq1 Hquery Hq2 Hq3.
  destruct (pack_b_spec temp Htemp) as [tb [Hpack _]].
  destruct (create_packet_set tb) as [pkt Hpkt].
  unfold set_temperature. rewrite Hconn. cbn [negb].
  unfold_task. rewrite Hpack, Hpkt. rewrite await_run, Hset.
  configured. cbn [fst snd andb].
  change (create_packet [x01]) with (Ok query_frame).
  destruct (differs _ temp);
    rewrite await_run, Hq1, Hsettle;
    cbn [deliver ret fst snd state_of trace_of];
    rewrite await_run, Hq2, Hquery;
    cbn [deliver ret fst snd state_of trace_of];
    rewrite await_run, Hq3;
    rewrite (deliver_response data cmd payload r _ Hparse Hcmd Hread);
    (destruct (outcome (reply_sleep env)) as [[]|e]; [|destruct e]);
    reflexivity.
Qed.

Lemma deliver_nil_state (s : SyncState) : state_of (deliver [] s) = s.
Proof. reflexivity. Qed.

(** C5, the claim as stated fails.  The known setpoint is 4 and two ticks
    in a row pull 5.6; every write succeeds and no notification arrives,
    so no query response is processed at any point.  The first tick writes
    the set command for 6 degrees (and the verifying query); the second
    tick writes nothing, although no query response has confirmed 6. *)
Lemma C5_counterexample :
  let first := poll_iteration (quiet_tick float_5_6) known_4 in
  let second := poll_iteration (quiet_tick float_5_6) (state_of first) in
  let both := poll_loop [quiet_tick float_5_6; quiet_tick float_5_6] known_4 in
  current_known_setpoint known_4 = Some 4
  /\ written_frames (trace_of first) = [set_target_6; query_frame]
  /\ printed_readings (trace_of first ++ trace_of second) = []
  /\ written_frames (trace_of second) = []
  /\ trace_of both = trace_of first ++ trace_of second
  /\ written_frames (trace_of both) = [set_target_6; query_frame].
Proof.
  cbv zeta. repeat split.
Qed.

(** C5, amended: with a known setpoint of 4, a tick whose pull returns 4.4
    writes nothing to the device and leaves the globals unchanged.  A tick
    whose pull returns 5.6, the client being connected, writes the set
    command for 6 degrees exactly once (followed at most by the verifying
    query).  When that write succeeds, the known setpoint is 6 from then on
    without waiting for a query response (no notification arriving during
    the rest of the sequence), and a following tick that pulls 5.6 writes
    nothing.  When that write raises BleakError (no notification arriving
    meanwhile), the globals are unchanged, the loop goes on, and a
    following tick that pulls 5.6 writes the set command for 6 again.

    On every tick that pulls 5.6, from any state and with any
    notifications arriving during its interval sleep and its pull, the set
    command for 6 is written exactly once when the known setpoint at the
    comparison is not 6, and nothing is written when it is 6.  A query
    response handled during the last sleep of the first tick's sequence
    makes the target it reports the known setpoint, so that the following
    tick that pulls 5.6 writes the set command for 6 again when that
    target is not 6 and writes nothing when it is 6; and the same holds of
    a following tick during whose interval sleep a query response is
    handled. *)
Theorem C5_reconciliation (st : SyncState) (senv : SetTempEnv) :
  current_known_setpoint st = Some 4 ->
  poll_iteration (tick float_4_4 senv) st
  = (Ok tt, st, [Sleep 10; GetSetpoint DOMOTICZ_FRIDGE_SETPOINT_IDX])
  /\ (is_connected senv = true ->
      let run := poll_iteration (tick float_5_6 senv) st in
      (written_frames (trace_of run) = [set_target_6]
       \/ written_frames (trace_of run) = [set_target_6; query_frame])
      /\ (outcome (set_write senv) = Ok tt ->
          arrived (settle_sleep senv) = [] ->
          arrived (query_write senv) = [] ->
          arrived (reply_sleep senv) = [] ->
          current_known_setpoint (state_of run) = Some 6
          /\ (forall senv',
                poll_iteration (tick float_5_6 senv') (state_of run)
                = (Ok tt, state_of run,
                   [Sleep 10; GetSetpoint DOMOTICZ_FRIDGE_SETPOINT_IDX])))
      /\ (outcome (set_write senv) = Raise BleakError ->
          arrived (set_write senv) = [] ->
          state_of run = st
          /\ outcome_of run = Ok tt
          /\ (forall senv',
                is_connected senv' = true ->
                let next :=
                  poll_iteration (tick float_5_6 senv') (state_of run) in
                written_frames (trace_of next) = [set_target_6]
                \/ written_frames (trace_of next)
                   = [set_target_6; query_frame])))
  /\ (forall env st',
        tick_connected env = true ->
        outcome (interval_sleep env) = Ok tt ->
        outcome (pull env) = Ok (Some float_5_6) ->
        is_connected (set_env env) = true ->
        let compared :=
          state_of (deliver (arrived (pull env))
                      (state_of (deliver (arrived (interval_sleep env))
                                   st'))) in
        let next := poll_iteration env st' in
        (current_known_setpoint compared = Some 6 ->
         written_frames (trace_of next) = [])
        /\ (current_known_setpoint compared <> Some 6 ->
            written_frames (trace_of next) = [set_target_6]
            \/ written_frames (trace_of next)
               = [set_target_6; query_frame]))
  /\ (forall data cmd payload r,
        parse_frame data = Ok (cmd, payload) ->
        byte_val cmd = 1 ->
        read_query payload = Ok r ->
        is_connected senv = true ->
        outcome (set_write senv) = Ok tt ->
        outcome (settle_sleep senv) = Ok tt ->
        arrived (settle_sleep senv) = [] ->
        outcome (query_write senv) = Ok tt ->
        arrived (query_write senv) = [] ->
        arrived (reply_sleep senv) = [data] ->
        let run := poll_iteration (tick float_5_6 senv) st in
        current_known_setpoint (state_of run) = Some (target_temp r)
        /\ (forall senv',
              is_connected senv' = true ->
              let next :=
                poll_iteration (tick float_5_6 senv') (state_of run) in
              (target_temp r = 6 -> written_frames (trace_of next) = [])
              /\ (target_temp r <> 6 ->
                  written_frames (trace_of next) = [set_target_6]
                  \/ written_frames (trace_of next)
                     = [set_target_6; query_frame])))
  /\ (forall data cmd payload r senv' st',
        parse_frame data = Ok (cmd, payload) ->
        byte_val cmd = 1 ->
        read_query payload = Ok r ->
        is_connected senv' = true ->
        let next :=
          poll_iteration
            {| interval_sleep := {| arrived := [data]; outcome := Ok tt |};
               tick_connected := true;
               pull := completes (Some float_5_6);
               set_env := senv' |} st' in
        (target_temp r = 6 -> written_frames (trace_of next) = [])
        /\ (target_temp r <> 6 ->
            written_frames (trace_of next) = [set_target_6]
            \/ written_frames (trace_of next)
               = [set_target_6; query_frame])).
Proof.
  intros Hknown.
  assert (Hwrites : forall s env,
             current_known_setpoint s = Some 4 -> is_connected env = true ->
             written_frames
               (trace_of (poll_iteration (tick float_5_6 env) s))
             = [set_target_6]
             \/ written_frames
                  (trace_of (poll_iteration (tick float_5_6 env) s))
                = [set_target_6; query_frame]).
  { intros s env Hs Hconn.
    rewrite (poll_iteration_changed float_5_6 env s 4 Hs)
      by (vm_compute; discriminate).
    cbn [trace_of snd]. split_trace.
    apply (set_temperature_writes env (py_round float_5_6) x06 set_target_6 s
             Hconn); reflexivity. }
  assert (Hrule : forall env st',
             tick_connected env = true ->
             outcome (interval_sleep env) = Ok tt ->
             outcome (pull env) = Ok (Some float_5_6) ->
             is_connected (set_env env) = true ->
             (current_known_setpoint
                (state_of (deliver (arrived (pull env))
                             (state_of (deliver
                                          (arrived (interval_sleep env))
                                          st')))) = Some 6 ->
              written_frames (trace_of (poll_iteration env st')) = [])
             /\ (current_known_setpoint
                   (state_of (deliver (arrived (pull env))
                                (state_of (deliver
                                             (arrived (interval_sleep env))
                                             st')))) <> Some 6 ->
                 written_frames (trace_of (poll_iteration env st'))
                 = [set_target_6]
                 \/ written_frames (trace_of (poll_iteration env st'))
                    = [set_target_6; query_frame])).
  { intros env st' Hconn Hsleep Hpull Hsconn.
    rewrite (poll_iteration_compared env float_5_6 st' Hconn Hsleep Hpull).
    change (py_round float_5_6) with 6.
    split; intros Hk.
    - rewrite Hk. reflexivity.
    - destruct (differs _ 6) eqn:Hd.
      + apply (set_temperature_writes (set_env env) 6 x06 set_target_6 _
                 Hsconn); reflexivity.
      + apply differs_false in Hd. contradiction. }
  split; [|split; [|split; [|split]]].
  - apply (poll_iteration_unchanged float_4_4 senv st). exact Hknown.
  - intros Hconn. cbv zeta.
    split; [apply Hwrites; assumption|].
    rewrite (poll_iteration_changed float_5_6 senv st 4 Hknown)
      by (vm_compute; discriminate).
    cbn [state_of outcome_of trace_of fst snd].
    change (py_round float_5_6) with 6.
    split.
    + intros Hset Hq1 Hq2 Hq3.
      assert (Hsix : current_known_setpoint
                       (snd (fst (set_temperature senv 6 st))) = Some 6).
      { apply (set_temperature_known senv 6 st Hconn); try assumption. lia. }
      split; [exact Hsix|].
      intros senv'.
      apply (poll_iteration_unchanged float_5_6 senv'). exact Hsix.
    + intros Hset Harr.
      destruct (set_temperature_not_sent senv 6 st BleakError Hconn
                  ltac:(lia) Hset) as [Hs [_ [_ Ho]]].
      assert (Hs' : state_of (set_temperature senv 6 st) = st)
        by (rewrite Hs, Harr; reflexivity).
      split; [exact Hs'|]. split; [exact Ho|].
      intros senv' Hconn'. cbv zeta. rewrite Hs'.
      apply Hwrites; assumption.
  - intros env st'. cbv zeta. apply Hrule.
  - intros data cmd payload r Hparse Hcmd Hread Hconn Hset Hsettle Hq1
      Hquery Hq2 Hq3.
    cbv zeta.
    assert (Hreported :
              current_known_setpoint
                (state_of (poll_iteration (tick float_5_6 senv) st))
              = Some (target_temp r)).
    { rewrite (poll_iteration_changed float_5_6 senv st 4 Hknown)
        by (vm_compute; discriminate).
      cbn [state_of fst snd]. change (py_round float_5_6) with 6.
      apply (set_temperature_then_response senv 6 st data cmd payload r);
        try assumption.
      lia. }
    split; [exact Hreported|].
    intros senv' Hconn'.
    destruct (Hrule (tick float_5_6 senv')
                (state_of (poll_iteration (tick float_5_6 senv) st))
                eq_refl eq_refl eq_refl Hconn') as [Hsame Hother].
    cbn [tick interval_sleep pull arrived completes] in Hsame, Hother.
    rewrite !deliver_nil_state, Hreported in Hsame, Hother.
    split; intros Ht.
    + apply Hsame. rewrite Ht. reflexivity.
    + apply Hother. intros H. injection H as H. contradiction.
  - intros data cmd payload r senv' st' Hparse Hcmd Hread Hconn'. cbv zeta.
    destruct (Hrule {| interval_sleep := {| arrived := [data];
                                            outcome := Ok tt |};
                       tick_connected := true;
                       pull := completes (Some float_5_6);
                       set_env := senv' |} st' eq_refl eq_refl eq_refl Hconn')
      as [Hsame Hother].
    cbn [interval_sleep pull arrived completes] in Hsame, Hother.
    rewrite deliver_nil_state in Hsame, Hother.
    rewrite (deliver_response data cmd payload r st' Hparse Hcmd Hread)
      in Hsame, Hother.
    cbn [after_reading current_known_setpoint] in Hsame, Hother.
    split; intros Ht.
    + apply Hsame. rewrite Ht. reflexivity.
    + apply Hother. intros H. injection H as H. contradiction.
Qed.

Lemma C5_reconciliation_witness :
  poll_iteration (tick float_4_4 quiet_set_env) known_4
  = (Ok tt, known_4, [Sleep 10; GetSetpoint DOMOTICZ_FRIDGE_SETPOINT_IDX]).
Proof.
  apply (proj1 (C5_reconciliation known_4 quiet_set_env eq_refl)).
Defined.

(** The rule at work: the known setpoint is 4, the pull returns 5.6 and,
    during the last sleep of the sequence, the device sends a query
    response that reports a target of -4.  The known setpoint is then -4,
    and the following tick writes the set command for 6 again. *)
Example reissue_after_other_target :
  let senv := {| is_connected := true;
                 set_write := completes tt;
                 settle_sleep := completes tt;
                 query_write := completes tt;
                 reply_sleep := {| arrived := [sample_response];
                                   outcome := Ok tt |} |} in
  let run := poll_iteration (tick float_5_6 senv) known_4 in
  written_frames (trace_of run) = [set_target_6; query_frame]
  /\ current_known_setpoint (state_of run) = Some (-4)
  /\ written_frames
       (trace_of (poll_iteration (tick float_5_6 quiet_set_env)
                    (state_of run)))
     = [set_target_6; query_frame].
Proof. cbv zeta. split; [|split]; vm_compute; reflexivity. Qed.

(* ================================================================== *)
(** * Connecting with retries *)

Lemma awaited_ops_app (t1 t2 : list event) :
  awaited_ops (t1 ++ t2) = awaited_ops t1 ++ awaited_ops t2.
Proof. unfold awaited_ops. apply filter_app. Qed.

(** An attempt that fails and is not the last one: wait and go on. *)
Lemma connect_loop_retry (env : ConnectEnv) (address : string)
    (max_attempts attempt : Z) (rest : list Z) (s : SyncState) :
  connect_outcome env attempt = Raise BleakError ->
  backoff_outcome env attempt = Ok tt ->
  attempt < max_attempts - 1 ->
  connect_loop env address max_attempts (attempt :: rest) s
  = (outcome_of (connect_loop env address max_attempts rest s),
     state_of (connect_loop env address max_attempts rest s),
     failed_attempt address max_attempts attempt
     ++ trace_of (connect_loop env address max_attempts rest s)).
Proof.
  intros Hc Hb Hlt. cbn [connect_loop]. unfold_task.
  rewrite await_quiet, Hc.
  assert (Hlast : (attempt <? max_attempts - 1) = true)
    by (apply Z.ltb_lt; exact Hlt).
  rewrite Hlast. rewrite await_quiet, Hb.
  destruct (connect_loop env address max_attempts rest s) as [[r s'] t].
  reflexivity.
Qed.

(** The last attempt fails: give up. *)
Lemma connect_loop_give_up (env : ConnectEnv) (address : string)
    (max_attempts attempt : Z) (rest : list Z) (s : SyncState) :
  connect_outcome env attempt = Raise BleakError ->
  max_attempts - 1 <= attempt ->
  connect_loop env address max_attempts (attempt :: rest) s
  = (Ok None, s,
     [Print (LineConnecting (attempt + 1) max_attempts); Connect address;
      Print LineConnectError; Print LineGaveUp]).
Proof.
  intros Hc Hge. cbn [connect_loop]. unfold_task.
  rewrite await_quiet, Hc.
  assert (Hlast : (attempt <? max_attempts - 1) = false)
    by (apply Z.ltb_ge; exact Hge).
  rewrite Hlast. reflexivity.
Qed.

(** An attempt succeeds: its client is returned. *)
Lemma connect_loop_connected (env : ConnectEnv) (address : string)
    (max_attempts attempt : Z) (rest : list Z) (s : SyncState) :
  connect_outcome env attempt = Ok tt ->
  connect_loop env address max_attempts (attempt :: rest) s
  = (Ok (Some {| client_address := address; client_attempt := attempt |}),
     s,
     [Print (LineConnecting (attempt + 1) max_attempts); Connect address;
      Print LineConnected]).
Proof.
  intros Hc. cbn [connect_loop]. unfold_task.
  rewrite await_quiet, Hc. reflexivity.
Qed.

(** A run of failed attempts, none of them the last. *)
Lemma connect_loop_failures (env : ConnectEnv) (address : string)
    (max_attempts : Z) (rest : list Z) (s : SyncState) (len first : nat) :
  (forall i, backoff_outcome env i = Ok tt) ->
  (forall i, Z.of_nat first <= i < Z.of_nat (first + len) ->
             connect_outcome env i = Raise BleakError) ->
  Z.of_nat (first + len) <= max_attempts - 1 ->
  connect_loop env address max_attempts
    (map Z.of_nat (seq first len) ++ rest) s
  = (outcome_of (connect_loop env address max_attempts rest s),
     state_of (connect_loop env address max_attempts rest s),
     flat_map (failed_attempt address max_attempts)
       (map Z.of_nat (seq first len))
     ++ trace_of (connect_loop env address max_attempts rest s)).
Proof.
  intros Hb. revert first.
  induction len as [|len IH]; intros first Hc Hmax.
  - cbn [seq map app flat_map].
    destruct (connect_loop env address max_attempts rest s) as [[r s'] t].
    reflexivity.
  - cbn [seq map app flat_map].
    rewrite connect_loop_retry; [|apply Hc; lia|apply Hb|lia].
    rewrite IH; [|intros i Hi; apply Hc; lia|lia].
    cbn [outcome_of state_of trace_of fst snd].
    rewrite <- app_assoc. reflexivity.
Qed.

Lemma awaited_ops_failures (address : string) (max_attempts : Z)
    (attempts : list Z) :
  awaited_ops (flat_map (failed_attempt address max_attempts) attempts)
  = List.concat (repeat [Connect address; Sleep 5] (List.length attempts)).
Proof.
  induction attempts as [|a rest IH]; [reflexivity|].
  cbn [flat_map List.length repeat List.concat].
  rewrite awaited_ops_app, IH. reflexivity.
Qed.

Lemma range_split (n : Z) (k : nat) :
  Z.of_nat k < n ->
  range n = map Z.of_nat (seq 0 k)
            ++ Z.of_nat k
            :: map Z.of_nat (seq (S k) (Z.to_nat n - S k)).
Proof.
  intros Hk. unfold range.
  replace (Z.to_nat n) with (k + S (Z.to_nat n - S k))%nat at 1 by lia.
  rewrite seq_app, map_app. cbn [seq map Nat.add]. reflexivity.
Qed.

(** The first [k] attempts fail and attempt [k] succeeds. *)
Lemma connect_with_retry_first_success (env : ConnectEnv) (address : string)
    (max_attempts k : Z) (s : SyncState) :
  (forall i, backoff_outcome env i = Ok tt) ->
  0 <= k < max_attempts ->
  (forall i, 0 <= i < k -> connect_outcome env i = Raise BleakError) ->
  connect_outcome env k = Ok tt ->
  outcome_of (connect_with_retry env address max_attempts s)
  = Ok (Some {| client_address := address; client_attempt := k |})
  /\ state_of (connect_with_retry env address max_attempts s) = s
  /\ awaited_ops (trace_of (connect_with_retry env address max_attempts s))
     = List.concat (repeat [Connect address; Sleep 5] (Z.to_nat k))
       ++ [Connect address].
Proof.
  intros Hb Hk Hfail Hok. unfold connect_with_retry.
  rewrite (range_split max_attempts (Z.to_nat k)) by lia.
  rewrite connect_loop_failures; [|exact Hb|intros i Hi; apply Hfail; lia|lia].
  rewrite Z2Nat.id by lia.
  rewrite connect_loop_connected by exact Hok.
  cbn [outcome_of state_of trace_of fst snd].
  split; [reflexivity|]. split; [reflexivity|].
  rewrite awaited_ops_app, awaited_ops_failures.
  rewrite length_map, length_seq. reflexivity.
Qed.

(** Every attempt fails. *)
Lemma connect_with_retry_exhausted (env : ConnectEnv) (address : string)
    (max_attempts : Z) (s : SyncState) :
  (forall i, backoff_outcome env i = Ok tt) ->
  1 <= max_attempts ->
  (forall i, 0 <= i < max_attempts ->
             connect_outcome env i = Raise BleakError) ->
  outcome_of (connect_with_retry env address max_attempts s) = Ok None
  /\ state_of (connect_with_retry env address max_attempts s) = s
  /\ awaited_ops (trace_of (connect_with_retry env address max_attempts s))
     = List.concat (repeat [Connect address; Sleep 5]
                 (Z.to_nat (max_attempts - 1)))
       ++ [Connect address].
Proof.
  intros Hb Hmax Hfail. unfold connect_with_retry.
  rewrite (range_split max_attempts (Z.to_nat (max_attempts - 1))) by lia.
  rewrite connect_loop_failures; [|exact Hb|intros i Hi; apply Hfail; lia|lia].
  rewrite Z2Nat.id by lia.
  rewrite connect_loop_give_up; [|apply Hfail; lia|lia].
  cbn [outcome_of state_of trace_of fst snd].
  split; [reflexivity|]. split; [reflexivity|].
  rewrite awaited_ops_app, awaited_ops_failures.
  rewrite length_map, length_seq. reflexivity.
Qed.

(** An attempt whose connect raises something else than BleakError: the
    exception leaves the loop. *)
Lemma connect_loop_raises (env : ConnectEnv) (address : string)
    (max_attempts attempt : Z) (rest : list Z) (s : SyncState) (e : exn) :
  connect_outcome env attempt = Raise e ->
  e <> BleakError ->
  connect_loop env address max_attempts (attempt :: rest) s
  = (Raise e, s,
     [Print (LineConnecting (attempt + 1) max_attempts); Connect address]).
Proof.
  intros Hc He. cbn [connect_loop]. unfold_task.
  rewrite await_quiet, Hc.
  destruct e; try reflexivity. contradiction He. reflexivity.
Qed.

(** C9, the claim as stated fails.  The connect of this transport always
    fails, with an exception that is not a BleakError.  With
    [max_attempts = 3] a single connect attempt is made; no sleep follows
    it, no second attempt, and instead of returning [None] the function
    raises that exception. *)
Lemma C9_counterexample :
  let env := {| connect_outcome := fun _ => Raise OtherException;
                backoff_outcome := fun _ => Ok tt |} in
  let run := connect_with_retry env "07:4D:FB:A7:C4:5E" 3 initial_state in
  (forall i, exists e, connect_outcome env i = Raise e)
  /\ awaited_ops (trace_of run) = [Connect "07:4D:FB:A7:C4:5E"]
  /\ outcome_of run = Raise OtherException.
Proof.
  cbv zeta. split; [|split; reflexivity].
  intros i. exists OtherException. reflexivity.
Qed.

(** C9, amended: against a transport whose connect always fails with
    BleakError, the one exception the retry loop catches,
    [connect_with_retry] with [max_attempts = 3] makes exactly three
    connect attempts with a sleep of 5 seconds between consecutive ones
    and none after the last, and returns [None].  For any number of
    attempts: if attempt [k] is the first to succeed, the client of that
    attempt is returned after [k] attempts failed with BleakError, each
    followed by a 5-second sleep; if all [max_attempts] attempts fail with
    BleakError, [None] is returned after [max_attempts] attempts and
    [max_attempts - 1] sleeps; and if attempt [k] fails with any other
    exception, it is not retried: that exception leaves the function after
    attempt [k], with no sleep after it.  (Sleeps are taken to complete,
    that is, the task is not cancelled.) *)
Theorem C9_connect_with_retry (env : ConnectEnv) (address : string)
    (st : SyncState) :
  (forall i, backoff_outcome env i = Ok tt) ->
  ((forall i, connect_outcome env i = Raise BleakError) ->
   let run := connect_with_retry env address 3 st in
   outcome_of run = Ok None
   /\ awaited_ops (trace_of run)
      = [Connect address; Sleep 5; Connect address; Sleep 5; Connect address])
  /\ (forall max_attempts k,
        0 <= k < max_attempts ->
        (forall i, 0 <= i < k -> connect_outcome env i = Raise BleakError) ->
        connect_outcome env k = Ok tt ->
        let run := connect_with_retry env address max_attempts st in
        outcome_of run
        = Ok (Some {| client_address := address; client_attempt := k |})
        /\ awaited_ops (trace_of run)
           = List.concat (repeat [Connect address; Sleep 5] (Z.to_nat k))
             ++ [Connect address])
  /\ (forall max_attempts,
        1 <= max_attempts ->
        (forall i, 0 <= i < max_attempts ->
                   connect_outcome env i = Raise BleakError) ->
        let run := connect_with_retry env address max_attempts st in
        outcome_of run = Ok None
        /\ awaited_ops (trace_of run)
           = List.concat (repeat [Connect address; Sleep 5]
                       (Z.to_nat (max_attempts - 1)))
             ++ [Connect address])
  /\ (forall max_attempts k e,
        0 <= k < max_attempts ->
        (forall i, 0 <= i < k -> connect_outcome env i = Raise BleakError) ->
        connect_outcome env k = Raise e ->
        e <> BleakError ->
        let run := connect_with_retry env address max_attempts st in
        outcome_of run = Raise e
        /\ awaited_ops (trace_of run)
           = List.concat (repeat [Connect address; Sleep 5] (Z.to_nat k))
             ++ [Connect address]).
Proof.
  intros Hb. split; [|split; [|split]].
  - intros Hfail. cbv zeta.
    destruct (connect_with_retry_exhausted env address 3 st Hb)
      as [Ho [_ Ht]]; [lia | intros i _; apply Hfail |].
    split; [exact Ho | exact Ht].
  - intros max_attempts k Hk Hfail Hok. cbv zeta.
    destruct (connect_with_retry_first_success env address max_attempts k st
                Hb Hk Hfail Hok) as [Ho [_ Ht]].
    split; [exact Ho | exact Ht].
  - intros max_attempts Hmax Hfail. cbv zeta.
    destruct (connect_with_retry_exhausted env address max_attempts st Hb
                Hmax Hfail) as [Ho [_ Ht]].
    split; [exact Ho | exact Ht].
  - intros max_attempts k e Hk Hfail Hraise He. cbv zeta.
    unfold connect_with_retry.
    rewrite (range_split max_attempts (Z.to_nat k)) by lia.
    rewrite connect_loop_failures;
      [|exact Hb|intros i Hi; apply Hfail; lia|lia].
    rewrite Z2Nat.id by lia.
    rewrite (connect_loop_raises env address max_attempts k _ st e Hraise He).
    cbn [outcome_of state_of trace_of fst snd].
    split; [reflexivity|].
    rewrite awaited_ops_app, awaited_ops_failures.
    rewrite length_map, length_seq. reflexivity.
Qed.

Lemma C9_connect_with_retry_witness :
  let run := connect_with_retry always_failing "07:4D:FB:A7:C4:5E" 3
               initial_state in
  outcome_of run = Ok None
  /\ awaited_ops (trace_of run)
     = [Connect "07:4D:FB:A7:C4:5E"; Sleep 5; Connect "07:4D:FB:A7:C4:5E";
        Sleep 5; Connect "07:4D:FB:A7:C4:5E"].
Proof.
  cbv zeta.
  apply (proj1 (C9_connect_with_retry always_failing "07:4D:FB:A7:C4:5E"
                  initial_state (fun _ => eq_refl))).
  intros i. reflexivity.
Defined.

(* ================================================================== *)
(** * Further properties of the frame codec *)

Lemma create_packet_length (data pkt : list byte) :
  create_packet data = Ok pkt ->
  Z.of_nat (List.length data) <= 253
  /\ List.length pkt = (List.length data + 5)%nat.
Proof.
  intros Hpkt.
  destruct (Z_le_gt_dec (Z.of_nat (List.length data)) 253) as [Hle|Hgt].
  - split; [exact Hle|].
    destruct (create_packet_layout data Hle) as [len [hi [lo [E _]]]].
    rewrite E in Hpkt. injection Hpkt as <-.
    cbn [app List.length]. rewrite length_app. cbn [List.length]. lia.
  - rewrite create_packet_too_large in Hpkt by lia. discriminate Hpkt.
Qed.

(** X1: [create_packet] builds a frame exactly when its argument (command
    and payload) has at most 253 bytes, and the frame is then 5 bytes
    longer than the argument; a longer argument raises struct.error,
    because the length byte does not fit. *)
Theorem X1_create_packet_capacity (data : list byte) :
  ((exists pkt, create_packet data = Ok pkt
                /\ List.length pkt = (List.length data + 5)%nat)
   <-> Z.of_nat (List.length data) <= 253)
  /\ (create_packet data = Raise StructError
      <-> 253 < Z.of_nat (List.length data)).
Proof.
  split; split.
  - intros [pkt [Hpkt _]]. apply (create_packet_length data pkt Hpkt).
  - intros Hle.
    destruct (create_packet_layout data Hle) as [len [hi [lo [E _]]]].
    eexists. split; [exact E|].
    cbn [app List.length]. rewrite length_app. cbn [List.length]. lia.
  - intros Hraise.
    destruct (Z_le_gt_dec (Z.of_nat (List.length data)) 253) as [Hle|Hgt];
      [|lia].
    destruct (create_packet_layout data Hle) as [len [hi [lo [E _]]]].
    rewrite E in Hraise. discriminate Hraise.
  - apply create_packet_too_large.
Qed.

(** X2: [create_packet] is injective: two arguments that give the same
    frame are equal. *)
Theorem X2_create_packet_injective (data data' pkt : list byte) :
  create_packet data = Ok pkt -> create_packet data' = Ok pkt ->
  data = data'.
Proof.
  intros H1 H2.
  destruct (create_packet_length _ _ H1) as [L1 _].
  destruct (create_packet_length _ _ H2) as [L2 _].
  destruct (create_packet_layout data L1) as [len [hi [lo [E1 _]]]].
  destruct (create_packet_layout data' L2) as [len' [hi' [lo' [E2 _]]]].
  rewrite E1 in H1. rewrite E2 in H2. rewrite <- H2 in H1.
  injection H1 as _ Htail.
  change [hi; lo] with ([hi] ++ [lo]) in Htail.
  change [hi'; lo'] with ([hi'] ++ [lo']) in Htail.
  rewrite !app_assoc in Htail.
  apply app_inj_tail in Htail. destruct Htail as [Htail _].
  apply app_inj_tail in Htail. destruct Htail as [Htail _].
  exact Htail.
Qed.

Lemma X2_create_packet_injective_witness : [x05; x06] = [x05; x06].
Proof.
  apply (X2_create_packet_injective [x05; x06] [x05; x06] set_target_6);
    reflexivity.
Defined.

(** X3: the frame parser of [test_fridge.py] and the one of
    [domoticz_fridge_control.py] return the same result, or both raise
    IndexError, on every input. *)
Theorem X3_parsers_agree (data : list byte) :
  TestFridge.parse_frame data = parse_frame data.
Proof.
  rewrite test_parse_frame_eq, parse_frame_eq. reflexivity.
Qed.

(** X4: the payload [parse_frame] returns is the run of bytes that follows
    the command byte in the input; it has at most 252 bytes, never more
    than the input holds after offset 4, and it is empty when the length
    byte is 3 or less. *)
Theorem X4_parse_frame_payload (data : list byte) (cmd : byte)
    (payload : list byte) :
  parse_frame data = Ok (cmd, payload) ->
  (exists len rest,
      nth_error data 2 = Some len
      /\ skipn 4 data = payload ++ rest
      /\ (byte_val len <= 3 -> payload = []))
  /\ (List.length payload <= 252)%nat
  /\ (List.length payload + 4 <= List.length data)%nat.
Proof.
  rewrite parse_frame_eq.
  destruct (nth_error data 2) as [len|] eqn:E2; [|discriminate].
  destruct (nth_error data 3) as [c|] eqn:E3; [|discriminate].
  intros H.
  assert (Hc : c = cmd
               /\ firstn (Z.to_nat (byte_val len - 3)) (skipn 4 data)
                  = payload) by (split; congruence).
  destruct Hc as [<- <-]. clear H.
  pose proof (byte_val_range len) as Hlen.
  assert (Hdata : (4 <= List.length data)%nat).
  { assert (H : nth_error data 3 <> None) by congruence.
    apply nth_error_Some in H. lia. }
  split; [|split].
  - exists len, (skipn (Z.to_nat (byte_val len - 3)) (skipn 4 data)).
    split; [reflexivity|]. split.
    + symmetry. apply firstn_skipn.
    + intros Hsmall.
      replace (Z.to_nat (byte_val len - 3)) with 0%nat by lia. reflexivity.
  - rewrite length_firstn. lia.
  - rewrite length_firstn, length_skipn. lia.
Qed.

Lemma X4_parse_frame_payload_witness :
  (exists len rest,
      nth_error sample_response 2 = Some len
      /\ skipn 4 sample_response = sample_payload ++ rest
      /\ (byte_val len <= 3 -> sample_payload = []))
  /\ (List.length sample_payload <= 252)%nat
  /\ (List.length sample_payload + 4 <= List.length sample_response)%nat.
Proof.
  apply (X4_parse_frame_payload sample_response x01 sample_payload).
  reflexivity.
Defined.

(** X5: [calculate_checksum] is the sum of the bytes modulo 256, a value
    from 0 to 255, and the last byte of a frame built by [create_packet] is
    [calculate_checksum] of the frame without its two checksum bytes. *)
Theorem X5_calculate_checksum (data : list byte) :
  calculate_checksum data = sum data mod 256
  /\ 0 <= calculate_checksum data <= 255
  /\ (forall pkt,
        create_packet data = Ok pkt ->
        exists body hi lo,
          pkt = body ++ [hi; lo]
          /\ byte_val lo = calculate_checksum body).
Proof.
  assert (Hmod : forall l, calculate_checksum l = sum l mod 256).
  { intros l. unfold calculate_checksum.
    change 0xFF with (Z.ones 8). rewrite Z.land_ones by lia. reflexivity. }
  split; [apply Hmod|]. split.
  - rewrite Hmod. pose proof (Z.mod_pos_bound (sum data) 256). lia.
  - intros pkt Hpkt.
    destruct (create_packet_length _ _ Hpkt) as [Hle _].
    destruct (create_packet_layout data Hle) as [len [hi [lo [E [_ Hsum]]]]].
    rewrite E in Hpkt. injection Hpkt as <-.
    exists ([xfe; xfe; len] ++ data), hi, lo.
    split; [reflexivity|].
    rewrite Hmod.
    pose proof (byte_val_range hi) as Hhi.
    pose proof (byte_val_range lo) as Hlo.
    set (s := sum ([xfe; xfe; len] ++ data)) in *.
    assert (Hlow : s mod 256 = (s mod 65536) mod 256).
    { symmetry. apply Z.mod_mod_divide. exists 256. reflexivity. }
    rewrite Hlow, <- Hsum.
    rewrite Z.add_comm, Z.mul_comm, Z.mod_add by lia.
    symmetry. apply Z.mod_small. lia.
Qed.

Lemma X5_calculate_checksum_witness :
  exists body hi lo,
    query_frame = body ++ [hi; lo]
    /\ byte_val lo = calculate_checksum body.
Proof.
  apply (proj2 (proj2 (X5_calculate_checksum [x01])) query_frame).
  reflexivity.
Defined.

(** X6: the first frame a connected [set_temperature] writes for a
    temperature from -128 to 127 parses back to command 0x05 with a single
    payload byte, and that byte read as a signed 8-bit value is the
    temperature that was asked for. *)
Theorem X6_set_frame_carries_temperature (env : SetTempEnv) (temp : Z)
    (st : SyncState) :
  is_connected env = true ->
  -128 <= temp <= 127 ->
  exists pkt b,
    hd_error (written_frames (trace_of (set_temperature env temp st)))
    = Some pkt
    /\ parse_frame pkt = Ok (x05, [b])
    /\ unpack_b b = temp.
Proof.
  intros Hconn Htemp.
  destruct (pack_b_spec temp Htemp) as [b [Hpack Hunpack]].
  destruct (create_packet_layout [x05; b]) as [len [hi [lo [E [Vlen _]]]]];
    [cbn; lia|].
  exists ([xfe; xfe; len] ++ [x05; b] ++ [hi; lo]), b.
  split; [|split].
  - destruct (set_temperature_writes env temp b _ st Hconn Hpack E)
      as [H|H]; rewrite H; reflexivity.
  - change ([xfe; xfe; len] ++ [x05; b] ++ [hi; lo])
      with ([xfe; xfe; len; x05] ++ [b] ++ [hi; lo]).
    apply parse_frame_framed. cbn [List.length] in *. lia.
  - exact Hunpack.
Qed.

Lemma X6_set_frame_carries_temperature_witness :
  exists pkt b,
    hd_error (written_frames
                (trace_of (set_temperature quiet_set_env (-4) known_4)))
    = Some pkt
    /\ parse_frame pkt = Ok (x05, [b])
    /\ unpack_b b = -4.
Proof.
  apply (X6_set_frame_carries_temperature quiet_set_env (-4) known_4 eq_refl).
  lia.
Defined.

(* ================================================================== *)
(** * Further properties of the notification handler *)

(** X7: only a query response changes anything.  For a frame whose command
    byte is not 0x01 (the set-temperature echo 0x05 among them) the handler
    returns normally, leaves the three globals as they were and creates no
    task; for an input of fewer than 4 bytes it raises IndexError, again
    without any effect. *)
Theorem X7_other_frames_change_nothing (data : list byte) (st : SyncState) :
  (forall cmd payload,
      parse_frame data = Ok (cmd, payload) -> byte_val cmd <> 1 ->
      outcome_of (notification_handler data st) = Ok tt
      /\ state_of (notification_handler data st) = st
      /\ created_tasks (trace_of (notification_handler data st)) = [])
  /\ ((List.length data < 4)%nat ->
      notification_handler data st = (Raise IndexError, st, [])).
Proof.
  split.
  - intros cmd payload Hparse Hcmd.
    apply Z.eqb_neq in Hcmd.
    unfold notification_handler. unfold_task. rewrite Hparse, Hcmd.
    destruct (byte_val cmd =? 5); repeat split.
  - intros Hlen.
    assert (Hparse : parse_frame data = Raise IndexError).
    { rewrite parse_frame_eq.
      destruct data as [|m1 [|m2 [|len [|cmd rest]]]];
        cbn in Hlen |- *; try reflexivity; lia. }
    unfold notification_handler. unfold_task. rewrite Hparse. reflexivity.
Qed.

Lemma X7_other_frames_change_nothing_witness :
  outcome_of (notification_handler set_target_6 known_4) = Ok tt
  /\ state_of (notification_handler set_target_6 known_4) = known_4
  /\ created_tasks (trace_of (notification_handler set_target_6 known_4))
     = [].
Proof.
  apply (proj1 (X7_other_frames_change_nothing set_target_6 known_4)
           x05 [x06]).
  - reflexivity.
  - vm_compute. discriminate.
Defined.

(** X8: the handler does not block and does not talk to the device: for
    every frame and every state it awaits nothing, writes no frame, and
    creates at most two push tasks. *)
Theorem X8_handler_does_no_io (data : list byte) (st : SyncState) :
  awaited_ops (trace_of (notification_handler data st)) = []
  /\ written_frames (trace_of (notification_handler data st)) = []
  /\ (List.length (created_tasks (trace_of (notification_handler data st)))
      <= 2)%nat.
Proof.
  destruct (parse_frame data) as [[cmd payload]|e] eqn:Hparse.
  - destruct (byte_val cmd =? 1) eqn:Hcmd.
    + apply Z.eqb_eq in Hcmd.
      destruct (read_query payload) as [r|e] eqn:Hread.
      * rewrite (notification_handler_reading _ _ _ _ st Hparse Hcmd Hread).
        unfold pushes_of_reading. cbn [trace_of snd].
        destruct (differs _ _); destruct (differs _ _); cbn; repeat split;
          lia.
      * unfold notification_handler. unfold_task.
        rewrite Hparse, Hcmd. cbn [Z.eqb Pos.eqb]. rewrite Hread.
        destruct e; cbn; repeat split; lia.
    + unfold notification_handler. unfold_task. rewrite Hparse, Hcmd.
      destruct (byte_val cmd =? 5); cbn; repeat split; lia.
  - unfold notification_handler. unfold_task. rewrite Hparse.
    cbn. repeat split; lia.
Qed.

(* ================================================================== *)
(** * The known setpoint and the reported target *)

Lemma keeps_synced_ret {A} (a : A) : keeps_synced (ret a).
Proof. intros s H. exact H. Qed.

Lemma keeps_synced_lift {A} (r : result A) : keeps_synced (lift r).
Proof. intros s H. exact H. Qed.

Lemma keeps_synced_emit (e : event) : keeps_synced (emit e).
Proof. intros s H. exact H. Qed.

Lemma keeps_synced_bind {A B} (m : Task A) (k : A -> Task B) :
  keeps_synced m -> (forall a, keeps_synced (k a)) ->
  keeps_synced (bind m k).
Proof.
  intros Hm Hk s Hs. rewrite bind_run.
  destruct (outcome_of (m s)) as [a|e]; cbn [state_of fst snd].
  - apply Hk, Hm, Hs.
  - apply Hm, Hs.
Qed.

Lemma keeps_synced_try_except {A} (body : Task A)
    (handler : exn -> option (Task A)) :
  keeps_synced body ->
  (forall e h, handler e = Some h -> keeps_synced h) ->
  keeps_synced (try_except body handler).
Proof.
  intros Hb Hh s Hs. unfold try_except.
  pose proof (Hb s Hs) as H1. unfold state_of in H1 |- *.
  destruct (body s) as [[[a|e] s1] t1]; cbn [fst snd] in *; [exact H1|].
  destruct (handler e) as [h|] eqn:Eh; cbn [fst snd]; [|exact H1].
  pose proof (Hh e h Eh s1 H1) as H2. unfold state_of in H2.
  destruct (h s1) as [[r s2] t2]. exact H2.
Qed.

Lemma synced_after_reading (r : Reading) (st : SyncState) :
  synced (after_reading r st).
Proof.
  unfold synced.
  rewrite (proj2 (after_reading_reported r st)). reflexivity.
Qed.

Lemma keeps_synced_notification_handler (data : list byte) :
  keeps_synced (notification_handler data).
Proof.
  intros s Hs.
  destruct (notification_handler_cases data s) as [[Hst _]|[r Hr]].
  - rewrite Hst. exact Hs.
  - rewrite Hr. apply synced_after_reading.
Qed.

Lemma keeps_synced_callback (data : list byte) :
  keeps_synced (callback data).
Proof.
  intros s Hs. rewrite (proj1 (proj2 (callback_run data s))).
  apply keeps_synced_notification_handler, Hs.
Qed.

Lemma keeps_synced_deliver (frames : list (list byte)) :
  keeps_synced (deliver frames).
Proof.
  induction frames as [|data rest IH]; cbn [deliver].
  - apply keeps_synced_ret.
  - apply keeps_synced_bind; [apply keeps_synced_callback | intros _; exact IH].
Qed.

Lemma keeps_synced_await {R} (op : event) (a : awaited R) :
  keeps_synced (await op a).
Proof.
  intros s Hs. rewrite await_run. apply keeps_synced_deliver, Hs.
Qed.

(** Lines 206-209 as one step: whatever the state before, the known
    setpoint and the reported target are both [temp] after it. *)
Lemma keeps_synced_set_block (temp : Z) (rest : Task unit) :
  keeps_synced rest ->
  keeps_synced
    (assign (set_current_known_setpoint temp) ;;
     st <- read_globals ;;
     when (negb (DOMOTICZ_FRIDGE_SETPOINT_IDX =? "IDX_SETPOINT")%string
           && differs (last_reported_fridge_target st) temp)
       (emit (CreateTask DOMOTICZ_FRIDGE_SETPOINT_IDX (str temp)) ;;
        assign (set_last_reported_fridge_target temp)) ;;
     rest).
Proof.
  intros Hrest s _. destruct s as [known ltemp ltarget].
  configured. unfold_task.
  destruct (differs ltarget temp) eqn:Ed.
  - pose proof (Hrest {| current_known_setpoint := Some temp;
                         last_reported_fridge_temp := ltemp;
                         last_reported_fridge_target := Some temp |}
                  eq_refl) as H.
    unfold state_of in H.
    destruct (rest _) as [[r s2] t2]. exact H.
  - apply differs_false in Ed. subst ltarget.
    pose proof (Hrest {| current_known_setpoint := Some temp;
                         last_reported_fridge_temp := ltemp;
                         last_reported_fridge_target := Some temp |}
                  eq_refl) as H.
    unfold state_of in H.
    destruct (rest _) as [[r s2] t2]. exact H.
Qed.

Lemma keeps_synced_set_temperature (env : SetTempEnv) (temp : Z) :
  keeps_synced (set_temperature env temp).
Proof.
  unfold set_temperature.
  destruct (negb (is_connected env)); [apply keeps_synced_emit|].
  apply keeps_synced_bind; [apply keeps_synced_lift|]. intros temp_byte.
  apply keeps_synced_bind; [apply keeps_synced_lift|]. intros command.
  apply keeps_synced_bind; [apply keeps_synced_emit|]. intros _.
  apply keeps_synced_try_except.
  - apply keeps_synced_bind; [apply keeps_synced_await|]. intros _.
    apply keeps_synced_bind; [apply keeps_synced_emit|]. intros _.
    apply keeps_synced_set_block.
    apply keeps_synced_bind; [apply keeps_synced_await|]. intros _.
    apply keeps_synced_bind; [apply keeps_synced_emit|]. intros _.
    apply keeps_synced_bind; [apply keeps_synced_lift|]. intros query.
    apply keeps_synced_bind; [apply keeps_synced_await|]. intros _.
    apply keeps_synced_await.
  - intros e h Hh. destruct e; try discriminate Hh.
    injection Hh as <-. apply keeps_synced_emit.
Qed.

Lemma keeps_synced_poll_iteration (env : TickEnv) :
  keeps_synced (poll_iteration env).
Proof.
  unfold poll_iteration.
  apply keeps_synced_bind; [apply keeps_synced_await|]. intros _.
  destruct (negb (tick_connected env)); [apply keeps_synced_ret|].
  destruct (DOMOTICZ_FRIDGE_SETPOINT_IDX =? "IDX_SETPOINT")%string;
    [apply keeps_synced_ret|].
  apply keeps_synced_bind; [apply keeps_synced_await|]. intros [x|];
    [|apply keeps_synced_ret].
  apply keeps_synced_bind; [intros s H; exact H|]. intros st.
  destruct (differs _ _); [|apply keeps_synced_ret].
  apply keeps_synced_bind; [apply keeps_synced_emit|]. intros _.
  apply keeps_synced_set_temperature.
Qed.

(** X9: the known setpoint and the target last reported upstream are kept
    equal.  They are equal at start (both unset), and whenever they are
    equal before a notification, a set-temperature sequence, a polling
    iteration or any number of iterations (with whatever notifications and
    failures occur during them), they are equal after it. *)
Theorem X9_known_setpoint_is_reported_target :
  synced initial_state
  /\ (forall data, keeps_synced (notification_handler data))
  /\ (forall env temp, keeps_synced (set_temperature env temp))
  /\ (forall env, keeps_synced (poll_iteration env))
  /\ (forall envs, keeps_synced (poll_loop envs)).
Proof.
  split; [reflexivity|].
  split; [apply keeps_synced_notification_handler|].
  split; [apply keeps_synced_set_temperature|].
  split; [apply keeps_synced_poll_iteration|].
  intros envs. induction envs as [|env rest IH]; cbn [poll_loop].
  - apply keeps_synced_ret.
  - apply keeps_synced_bind;
      [apply keeps_synced_poll_iteration | intros _; exact IH].
Qed.

Lemma X9_known_setpoint_is_reported_target_witness :
  synced (state_of (poll_loop [quiet_tick float_5_6; quiet_tick float_4_4]
                      initial_state)).
Proof.
  apply (proj2 (proj2 (proj2 (proj2 X9_known_setpoint_is_reported_target)))
           [quiet_tick float_5_6; quiet_tick float_4_4] initial_state).
  reflexivity.
Defined.

(* ================================================================== *)
(** * Further properties of [connect_with_retry] *)

(** X10: with [max_attempts] zero or negative the loop body never runs:
    [connect_with_retry] returns [None] at once, without a connection
    attempt, a sleep or a printed line. *)
Theorem X10_no_attempt_allowed (env : ConnectEnv) (address : string)
    (max_attempts : Z) (st : SyncState) :
  max_attempts <= 0 ->
  connect_with_retry env address max_attempts st = (Ok None, st, []).
Proof.
  intros Hmax. unfold connect_with_retry, range.
  replace (Z.to_nat max_attempts) with 0%nat by lia. reflexivity.
Qed.

Lemma X10_no_attempt_allowed_witness :
  connect_with_retry always_failing "07:4D:FB:A7:C4:5E" 0 initial_state
  = (Ok None, initial_state, []).
Proof.
  apply (X10_no_attempt_allowed always_failing "07:4D:FB:A7:C4:5E" 0
           initial_state).
  lia.
Defined.

Lemma connect_loop_bounds (env : ConnectEnv) (address : string)
    (max_attempts : Z) (attempts : list Z) (s : SyncState) :
  state_of (connect_loop env address max_attempts attempts s) = s
  /\ (List.length
        (connects_of
           (trace_of (connect_loop env address max_attempts attempts s)))
      <= List.length attempts)%nat
  /\ (List.length
        (sleeps_of
           (trace_of (connect_loop env address max_attempts attempts s)))
      <= List.length
           (connects_of
              (trace_of (connect_loop env address max_attempts attempts s))))%nat
  /\ written_frames
       (trace_of (connect_loop env address max_attempts attempts s)) = []
  /\ created_tasks
       (trace_of (connect_loop env address max_attempts attempts s)) = [].
Proof.
  induction attempts as [|attempt rest IH].
  - cbn. repeat split; lia.
  - cbn [connect_loop]. unfold_task. rewrite await_quiet.
    destruct (connect_outcome env attempt) as [[]|e].
    + cbn. repeat split; lia.
    + destruct e; try (cbn; repeat split; lia).
      destruct (attempt <? max_attempts - 1).
      * rewrite await_quiet.
        destruct (backoff_outcome env attempt) as [[]|e].
        -- destruct IH as [Hs [Hc [Hsl [Hw Ht]]]].
           unfold state_of, trace_of in *.
           destruct (connect_loop env address max_attempts rest s)
             as [[r s'] t].
           cbn [fst snd app connects_of sleeps_of filter List.length
                written_frames created_tasks flat_map] in *.
           repeat split; try assumption; lia.
        -- cbn. repeat split; lia.
      * cbn. repeat split; lia.
Qed.

(** X11: whatever the transport does, [connect_with_retry] makes at most
    [max_attempts] connection attempts and never sleeps more often than it
    has tried to connect; it writes nothing to the device, creates no task
    and leaves the three globals untouched. *)
Theorem X11_attempts_are_bounded (env : ConnectEnv) (address : string)
    (max_attempts : Z) (st : SyncState) :
  let run := connect_with_retry env address max_attempts st in
  (Z.of_nat (List.length (connects_of (trace_of run)))
   <= Z.max 0 max_attempts)
  /\ (List.length (sleeps_of (trace_of run))
      <= List.length (connects_of (trace_of run)))%nat
  /\ written_frames (trace_of run) = []
  /\ created_tasks (trace_of run) = []
  /\ state_of run = st.
Proof.
  cbv zeta. unfold connect_with_retry.
  destruct (connect_loop_bounds env address max_attempts
              (range max_attempts) st) as [Hs [Hc [Hsl [Hw Ht]]]].
  unfold range in Hc at 2. rewrite length_map, length_seq in Hc.
  repeat split; try assumption. lia.
Qed.

(** X12: only BleakError is retried.  When, after [k] attempts that failed
    with BleakError, the connect of attempt [k] raises any other exception,
    that exception leaves [connect_with_retry] at once: no further attempt
    is made and no sleep follows it. *)
Theorem X12_other_errors_are_not_retried (env : ConnectEnv)
    (address : string) (max_attempts k : Z) (st : SyncState) (e : exn) :
  (forall i, backoff_outcome env i = Ok tt) ->
  0 <= k < max_attempts ->
  (forall i, 0 <= i < k -> connect_outcome env i = Raise BleakError) ->
  connect_outcome env k = Raise e ->
  e <> BleakError ->
  let run := connect_with_retry env address max_attempts st in
  outcome_of run = Raise e
  /\ awaited_ops (trace_of run)
     = List.concat (repeat [Connect address; Sleep 5] (Z.to_nat k))
       ++ [Connect address].
Proof.
  intros Hb Hk Hfail Hraise He. cbv zeta. unfold connect_with_retry.
  rewrite (range_split max_attempts (Z.to_nat k)) by lia.
  rewrite connect_loop_failures; [|exact Hb|intros i Hi; apply Hfail; lia|lia].
  rewrite Z2Nat.id by lia.
  rewrite (connect_loop_raises env address max_attempts k _ st e Hraise He).
  cbn [outcome_of state_of trace_of fst snd].
  split; [reflexivity|].
  rewrite awaited_ops_app, awaited_ops_failures.
  rewrite length_map, length_seq. reflexivity.
Qed.

Lemma X12_other_errors_are_not_retried_witness :
  let env := {| connect_outcome :=
                  fun i => if i =? 1 then Raise OtherException
                           else Raise BleakError;
                backoff_outcome := fun _ => Ok tt |} in
  let run := connect_with_retry env "07:4D:FB:A7:C4:5E" 3 initial_state in
  outcome_of run = Raise OtherException
  /\ awaited_ops (trace_of run)
     = List.concat (repeat [Connect "07:4D:FB:A7:C4:5E"; Sleep 5]
                      (Z.to_nat 1))
       ++ [Connect "07:4D:FB:A7:C4:5E"].
Proof.
  cbv zeta.
  apply (X12_other_errors_are_not_retried
           {| connect_outcome :=
                fun i => if i =? 1 then Raise OtherException
                         else Raise BleakError;
              backoff_outcome := fun _ => Ok tt |}
           "07:4D:FB:A7:C4:5E" 3 1 initial_state OtherException).
  - intros i. reflexivity.
  - lia.
  - intros i Hi. cbn [connect_outcome].
    assert (Hi0 : (i =? 1) = false) by (apply Z.eqb_neq; lia).
    rewrite Hi0. reflexivity.
  - reflexivity.
  - discriminate.
Defined.

(* ================================================================== *)
(** * Further properties of [set_temperature] *)

(** X13: the two guards of [set_temperature].  Without a connected client
    it only prints and returns.  With a connected client and a temperature
    outside -128..127, struct.error is raised before the [try], so it
    leaves the function.  In both cases nothing is written to the device,
    nothing is awaited, no task is created and the globals are untouched. *)
Theorem X13_set_temperature_guards (env : SetTempEnv) (temp : Z)
    (st : SyncState) :
  (is_connected env = false ->
   set_temperature env temp st = (Ok tt, st, [Print LineNotConnected]))
  /\ (is_connected env = true -> temp < -128 \/ 127 < temp ->
      set_temperature env temp st = (Raise StructError, st, [])).
Proof.
  split.
  - intros Hconn. unfold set_temperature. rewrite Hconn. reflexivity.
  - intros Hconn Hrange. unfold set_temperature. rewrite Hconn.
    cbn [negb]. unfold_task. unfold pack_b.
    destruct ((temp <? -128) || (127 <? temp)) eqn:E; [reflexivity|]. lia.
Qed.

Lemma X13_set_temperature_guards_witness :
  set_temperature quiet_set_env 128 known_4 = (Raise StructError, known_4, []).
Proof.
  apply (proj2 (X13_set_temperature_guards quiet_set_env 128 known_4)).
  - reflexivity.
  - lia.
Defined.

(** X14: a BleakError never leaves [set_temperature].  Whatever the
    environment does at its four awaits, the sequence either returns
    normally or raises an exception other than BleakError; in particular a
    failed write of the set command ends the sequence with a normal
    return, so the caller's loop goes on. *)
Theorem X14_link_errors_are_absorbed (env : SetTempEnv) (temp : Z)
    (st : SyncState) :
  match outcome_of (set_temperature env temp st) with
  | Raise BleakError => False
  | _ => True
  end
  /\ (is_connected env = true -> -128 <= temp <= 127 ->
      outcome (set_write env) = Raise BleakError ->
      outcome_of (set_temperature env temp st) = Ok tt).
Proof.
  split.
  - unfold set_temperature.
    destruct (negb (is_connected env)); [exact I|].
    unfold_task.
    destruct (pack_b temp) as [tb|e] eqn:Hpack.
    2:{ unfold pack_b, pack_B in Hpack.
        destruct ((temp <? -128) || (127 <? temp));
          [injection Hpack as <-; exact I|].
        destruct (temp mod 256 <? 0); [injection Hpack as <-; exact I|].
        destruct (Byte.of_N _); [discriminate|].
        injection Hpack as <-. exact I. }
    destruct (create_packet_set tb) as [pkt Hpkt]. rewrite Hpkt.
    change (create_packet [x01]) with (Ok query_frame).
    configured. cbn [andb].
    rewrite await_run.
    destruct (outcome (set_write env)) as [[]|e]; [|destruct e; exact I].
    cbn [fst snd].
    destruct (differs _ temp);
      rewrite await_run;
      (destruct (outcome (settle_sleep env)) as [[]|e];
       [|destruct e; exact I]);
      cbn [fst snd]; rewrite await_run;
      (destruct (outcome (query_write env)) as [[]|e];
       [|destruct e; exact I]);
      cbn [fst snd]; rewrite await_run;
      (destruct (outcome (reply_sleep env)) as [[]|e];
       [|destruct e]); exact I.
  - intros Hconn Htemp Hout.
    destruct (set_temperature_not_sent env temp st BleakError Hconn Htemp
                Hout) as [_ [_ [_ Ho]]].
    exact Ho.
Qed.

Lemma X14_link_errors_are_absorbed_witness :
  outcome_of (set_temperature failing_set_env 6 known_4) = Ok tt.
Proof.
  apply (proj2 (X14_link_errors_are_absorbed failing_set_env 6 known_4)).
  - reflexivity.
  - lia.
  - reflexivity.
Defined.

(* ================================================================== *)
(** * Further properties of the polling loop *)

Lemma differs_some (known : option Z) (v : Z) :
  differs known v = false <-> known = Some v.
Proof.
  split; [apply differs_false|].
  intros ->. cbn. rewrite Z.eqb_refl. reflexivity.
Qed.

(** A tick on which nothing arrives before the comparison and the pulled
    value differs from the known setpoint. *)
Lemma poll_iteration_differs (x : Q) (senv : SetTempEnv) (st : SyncState) :
  differs (current_known_setpoint st) (py_round x) = true ->
  poll_iteration (tick x senv) st
  = (outcome_of (set_temperature senv (py_round x) st),
     state_of (set_temperature senv (py_round x) st),
     [Sleep 10; GetSetpoint DOMOTICZ_FRIDGE_SETPOINT_IDX;
      Print (LineNewSetpoint (py_round x) (current_known_setpoint st))]
     ++ trace_of (set_temperature senv (py_round x) st)).
Proof.
  intros Hd. unfold poll_iteration, tick.
  cbn [interval_sleep tick_connected pull set_env negb].
  change (DOMOTICZ_FRIDGE_SETPOINT_IDX =? "IDX_SETPOINT")%string with false.
  cbv iota. rewrite bind_run, await_completes.
  cbn [outcome_of state_of trace_of fst snd].
  rewrite bind_run, await_completes.
  cbn [outcome_of state_of trace_of fst snd].
  rewrite bind_run. cbn [read_globals outcome_of state_of trace_of fst snd].
  rewrite Hd. rewrite bind_run.
  cbn [emit outcome_of state_of trace_of fst snd app]. reflexivity.
Qed.

(** X15: a tick does nothing to the device when the client is not
    connected or when the pull gives no value.  When the client is not
    connected the remote setpoint is not even pulled; in both cases no
    frame is written and the globals are those left by the notifications
    handled during the awaits of the tick. *)
Theorem X15_idle_ticks (env : TickEnv) (st : SyncState) :
  outcome (interval_sleep env) = Ok tt ->
  let after_sleep := deliver (arrived (interval_sleep env)) st in
  let after_pull := deliver (arrived (pull env)) (state_of after_sleep) in
  (tick_connected env = false ->
   poll_iteration env st
   = (Ok tt, state_of after_sleep, Sleep 10 :: trace_of after_sleep))
  /\ (tick_connected env = true -> outcome (pull env) = Ok None ->
      poll_iteration env st
      = (Ok tt, state_of after_pull,
         Sleep 10 :: trace_of after_sleep
         ++ GetSetpoint DOMOTICZ_FRIDGE_SETPOINT_IDX :: trace_of after_pull)
      /\ written_frames (trace_of (poll_iteration env st)) = []).
Proof.
  intros Hsleep. cbv zeta.
  assert (Hnone : tick_connected env = true -> outcome (pull env) = Ok None ->
            poll_iteration env st
            = (Ok tt,
               state_of (deliver (arrived (pull env))
                           (state_of (deliver (arrived (interval_sleep env))
                                        st))),
               Sleep 10 :: trace_of (deliver (arrived (interval_sleep env)) st)
               ++ GetSetpoint DOMOTICZ_FRIDGE_SETPOINT_IDX
                  :: trace_of (deliver (arrived (pull env))
                                 (state_of (deliver
                                              (arrived (interval_sleep env))
                                              st))))).
  { intros Hconn Hpull. unfold poll_iteration. rewrite Hconn. cbn [negb].
    change (DOMOTICZ_FRIDGE_SETPOINT_IDX =? "IDX_SETPOINT")%string with false.
    cbv iota. rewrite bind_run, await_run, Hsleep.
    cbn [outcome_of state_of trace_of fst snd].
    rewrite bind_run, await_run, Hpull.
    cbn [outcome_of state_of trace_of fst snd ret]. rewrite app_nil_r.
    reflexivity. }
  split.
  - intros Hconn. unfold poll_iteration. rewrite Hconn. cbn [negb].
    rewrite bind_run, await_run, Hsleep.
    cbn [outcome_of state_of trace_of fst snd ret]. rewrite app_nil_r.
    reflexivity.
  - intros Hconn Hpull. split; [apply Hnone; assumption|].
    rewrite (Hnone Hconn Hpull). cbn [trace_of snd]. split_trace.
    rewrite !deliver_writes_nothing. reflexivity.
Qed.

Lemma X15_idle_ticks_witness :
  let env := {| interval_sleep := completes tt;
                tick_connected := false;
                pull := completes (Some float_5_6);
                set_env := quiet_set_env |} in
  let after_sleep := deliver (arrived (interval_sleep env)) known_4 in
  poll_iteration env known_4
  = (Ok tt, state_of after_sleep, Sleep 10 :: trace_of after_sleep).
Proof.
  cbv zeta.
  apply (proj1 (X15_idle_ticks
                  {| interval_sleep := completes tt;
                     tick_connected := false;
                     pull := completes (Some float_5_6);
                     set_env := quiet_set_env |} known_4 eq_refl)).
  reflexivity.
Defined.

(** X16: when no setpoint is known yet (no query response was seen since
    start), a tick sends whatever the server holds: for every pulled value
    that rounds into -128..127 the connected client is written a set
    command carrying that rounded value. *)
Theorem X16_unknown_setpoint_is_overwritten (x : Q) (senv : SetTempEnv)
    (st : SyncState) :
  current_known_setpoint st = None ->
  is_connected senv = true ->
  -128 <= py_round x <= 127 ->
  exists pkt b,
    hd_error (written_frames (trace_of (poll_iteration (tick x senv) st)))
    = Some pkt
    /\ parse_frame pkt = Ok (x05, [b])
    /\ unpack_b b = py_round x.
Proof.
  intros Hknown Hconn Hrange.
  rewrite poll_iteration_differs by (rewrite Hknown; reflexivity).
  cbn [trace_of snd]. split_trace.
  destruct (pack_b_spec (py_round x) Hrange) as [b [Hpack Hunpack]].
  destruct (create_packet_layout [x05; b]) as [len [hi [lo [E [Vlen _]]]]];
    [cbn; lia|].
  exists ([xfe; xfe; len] ++ [x05; b] ++ [hi; lo]), b.
  split; [|split].
  - destruct (set_temperature_writes senv (py_round x) b _ st Hconn Hpack E)
      as [H|H]; rewrite H; reflexivity.
  - change ([xfe; xfe; len] ++ [x05; b] ++ [hi; lo])
      with ([xfe; xfe; len; x05] ++ [b] ++ [hi; lo]).
    apply parse_frame_framed. cbn [List.length] in *. lia.
  - exact Hunpack.
Qed.

Lemma X16_unknown_setpoint_is_overwritten_witness :
  exists pkt b,
    hd_error (written_frames
                (trace_of (poll_iteration (tick float_4_4 quiet_set_env)
                             initial_state)))
    = Some pkt
    /\ parse_frame pkt = Ok (x05, [b])
    /\ unpack_b b = py_round float_4_4.
Proof.
  apply (X16_unknown_setpoint_is_overwritten float_4_4 quiet_set_env
           initial_state eq_refl eq_refl).
  vm_compute. split; discriminate.
Defined.

(** X17: the loop is at rest once the known setpoint is the rounded remote
    value.  Over any number of ticks whose pulls all round to the known
    setpoint, with no notification arriving before the comparison, nothing
    is written to the device, no push is created and the globals do not
    change. *)
Theorem X17_loop_at_rest (k : Z) (ticks : list (Q * SetTempEnv))
    (st : SyncState) :
  current_known_setpoint st = Some k ->
  Forall (fun t => py_round (fst t) = k) ticks ->
  let run := poll_loop (map (fun t => tick (fst t) (snd t)) ticks) st in
  outcome_of run = Ok tt
  /\ state_of run = st
  /\ written_frames (trace_of run) = []
  /\ created_tasks (trace_of run) = [].
Proof.
  intros Hknown Hall. cbv zeta.
  induction Hall as [|[x senv] rest Hx Hrest IH]; cbn [map poll_loop].
  - repeat split.
  - cbn [fst snd] in Hx |- *. rewrite bind_run.
    rewrite poll_iteration_unchanged by (rewrite Hx; exact Hknown).
    cbn [outcome_of state_of trace_of fst snd].
    destruct IH as [Ho [Hs [Hw Hc]]].
    repeat split; assumption.
Qed.

Lemma X17_loop_at_rest_witness :
  let run :=
    poll_loop (map (fun t => tick (fst t) (snd t))
                 [(float_4_4, quiet_set_env); (float_4_4, failing_set_env)])
      known_4 in
  outcome_of run = Ok tt
  /\ state_of run = known_4
  /\ written_frames (trace_of run) = []
  /\ created_tasks (trace_of run) = [].
Proof.
  cbv zeta.
  apply (X17_loop_at_rest 4
           [(float_4_4, quiet_set_env); (float_4_4, failing_set_env)]
           known_4 eq_refl).
  repeat constructor.
Defined.

(** X18: one undisturbed tick brings the known setpoint to the rounded
    remote value, whatever it was before: after a tick on which the pull
    returns [x] (rounding into -128..127), the set command is written
    successfully if needed and no notification arrives, the known setpoint
    is [round(x)], and a further tick pulling [x] changes nothing. *)
Theorem X18_one_tick_converges (x : Q) (senv : SetTempEnv) (st : SyncState) :
  -128 <= py_round x <= 127 ->
  is_connected senv = true ->
  outcome (set_write senv) = Ok tt ->
  arrived (settle_sleep senv) = [] ->
  arrived (query_write senv) = [] ->
  arrived (reply_sleep senv) = [] ->
  let after := state_of (poll_iteration (tick x senv) st) in
  current_known_setpoint after = Some (py_round x)
  /\ (forall senv',
        poll_iteration (tick x senv') after
        = (Ok tt, after,
           [Sleep 10; GetSetpoint DOMOTICZ_FRIDGE_SETPOINT_IDX])).
Proof.
  intros Hrange Hconn Hset Hq1 Hq2 Hq3. cbv zeta.
  assert (Hafter : current_known_setpoint
                     (state_of (poll_iteration (tick x senv) st))
                   = Some (py_round x)).
  { destruct (differs (current_known_setpoint st) (py_round x)) eqn:Hd.
    - rewrite poll_iteration_differs by exact Hd.
      cbn [state_of fst snd].
      apply (set_temperature_known senv (py_round x) st Hconn Hrange Hset
               Hq1 Hq2 Hq3).
    - apply differs_some in Hd.
      rewrite poll_iteration_unchanged by exact Hd. exact Hd. }
  split; [exact Hafter|].
  intros senv'. apply poll_iteration_unchanged. exact Hafter.
Qed.

Lemma X18_one_tick_converges_witness :
  let after :=
    state_of (poll_iteration (tick float_5_6 quiet_set_env) initial_state) in
  current_known_setpoint after = Some (py_round float_5_6)
  /\ (forall senv',
        poll_iteration (tick float_5_6 senv') after
        = (Ok tt, after,
           [Sleep 10; GetSetpoint DOMOTICZ_FRIDGE_SETPOINT_IDX])).
Proof.
  cbv zeta.
  apply (X18_one_tick_converges float_5_6 quiet_set_env initial_state);
    try reflexivity.
  vm_compute. split; discriminate.
Defined.

(** X19: an exception at the interval sleep (the cancellation of the
    polling task arrives there) ends the loop at once: the iteration
    raises it without pulling the setpoint or writing to the device, the
    globals are those left by the notifications handled during the sleep,
    and no later iteration runs. *)
Theorem X19_cancelled_while_sleeping (env : TickEnv) (later : list TickEnv)
    (st : SyncState) (e : exn) :
  outcome (interval_sleep env) = Raise e ->
  let meanwhile := deliver (arrived (interval_sleep env)) st in
  poll_iteration env st
  = (Raise e, state_of meanwhile, Sleep 10 :: trace_of meanwhile)
  /\ poll_loop (env :: later) st = poll_iteration env st
  /\ written_frames (trace_of (poll_loop (env :: later) st)) = [].
Proof.
  intros Hsleep. cbv zeta.
  assert (Hiter : poll_iteration env st
                  = (Raise e,
                     state_of (deliver (arrived (interval_sleep env)) st),
                     Sleep 10
                     :: trace_of (deliver (arrived (interval_sleep env)) st))).
  { unfold poll_iteration. rewrite bind_run, await_run, Hsleep.
    reflexivity. }
  assert (Hloop : poll_loop (env :: later) st = poll_iteration env st).
  { cbn [poll_loop]. rewrite bind_run, Hiter. reflexivity. }
  split; [exact Hiter|]. split; [exact Hloop|].
  rewrite Hloop, Hiter. cbn [trace_of snd]. split_trace.
  apply deliver_writes_nothing.
Qed.

Lemma X19_cancelled_while_sleeping_witness :
  let env := {| interval_sleep := fails CancelledError;
                tick_connected := true;
                pull := completes (Some float_5_6);
                set_env := quiet_set_env |} in
  let meanwhile := deliver (arrived (interval_sleep env)) known_4 in
  poll_iteration env known_4
  = (Raise CancelledError, state_of meanwhile, Sleep 10 :: trace_of meanwhile)
  /\ poll_loop (env :: [quiet_tick float_5_6]) known_4
     = poll_iteration env known_4
  /\ written_frames
       (trace_of (poll_loop (env :: [quiet_tick float_5_6]) known_4)) = [].
Proof.
  cbv zeta.
  apply (X19_cancelled_while_sleeping
           {| interval_sleep := fails CancelledError;
              tick_connected := true;
              pull := completes (Some float_5_6);
              set_env := quiet_set_env |}
           [quiet_tick float_5_6] known_4 CancelledError).
  reflexivity.
Defined.

(* ================================================================== *)
(** * Properties of the upstream push *)



(* ================================================================== *)
(** * Properties of the setpoint pull *)

Lemma before_space_app (value rest : string) :
  before_space (value ++ " " ++ rest) = before_space value.
Proof.
  induction value as [|c value IH]; [reflexivity|].
  cbn [append before_space] in *. rewrite IH. reflexivity.
Qed.

Lemma before_space_none (value : string) :
  (forall c, In c (chars value) -> c <> " "%char) ->
  before_space value = value.
Proof.
  induction value as [|c value IH]; intros Hno; [reflexivity|].
  cbn [before_space].
  destruct (c =? " ")%char eqn:E.
  - apply Ascii.eqb_eq in E. exfalso. apply (Hno c); [left; reflexivity|].
    exact E.
  - rewrite IH; [reflexivity|]. intros c' Hc'. apply Hno. right. exact Hc'.
Qed.

(** What the pull makes of the usual body, given the field it settles
    on. *)
Lemma read_setpoint_device (float : string -> option pyfloat)
    (idx : string) (device : list (string * json)) (chosen : json) :
  (let? data_field := dict_get (JObject device) "Data" in
   let? with_svalue1 :=
     (if is_None data_field then dict_get (JObject device) "svalue1"
      else Ok data_field) in
   if is_None with_svalue1 then dict_get (JObject device) "SetPoint"
   else Ok with_svalue1)%result = Ok chosen ->
  read_setpoint float idx (device_body device)
  = if truthy chosen then
      match chosen with
      | JString text =>
          match float (before_space text) with
          | Some x => Ok (Some x, [])
          | None => Ok (None, [SetpointUnparsable text idx])
          end
      | _ => Raise OtherException
      end
    else Ok (None, [SetpointNoField idx]).
Proof.
  intros Hchosen. unfold read_setpoint, device_body.
  cbn [dict_get member fold_left fst snd String.eqb Ascii.eqb Bool.eqb
       equals_str rbind truthy subscript_key subscript_0].
  cbn [dict_get rbind] in Hchosen.
  destruct (member "Data" device) as [[]|]; cbn [rbind is_None] in *;
    try (injection Hchosen as <-; reflexivity);
    destruct (member "svalue1" device) as [[]|]; cbn [rbind is_None] in *;
    try (injection Hchosen as <-; reflexivity);
    destruct (member "SetPoint" device) as [[]|]; cbn [rbind is_None] in *;
    injection Hchosen as <-; reflexivity.
Qed.

Lemma pull_of_device (float : string -> option pyfloat) (idx : string)
    (device : list (string * json)) (chosen : json) :
  ((idx =? "") || (idx =? "IDX_SETPOINT"))%string = false ->
  (let? data_field := dict_get (JObject device) "Data" in
   let? with_svalue1 :=
     (if is_None data_field then dict_get (JObject device) "svalue1"
      else Ok data_field) in
   if is_None with_svalue1 then dict_get (JObject device) "SetPoint"
   else Ok with_svalue1)%result = Ok chosen ->
  snd (get_domoticz_setpoint float true idx
         (SetpointResponse 200 (Some (device_body device))))
  = if truthy chosen then
      match chosen with
      | JString text => Ok (float (before_space text))
      | _ => Raise OtherException
      end
    else Ok None.
Proof.
  intros Hidx Hchosen. unfold get_domoticz_setpoint.
  rewrite Hidx. cbn [negb Z.eqb Pos.eqb].
  rewrite (read_setpoint_device float idx device chosen Hchosen).
  destruct (truthy chosen); [|reflexivity].
  destruct chosen; try reflexivity.
  destruct (float (before_space s)); reflexivity.
Qed.

Lemma read_setpoint_prints (float : string -> option pyfloat) (idx : string)
    (data : json) (value : option pyfloat) (lines : list setpoint_event) :
  read_setpoint float idx data = Ok (value, lines) ->
  setpoint_requests lines = [].
Proof.
  unfold read_setpoint.
  repeat match goal with
         | |- context [rbind ?r _] => destruct r; cbn [rbind]
         | |- context [if ?c then _ else _] => destruct c
         | |- context [match ?x with _ => _ end] => destruct x
         end;
    intros H; try discriminate H; injection H as <- <-; reflexivity.
Qed.

(** X21: when the pull cannot be made or answered, [get_domoticz_setpoint]
    returns [None] and raises nothing.  With an empty or placeholder index
    or without a session it sends no request at all; otherwise it sends
    exactly one request, for the device [idx], and returns [None] on a
    client error, on a status other than 200 and on a body that is not
    JSON. *)
Theorem X21_pull_unavailable (float : string -> option pyfloat)
    (session : bool) (idx : string) (reply : setpoint_reply) :
  let run := get_domoticz_setpoint float session idx reply in
  (((idx =? "") || (idx =? "IDX_SETPOINT"))%string = true
   \/ session = false ->
   snd run = Ok None /\ setpoint_requests (fst run) = [])
  /\ (((idx =? "") || (idx =? "IDX_SETPOINT"))%string = false ->
      session = true ->
      setpoint_requests (fst run)
      = [(DOMOTICZ_URL ++ "/json.htm?type=devices&rid=" ++ idx)%string]
      /\ (reply = SetpointClientError -> snd run = Ok None)
      /\ (forall status body,
            reply = SetpointResponse status body ->
            status <> 200 \/ body = None -> snd run = Ok None)).
Proof.
  cbv zeta. unfold get_domoticz_setpoint. split.
  - intros [Hidx|Hsession].
    + rewrite Hidx. split; reflexivity.
    + destruct ((idx =? "") || (idx =? "IDX_SETPOINT"))%string;
        [split; reflexivity|].
      rewrite Hsession. split; reflexivity.
  - intros Hidx Hsession. rewrite Hidx, Hsession. cbn [negb].
    split; [|split].
    + destruct reply as [status body|]; [|reflexivity].
      destruct (status =? 200); [|reflexivity].
      destruct body as [data|]; [|reflexivity].
      destruct (read_setpoint float idx data) as [[value lines]|e] eqn:E.
      * cbn [fst]. change (SetpointGet ?u :: lines)
          with ([SetpointGet u] ++ lines).
        unfold setpoint_requests. rewrite flat_map_app.
        fold (setpoint_requests lines).
        rewrite (read_setpoint_prints float idx data value lines E).
        reflexivity.
      * destruct e; reflexivity.
    + intros ->. reflexivity.
    + intros status body -> [Hstatus|Hbody].
      * apply Z.eqb_neq in Hstatus. rewrite Hstatus. reflexivity.
      * rewrite Hbody. destruct (status =? 200); reflexivity.
Qed.

Lemma X21_pull_unavailable_witness :
  snd (get_domoticz_setpoint (fun _ => None) true "IDX_SETPOINT"
         (SetpointResponse 200 (Some (device_body []))))
  = Ok None
  /\ setpoint_requests
       (fst (get_domoticz_setpoint (fun _ => None) true "IDX_SETPOINT"
               (SetpointResponse 200 (Some (device_body [])))))
     = [].
Proof.
  apply (proj1 (X21_pull_unavailable (fun _ => None) true "IDX_SETPOINT"
                  (SetpointResponse 200 (Some (device_body []))))).
  left. reflexivity.
Defined.

(** X22: the order in which the fields of the device are tried.  On a 200
    answer with status OK the value is parsed from the field "Data" when
    it is present and not null; only when "Data" is missing or null from
    "svalue1"; and only when that too is missing or null from "SetPoint".
    What is parsed is the text before the first space of that field.  When
    all three are missing or null the result is [None], and an empty
    "Data" also gives [None]: the other two fields are not tried then. *)
Theorem X22_setpoint_field_priority (float : string -> option pyfloat)
    (idx : string) (device : list (string * json)) (text : string) :
  ((idx =? "") || (idx =? "IDX_SETPOINT"))%string = false ->
  text <> ""%string ->
  let answer :=
    snd (get_domoticz_setpoint float true idx
           (SetpointResponse 200 (Some (device_body device)))) in
  let field key := dict_get (JObject device) key in
  (field "Data"%string = Ok (JString text) ->
   answer = Ok (float (before_space text)))
  /\ (field "Data"%string = Ok JNull ->
      field "svalue1"%string = Ok (JString text) ->
      answer = Ok (float (before_space text)))
  /\ (field "Data"%string = Ok JNull -> field "svalue1"%string = Ok JNull ->
      field "SetPoint"%string = Ok (JString text) ->
      answer = Ok (float (before_space text)))
  /\ (field "Data"%string = Ok JNull -> field "svalue1"%string = Ok JNull ->
      field "SetPoint"%string = Ok JNull ->
      answer = Ok None)
  /\ (field "Data"%string = Ok (JString "") -> answer = Ok None).
Proof.
  intros Hidx Htext. cbv zeta.
  assert (Htruthy : truthy (JString text) = true).
  { cbn. apply negb_true_iff, String.eqb_neq. exact Htext. }
  split; [|split; [|split; [|split]]].
  - intros HD.
    rewrite (pull_of_device float idx device (JString text) Hidx)
      by (rewrite HD; reflexivity).
    rewrite Htruthy. reflexivity.
  - intros HD H1.
    rewrite (pull_of_device float idx device (JString text) Hidx)
      by (rewrite HD; cbn [rbind is_None]; rewrite H1; reflexivity).
    rewrite Htruthy. reflexivity.
  - intros HD H1 HS.
    rewrite (pull_of_device float idx device (JString text) Hidx)
      by (rewrite HD; cbn [rbind is_None]; rewrite H1; cbn [rbind is_None];
          exact HS).
    rewrite Htruthy. reflexivity.
  - intros HD H1 HS.
    rewrite (pull_of_device float idx device JNull Hidx)
      by (rewrite HD; cbn [rbind is_None]; rewrite H1; cbn [rbind is_None];
          exact HS).
    reflexivity.
  - intros HD.
    rewrite (pull_of_device float idx device (JString "") Hidx)
      by (rewrite HD; reflexivity).
    reflexivity.
Qed.

Lemma X22_setpoint_field_priority_witness :
  snd (get_domoticz_setpoint (fun _ => Some (Finite (5 # 1))) true "61"
         (SetpointResponse 200
            (Some (device_body [("svalue1", JString "7.0");
                                ("Data", JString "5.0 C")]%string))))
  = Ok ((fun _ : string => Some (Finite (5 # 1))) (before_space "5.0 C")).
Proof.
  apply (proj1 (X22_setpoint_field_priority
                  (fun _ => Some (Finite (5 # 1))) "61"
                  [("svalue1", JString "7.0"); ("Data", JString "5.0 C")]%string
                  "5.0 C" eq_refl ltac:(discriminate))).
  reflexivity.
Defined.

(** X23: a unit after the number is dropped.  When "Data" is a value
    without a space followed by a space and anything else (as in
    "25.0 C"), the pull returns [float] of the value alone. *)
Theorem X23_unit_suffix_is_dropped (float : string -> option pyfloat)
    (idx : string) (device : list (string * json)) (value unit : string) :
  ((idx =? "") || (idx =? "IDX_SETPOINT"))%string = false ->
  (forall c, In c (chars value) -> c <> " "%char) ->
  dict_get (JObject device) "Data" = Ok (JString (value ++ " " ++ unit)) ->
  snd (get_domoticz_setpoint float true idx
         (SetpointResponse 200 (Some (device_body device))))
  = Ok (float value).
Proof.
  intros Hidx Hvalue HD.
  rewrite (pull_of_device float idx device
             (JString (value ++ " " ++ unit)) Hidx)
    by (rewrite HD; reflexivity).
  assert (Htruthy : truthy (JString (value ++ " " ++ unit)) = true).
  { cbn [truthy]. apply negb_true_iff, String.eqb_neq.
    destruct value; discriminate. }
  rewrite Htruthy, before_space_app, before_space_none by exact Hvalue.
  reflexivity.
Qed.

Lemma X23_unit_suffix_is_dropped_witness :
  snd (get_domoticz_setpoint (fun _ => None) true "61"
         (SetpointResponse 200
            (Some (device_body [("Data", JString ("25.0" ++ " " ++ "C"))]%string))))
  = Ok ((fun _ : string => @None pyfloat) "25.0"%string).
Proof.
  apply (X23_unit_suffix_is_dropped (fun _ => None) "61"
           [("Data", JString ("25.0" ++ " " ++ "C"))]%string "25.0" "C").
  - reflexivity.
  - intros c Hc. cbn in Hc.
    destruct Hc as [<-|[<-|[<-|[<-|[]]]]]; discriminate.
  - reflexivity.
Defined.

(** X24: a field that is a JSON number is not parsed.  When the field the
    pull settles on is a non-zero number, taking its text fails with an
    exception that none of the [except] clauses catches, so it leaves
    [get_domoticz_setpoint]; when it is the number zero the result is
    [None], and the remaining fields are not tried. *)
Theorem X24_numeric_field (float : string -> option pyfloat)
    (idx : string) (device : list (string * json)) (q : Q) :
  ((idx =? "") || (idx =? "IDX_SETPOINT"))%string = false ->
  dict_get (JObject device) "Data" = Ok (JNumber q) ->
  snd (get_domoticz_setpoint float true idx
         (SetpointResponse 200 (Some (device_body device))))
  = if Qeq_bool q 0 then Ok None else Raise OtherException.
Proof.
  intros Hidx HD.
  rewrite (pull_of_device float idx device (JNumber q) Hidx)
    by (rewrite HD; reflexivity).
  cbn [truthy]. destruct (Qeq_bool q 0); reflexivity.
Qed.

Lemma X24_numeric_field_witness :
  snd (get_domoticz_setpoint (fun _ => None) true "61"
         (SetpointResponse 200
            (Some (device_body [("Data", JNumber (5 # 1))]%string))))
  = if Qeq_bool (5 # 1) 0 then Ok None else Raise OtherException.
Proof.
  apply (X24_numeric_field (fun _ => None) "61"
           [("Data", JNumber (5 # 1))]%string (5 # 1));
    reflexivity.
Defined.

(* ================================================================== *)
(** * The two files side by side *)

Lemma test_callback_writes_nothing (data : list byte) :
  fst (TestFridgeSession.callback data) = Ok tt
  /\ TestFridgeSession.written_frames (snd (TestFridgeSession.callback data))
     = [].
Proof.
  unfold TestFridgeSession.callback, TestFridgeSession.notification_handler.
  cbv [TestFridgeSession.bind TestFridgeSession.lift TestFridgeSession.emit
       TestFridgeSession.ret].
  destruct (TestFridge.parse_frame data) as [[cmd payload]|e];
    [|split; reflexivity].
  destruct (byte_val cmd =? 1).
  - destruct (index payload 14); [|split; reflexivity].
    destruct (index payload 4); [|split; reflexivity].
    destruct (index payload 15); [|split; reflexivity].
    destruct (index payload 16); [|split; reflexivity].
    destruct (index payload 17); split; reflexivity.
  - destruct (byte_val cmd =? 5); split; reflexivity.
Qed.

Lemma test_written_frames_app (t1 t2 : list TestFridgeSession.event) :
  TestFridgeSession.written_frames (t1 ++ t2)
  = TestFridgeSession.written_frames t1
    ++ TestFridgeSession.written_frames t2.
Proof. unfold TestFridgeSession.written_frames. apply flat_map_app. Qed.

Lemma test_deliver_writes_nothing (frames : list (list byte)) :
  fst (TestFridgeSession.deliver frames) = Ok tt
  /\ TestFridgeSession.written_frames (snd (TestFridgeSession.deliver frames))
     = [].
Proof.
  induction frames as [|data rest IH]; [split; reflexivity|].
  cbn [TestFridgeSession.deliver]. unfold TestFridgeSession.bind.
  destruct (test_callback_writes_nothing data) as [Ho Hw].
  destruct (TestFridgeSession.callback data) as [r t]. cbn [fst snd] in *.
  subst r. destruct IH as [Ho' Hw'].
  destruct (TestFridgeSession.deliver rest) as [r' t']. cbn [fst snd] in *.
  split; [exact Ho'|].
  rewrite test_written_frames_app, Hw, Hw'. reflexivity.
Qed.

Lemma test_await_run {R} (op : TestFridgeSession.event) (a : awaited R) :
  TestFridgeSession.await op a
  = (outcome a, op :: snd (TestFridgeSession.deliver (arrived a))).
Proof.
  unfold TestFridgeSession.await, TestFridgeSession.bind,
    TestFridgeSession.emit, TestFridgeSession.lift.
  destruct (test_deliver_writes_nothing (arrived a)) as [Ho _].
  destruct (TestFridgeSession.deliver (arrived a)) as [r t].
  cbn [fst snd] in *. subst r. cbn [app]. rewrite app_nil_r. reflexivity.
Qed.

Lemma quiet_sequence_writes (temp : Z) (b : byte) (pkt : list byte)
    (st : SyncState) :
  pack_b temp = Ok b ->
  create_packet [x05; b] = Ok pkt ->
  written_frames (trace_of (set_temperature quiet_set_env temp st))
  = [pkt; query_frame].
Proof.
  intros Hpack Hpkt. unfold set_temperature, quiet_set_env.
  cbn [is_connected set_write settle_sleep query_write reply_sleep negb].
  unfold_task. rewrite Hpack, Hpkt. rewrite !await_completes.
  configured. cbn [fst snd andb].
  change (create_packet [x01]) with (Ok query_frame).
  destruct st as [known ltemp ltarget]. cbn [fst snd].
  destruct (differs ltarget temp); reflexivity.
Qed.

(** X25: both files send the same bytes.  For every temperature from -128
    to 127, when the two writes and the sleep between them complete, the
    frames [set_temperature] of [test_fridge.py] writes (its query is a
    literal) are the frames [set_temperature] of
    [domoticz_fridge_control.py] writes (its query is built by
    [create_packet]): the set command, then the query. *)
Theorem X25_scripts_write_the_same_frames (env : TestFridgeSession.SetTempEnv)
    (temp : Z) (st : SyncState) :
  -128 <= temp <= 127 ->
  outcome (TestFridgeSession.set_write env) = Ok tt ->
  outcome (TestFridgeSession.ack_sleep env) = Ok tt ->
  outcome (TestFridgeSession.query_write env) = Ok tt ->
  TestFridgeSession.written_frames
    (snd (TestFridgeSession.set_temperature env temp))
  = written_frames (trace_of (set_temperature quiet_set_env temp st)).
Proof.
  intros Htemp Hw1 Hs1 Hw2.
  destruct (pack_b_spec temp Htemp) as [b [Hpack _]].
  destruct (create_packet_set b) as [pkt Hpkt].
  rewrite (quiet_sequence_writes temp b pkt st Hpack Hpkt).
  unfold TestFridgeSession.set_temperature.
  cbv [TestFridgeSession.bind TestFridgeSession.lift TestFridgeSession.emit
       TestFridgeSession.ret].
  rewrite Hpack. cbv beta iota zeta. rewrite Hpkt. cbv beta iota zeta.
  rewrite test_await_run, Hw1. cbv beta iota zeta.
  rewrite test_await_run, Hs1. cbv beta iota zeta.
  rewrite test_await_run, Hw2. cbv beta iota zeta.
  rewrite test_await_run.
  destruct (outcome (TestFridgeSession.reply_sleep env)) as [[]|e];
  cbn [snd app]; unfold TestFridgeSession.written_frames;
  cbn [flat_map app];
  repeat (rewrite flat_map_app; cbn [flat_map app]);
  fold TestFridgeSession.written_frames;
  rewrite !(proj2 (test_deliver_writes_nothing _)); reflexivity.
Qed.

Lemma X25_scripts_write_the_same_frames_witness :
  let env := {| TestFridgeSession.set_write := completes tt;
                TestFridgeSession.ack_sleep := completes tt;
                TestFridgeSession.query_write := completes tt;
                TestFridgeSession.reply_sleep := completes tt |} in
  TestFridgeSession.written_frames
    (snd (TestFridgeSession.set_temperature env 6))
  = written_frames (trace_of (set_temperature quiet_set_env 6 known_4)).
Proof.
  cbv zeta.
  apply (X25_scripts_write_the_same_frames
           {| TestFridgeSession.set_write := completes tt;
              TestFridgeSession.ack_sleep := completes tt;
              TestFridgeSession.query_write := completes tt;
              TestFridgeSession.reply_sleep := completes tt |} 6 known_4);
    try reflexivity.
  lia.
Defined.

(** X26: both files read a query response alike, and differ on a short
    one.  For a frame with command 0x01 whose payload
    [domoticz_fridge_control.py] reads as the reading [r], the handler of
    [test_fridge.py] prints the same four values (and the payload).  When
    the payload is too short, the handler of [test_fridge.py] raises
    IndexError having printed nothing, while the handler of
    [domoticz_fridge_control.py] catches it and returns normally. *)
Theorem X26_handlers_read_alike (data : list byte) (cmd : byte)
    (payload : list byte) (st : SyncState) :
  parse_frame data = Ok (cmd, payload) ->
  byte_val cmd = 1 ->
  (forall r,
      read_query payload = Ok r ->
      TestFridgeSession.notification_handler data
      = (Ok tt,
         [TestFridgeSession.Print (TestFridgeSession.LineTemp (actual_temp r));
          TestFridgeSession.Print
            (TestFridgeSession.LineTarget (target_temp r));
          TestFridgeSession.Print
            (TestFridgeSession.LineBattery (bat_percent r) (bat_vol r));
          TestFridgeSession.Print
            (TestFridgeSession.LineQueryPayload payload)]))
  /\ (read_query payload = Raise IndexError ->
      TestFridgeSession.notification_handler data = (Raise IndexError, [])
      /\ outcome_of (notification_handler data st) = Ok tt).
Proof.
  intros Hparse Hcmd.
  assert (Htest : TestFridge.parse_frame data = Ok (cmd, payload))
    by (rewrite parse_frame_versions_agree; exact Hparse).
  split.
  - intros r Hread.
    unfold TestFridgeSession.notification_handler.
    cbv [TestFridgeSession.bind TestFridgeSession.lift TestFridgeSession.emit
         TestFridgeSession.ret].
    rewrite Htest, Hcmd. cbn [Z.eqb Pos.eqb].
    unfold read_query in Hread.
    destruct (index payload 14) as [b14|]; [|discriminate Hread].
    destruct (index payload 4) as [b4|]; [|discriminate Hread].
    destruct (index payload 15) as [b15|]; [|discriminate Hread].
    destruct (index payload 16) as [b16|]; [|discriminate Hread].
    destruct (index payload 17) as [b17|]; [|discriminate Hread].
    cbn [rbind] in Hread. injection Hread as <-. reflexivity.
  - intros Hread. split.
    + unfold TestFridgeSession.notification_handler.
      cbv [TestFridgeSession.bind TestFridgeSession.lift
           TestFridgeSession.emit TestFridgeSession.ret].
      rewrite Htest, Hcmd. cbn [Z.eqb Pos.eqb].
      unfold read_query in Hread.
      destruct (index payload 14) as [b14|e14];
        [|cbn [rbind] in Hread; injection Hread as ->; reflexivity].
      destruct (index payload 4) as [b4|e4];
        [|cbn [rbind] in Hread; injection Hread as ->; reflexivity].
      destruct (index payload 15) as [b15|e15];
        [|cbn [rbind] in Hread; injection Hread as ->; reflexivity].
      destruct (index payload 16) as [b16|e16];
        [|cbn [rbind] in Hread; injection Hread as ->; reflexivity].
      destruct (index payload 17) as [b17|e17];
        [|cbn [rbind] in Hread; injection Hread as ->; reflexivity].
      discriminate Hread.
    + rewrite (notification_handler_short _ _ _ st Hparse Hcmd Hread).
      reflexivity.
Qed.

Lemma X26_handlers_read_alike_witness :
  TestFridgeSession.notification_handler sample_response
  = (Ok tt,
     [TestFridgeSession.Print (TestFridgeSession.LineTemp 2);
      TestFridgeSession.Print (TestFridgeSession.LineTarget (-4));
      TestFridgeSession.Print (TestFridgeSession.LineBattery 85 "3.7");
      TestFridgeSession.Print
        (TestFridgeSession.LineQueryPayload sample_payload)]).
Proof.
  apply (proj1 (X26_handlers_read_alike sample_response x01 sample_payload
                  initial_state eq_refl eq_refl)
           {| actual_temp := 2; target_temp := -4; bat_percent := 85;
              bat_vol := "3.7" |}).
  reflexivity.
Defined.

(** X27: [set_temperature] of [test_fridge.py] has no [try]: when the
    write of the set command raises, whatever the exception, it leaves the
    function after that single write, and the query is never sent. *)
Theorem X27_script_errors_propagate (env : TestFridgeSession.SetTempEnv)
    (temp : Z) (e : exn) :
  -128 <= temp <= 127 ->
  outcome (TestFridgeSession.set_write env) = Raise e ->
  fst (TestFridgeSession.set_temperature env temp) = Raise e
  /\ List.length
       (TestFridgeSession.written_frames
          (snd (TestFridgeSession.set_temperature env temp))) = 1%nat.
Proof.
  intros Htemp Hw1.
  destruct (pack_b_spec temp Htemp) as [b [Hpack _]].
  destruct (create_packet_set b) as [pkt Hpkt].
  unfold TestFridgeSession.set_temperature.
  cbv [TestFridgeSession.bind TestFridgeSession.lift TestFridgeSession.emit
       TestFridgeSession.ret].
  rewrite Hpack. cbv beta iota zeta. rewrite Hpkt. cbv beta iota zeta.
  rewrite test_await_run, Hw1. cbv beta iota zeta.
  cbn [fst snd app]. split; [reflexivity|].
  unfold TestFridgeSession.written_frames. cbn [flat_map app].
  fold TestFridgeSession.written_frames.
  rewrite (proj2 (test_deliver_writes_nothing _)). reflexivity.
Qed.

Lemma X27_script_errors_propagate_witness :
  let env := {| TestFridgeSession.set_write := fails BleakError;
                TestFridgeSession.ack_sleep := completes tt;
                TestFridgeSession.query_write := completes tt;
                TestFridgeSession.reply_sleep := completes tt |} in
  fst (TestFridgeSession.set_temperature env 6) = Raise BleakError
  /\ List.length
       (TestFridgeSession.written_frames
          (snd (TestFridgeSession.set_temperature env 6))) = 1%nat.
Proof.
  cbv zeta.
  apply (X27_script_errors_propagate
           {| TestFridgeSession.set_write := fails BleakError;
              TestFridgeSession.ack_sleep := completes tt;
              TestFridgeSession.query_write := completes tt;
              TestFridgeSession.reply_sleep := completes tt |} 6 BleakError).
  - lia.
  - reflexivity.
Defined.
